(** * replication-manager: supervisor heartbeat, configuration merge,
    proxy monitoring and the event-code table

  A shallow embedding of the parts of the Go sources that the
  specification talks about:

  - [Server]: [HeartbeatPeerSplitBrain], [Heartbeat], the start of [Run]
    and the served [handlerMuxMonitorHeartbeat] (package server);
  - [Viper] and [ClusterConfig]: [initAlias] and [GetClusterConfig]
    (package server), over a model of the configuration library;
  - [Proxies] and [ProxySlice]: [refreshProxies] (package cluster);
  - [Errors]: the [clusterError] table (package cluster);
  - [ServerLoop], [Discovery], [ConfigLoad] and [ClusterStart]: the main
    loop of [Run], [DiscoverClusters], the cluster list of [InitConfig]
    and [StartCluster] (package server);
  - [Login]: [loginHandler] (package server);
  - [ProxyList]: [newProxyList] (package cluster).

  Go [int], [int64] and [time.Duration] values are integers in [Z] with the
  64-bit wrap-around written out.  Go maps are [gmap]s.  Calls that leave
  the process (HTTP, the proxy drivers) are functions of an explicit
  environment, and the requests sent are recorded in a trace.  Logging is
  not modelled: it changes no state that the code reads back. *)

From Stdlib Require Import ZArith Lia Ascii String.
From stdpp Require Import gmap strings list fin_maps.

Local Open Scope Z_scope.
Local Open Scope string_scope.

(** ** Go primitives *)

Module Go.

(** Two's-complement reduction of an integer to 64 bits. *)
Definition int64_wrap (z : Z) : Z := (z + 2 ^ 63) mod 2 ^ 64 - 2 ^ 63.

Definition int64_add (a b : Z) : Z := int64_wrap (a + b).
Definition int64_mul (a b : Z) : Z := int64_wrap (a * b).

(** A Go call returning [(value, error)]. *)
Inductive result (A : Type) : Type :=
| Ok (a : A)
| Err (e : string).
Global Arguments Ok {A} a.
Global Arguments Err {A} e.

(** [strings.Split(s, sep)] for a one-byte separator: the pieces of [s]
    between the separators, the empty string giving one empty piece. *)
Fixpoint Split (s : string) (sep : Ascii.ascii) : list string :=
  match s with
  | EmptyString => [EmptyString]
  | String c s' =>
      if decide (c = sep) then EmptyString :: Split s' sep
      else match Split s' sep with
           | piece :: rest => String c piece :: rest
           | [] => [String c EmptyString]
           end
  end.

(** [time.Second], in nanoseconds. *)
Definition Second : Z := 1000000000.

End Go.

(** ** Package server: heartbeat between controllers *)

Module Server.
Import Go.

Definition ConstMonitorActif : string := "A".
Definition ConstMonitorStandby : string := "S".

(** The Go type [Heartbeat]; the name [Heartbeat] is kept for the method. *)
Record HeartbeatMsg : Type := mkHeartbeat {
  UUID : string;
  Secret : string;
  Cluster : string;
  Master : string;
  UID : Z;
  Status : string;
  Hosts : Z;
  Failed : Z }.

(** The fields of [config.Config] that this part of the code reads. *)
Record Config : Type := mkConfig {
  MonitoringTicker : Z;
  LogHeartbeat : bool;
  Arbitration : bool;
  ArbitrationPeerHosts : string;
  ArbitrationSasUniqueId : Z;
  ArbitrationSasSecret : string }.

Definition set_Arbitration (b : bool) (c : Config) : Config :=
  mkConfig (MonitoringTicker c) (LogHeartbeat c) b (ArbitrationPeerHosts c)
           (ArbitrationSasUniqueId c) (ArbitrationSasSecret c).

(** The fields of [cluster.Cluster] that the supervisor touches; [master_URL]
    is the primary the cluster currently sees. *)
Record ClusterT : Type := mkCluster {
  Name : string;
  master_URL : string;
  IsSplitBrain : bool }.

Definition set_IsSplitBrain (b : bool) (cl : ClusterT) : ClusterT :=
  mkCluster (Name cl) (master_URL cl) b.

Record ReplicationManager : Type := mkRepMan {
  repman_UUID : string;
  repman_Status : string;
  SplitBrain : bool;
  Conf : Config;
  Clusters : gmap string ClusterT }.

Definition set_SplitBrain (b : bool) (r : ReplicationManager) : ReplicationManager :=
  mkRepMan (repman_UUID r) (repman_Status r) b (Conf r) (Clusters r).

Definition set_Conf (c : Config) (r : ReplicationManager) : ReplicationManager :=
  mkRepMan (repman_UUID r) (repman_Status r) (SplitBrain r) c (Clusters r).

(** *** The HTTP side *)

Record Request : Type := mkRequest { req_method : string; req_url : string }.

(** [http.Client]: [Timeout] is a [time.Duration], in nanoseconds. *)
Record Client : Type := mkClient { Timeout : Z }.

(** [Body] is what reading the response body to its end gives. *)
Record Response : Type := mkResponse { Body : result string }.

(** One [client.Do] call. *)
Definition Call : Type := (Client * Request)%type.

(** What lies outside the process.  [client_Do] sees the calls made so far,
    so the same peer may answer differently from one call to the next. *)
Record Net : Type := mkNet {
  http_NewRequest : string -> string -> result Request;
  client_Do : list Call -> Client -> Request -> result Response;
  json_Unmarshal : string -> result HeartbeatMsg }.

(** [time.Duration(repman.Conf.MonitoringTicker) * time.Second * 4] *)
Definition heartbeat_timeout (c : Config) : Z :=
  int64_mul (int64_mul (MonitoringTicker c) Second) 4.

Definition peer_url (peer : string) : string :=
  "http://" +:+ peer +:+ "/api/heartbeat".

(** [bcksplitbrain] only selects which failures are logged. *)
Definition HeartbeatPeerSplitBrain (net : Net) (repman : ReplicationManager)
    (peer : string) (bcksplitbrain : bool) (w : list Call) : bool * list Call :=
  let timeout := heartbeat_timeout (Conf repman) in
  let url := peer_url peer in
  let client := mkClient timeout in
  match http_NewRequest net "GET" url with
  | Err _ => (true, w)
  | Ok req =>
      let w' := (w ++ [(client, req)])%list in
      match client_Do net w client req with
      | Err _ => (true, w')
      | Ok resp =>
          match Body resp with
          | Err _ => (true, w')
          | Ok monjson =>
              match json_Unmarshal net monjson with
              | Err _ => (true, w')
              | Ok h => (false, w')
              end
          end
      end
  end.

(** The loop over [peerList]: each peer's result is stored in
    [repman.SplitBrain]. *)
Definition heartbeat_peer (net : Net) (bcksplitbrain : bool)
    (st : ReplicationManager * list Call) (peer : string)
    : ReplicationManager * list Call :=
  let '(sb, w') := HeartbeatPeerSplitBrain net st.1 peer bcksplitbrain st.2 in
  (set_SplitBrain sb st.1, w').

Definition heartbeat_peers (net : Net) (bcksplitbrain : bool)
    (peerList : list string) (st : ReplicationManager * list Call)
    : ReplicationManager * list Call :=
  foldl (heartbeat_peer net bcksplitbrain) st peerList.

(** The loop over [repman.Clusters]. *)
Definition propagate_SplitBrain (r : ReplicationManager) : ReplicationManager :=
  mkRepMan (repman_UUID r) (repman_Status r) (SplitBrain r) (Conf r)
           (set_IsSplitBrain (SplitBrain r) <$> Clusters r).

(** [cfgGroup] is the package-level variable of that name. *)
Definition Heartbeat (cfgGroup : string) (net : Net)
    (repman : ReplicationManager) (w : list Call)
    : ReplicationManager * list Call :=
  if decide (cfgGroup = "arbitrator") then (repman, w)
  else if decide (ArbitrationPeerHosts (Conf repman) = "") then
    (set_Conf (set_Arbitration false (Conf repman)) repman, w)
  else
    let peerList := Split (ArbitrationPeerHosts (Conf repman)) ","%char in
    let bcksplitbrain := SplitBrain repman in
    let st := heartbeat_peers net bcksplitbrain peerList (repman, w) in
    (propagate_SplitBrain st.1, st.2).

(** *** The start of [Run] and the served endpoint *)

(** [Run] from [repman.Clusters = make(...)] to [repman.SplitBrain = false],
    which all comes before [go repman.apiserver()]; [uuid] is what
    [misc.GetUUID()] returns. *)
Definition Run_init (uuid : string) (repman : ReplicationManager)
    : ReplicationManager :=
  mkRepMan uuid
           (if Arbitration (Conf repman) then ConstMonitorStandby
            else ConstMonitorActif)
           false (Conf repman) ∅.

(** [repman.Clusters[clusterName] = repman.currentCluster] in [StartCluster]. *)
Definition StartCluster (clusterName : string) (cl : ClusterT)
    (repman : ReplicationManager) : ReplicationManager :=
  mkRepMan (repman_UUID repman) (repman_Status repman) (SplitBrain repman)
           (Conf repman) (<[clusterName := cl]> (Clusters repman)).

(** What the supervisor does once started: register clusters, and run
    [Heartbeat] in the main loop while [repman.Conf.Arbitration] holds. *)
Inductive step : ReplicationManager -> ReplicationManager -> Prop :=
| step_StartCluster clusterName cl r :
    step r (StartCluster clusterName cl r)
| step_Heartbeat cfgGroup net r w :
    Arbitration (Conf r) = true ->
    step r (Heartbeat cfgGroup net r w).1.

(** The states in which the API server can be asked for a heartbeat. *)
Inductive serving : ReplicationManager -> Prop :=
| serving_init uuid r0 : serving (Run_init uuid r0)
| serving_step r r' : serving r -> step r r' -> serving r'.

(** The JSON values that [encoding/json] writes for string and integer
    fields, and a JSON object as its members in order. *)
Inductive JValue : Type :=
| JString (s : string)
| JNumber (z : Z).

Definition JObject : Type := list (string * JValue).

(** [json.NewEncoder(w).Encode(send)] for a [Heartbeat]: one member per
    field, named by its [json] tag, none of them [omitempty]. *)
Definition Encode_Heartbeat (h : HeartbeatMsg) : JObject :=
  [ ("uuid", JString (UUID h));
    ("secret", JString (Secret h));
    ("cluster", JString (Cluster h));
    ("master", JString (Master h));
    ("id", JNumber (UID h));
    ("status", JString (Status h));
    ("hosts", JNumber (Hosts h));
    ("failed", JNumber (Failed h)) ].

Record HTTPReply : Type := mkReply {
  reply_ContentType : string;
  reply_body : JObject }.

(** [var send Heartbeat] starts from the zero value; four fields are set. *)
Definition handlerMuxMonitorHeartbeat (repman : ReplicationManager) : HTTPReply :=
  let send := mkHeartbeat (repman_UUID repman)
                          (ArbitrationSasSecret (Conf repman))
                          "" ""
                          (ArbitrationSasUniqueId (Conf repman))
                          (repman_Status repman)
                          0 0 in
  mkReply "application/json; charset=UTF-8" (Encode_Heartbeat send).

(** The member names of a JSON object, and the value of a member. *)
Definition member_names (j : JObject) : list string := j.*1.

Fixpoint member (name : string) (j : JObject) : option JValue :=
  match j with
  | [] => None
  | (n, v) :: rest => if decide (n = name) then Some v else member name rest
  end.

End Server.

(** ** Package cluster: the event-code table *)

Module Errors.

(** The line feed that Go writes [\n]. *)
Definition LF : string := String (Ascii.ascii_of_nat 10) EmptyString.

(** The entries of the map literal [clusterError], in source order. *)
Definition clusterError_entries : list (string * string) := [
  ("ERR00001", "Monitor freeze while running critical section");
  ("ERR00002", "Waiting for a user manual failover");
  ("ERR00004", "Database %s access denied: %s");
  ("ERR00005", "Could not get privileges for user %s@%s: %s");
  ("ERR00006", "User must have REPLICATION CLIENT privilege on %s");
  ("ERR00007", "User must have REPLICATION SLAVE privilege on %s");
  ("ERR00008", "User must have SUPER privilege %s");
  ("ERR00009", "User must have RELOAD privilege %s");
  ("ERR00010", "Could not find a slave in topology");
  ("ERR00011", "Found multiple masters in topology but not explicitely setup");
  ("ERR00012", "Could not find a master in topology");
  ("ERR00013", "Binary log disabled on slave: %s");
  ("ERR00014", "Could not get binlog dump count on server %s: %s");
  ("ERR00015", "Could not get privileges for user %s on server %s: %s");
  ("ERR00016", "Master is unreachable but slaves are replicating");
  ("ERR00017", "Unable to fetch MaxScale monitoring information");
  ("ERR00018", "Could not connect to MaxScale: %s");
  ("ERR00019", "Could not get MaxScale maxadmin server list: %s");
  ("ERR00020", "Could not get MaxScale maxinfo server list: %s");
  ("ERR00021", "Cluster state down");
  ("ERR00022", "Running in passive mode");
  ("ERR00023", "Constraint failed: state %s, conf.Interactive %t cluster.isMaxMasterFailedCountReach %t");
  ("ERR00024", "Constraint failed: isExternalOk %t,isActiveArbitration %t,isBeetwenFailoverTimeTooShort %t ,isMaxClusterFailoverCountReach %t, isOneSlaveHeartbeatIncreasing %t, isMaxscaleSupectRunning %t");
  ("ERR00025", "Could not get MaxScale maxinfo server list: %s");
  ("ERR00026", "First node restarted is a slave, non-interactive mode");
  ("ERR00027", "Number of cluster failovers exceeded");
  ("ERR00028", "Slave %s can still communicate with the master");
  ("ERR00029", "Time between failovers too short");
  ("ERR00030", "Maxscale %s can still communicate with the master");
  ("ERR00031", "External API can still communicate with the master");
  ("ERR00032", "No candidates found in slaves list");
  ("ERR00033", "Skip slave in election %s have no master log file, slave might have failed");
  ("ERR00034", "Skip slave in election %s repl not electable for switchover");
  ("ERR00035", "Skip slave in election %s multi-master and is already the master");
  ("ERR00036", "Skip slave in election %s is relay");
  ("ERR00037", "Skip slave in election %s in ignore list");
  ("ERR00038", "Skip slave in election %s repl not electable for failover");
  ("ERR00039", "Skip slave in election %s repl not electable");
  ("ERR00040", "Skip slave in election %s does not ping or has no binlogs");
  ("ERR00041", "Skip slave in election %s has more than %d seconds of replication delay (%d)");
  ("ERR00042", "Skip slave in election %s SQL Thread is stopped");
  ("ERR00043", "Skip slave in election %s Semisync report unsynced");
  ("ERR00044", "Can't connect to OpenSVC collector %s");
  ("ERR00045", "Found forbidden relay topology, trying to fix");
  ("ERR00046", "Can't fix relay topology: high replication delay");
  ("ERR00047", "Skip slave in election %s - Maintenance mode");
  ("ERR00048", "Broken muti master ring");
  ("ERR00049", "Waiting old master to rejoin in positional mode to rejoin slave");
  ("ERR00050", "Can't connect to proxy %s");
  ("ERR00051", "ProxySQL connection error: %s");
  ("ERR00052", "Could not get stats to HaProxy: %s");
  ("ERR00053", "ProxySQL can't load users (%s)");
  ("ERR00054", "ProxySQL can't add user (%s)");
  ("ERR00055", "Arbitrator unreachable (%s)");
  ("ERR00056", "Master user %s is not defined on replication candidate %s");
  ("ERR00057", "Database duplicate users not allowed in proxysql %s");
  ("ERR00058", "Sphinx connection error: %s");
  ("ERR00059", "Ignored server %s not found in configured server list");
  ("ERR00060", "To many non closed task in scheduler, donor may not work on server %s");
  ("ERR00061", "No user:password credential specified");
  ("ERR00062", "DNS resolution for host %s error %s");
  ("ERR00063", "Extra master in master slave topology rejoin it after split brain");
  ("ERR00064", "Server %s is not a slave of declared master %s, and replication no relay is enable: Pointing to %s");
  ("ERR00065", "No crash found on current master when rejoining slave %s to %s");
  ("ERR00066", "No crash found on current master when rejoining standalone %s to %s");
  ("ERR00067", "Found slave to rejoin %s slave was previously in state %s replication io thread  %s, pointing currently to %s");
  ("ERR00068", "Arbitration looser");
  ("ERR00069", "ProxySQL could not set %s as reader (%s) different state OFFLINE_HARD");
  ("ERR00070", "ProxySQL could not set %s as reader (%s) different state ONLINE");
  ("ERR00071", "ProxySQL could not set discoverd master %s as writer (%s)");
  ("ERR00072", "ProxySQL could not set discoverd slave %s as reader (%s)");
  ("ERR00073", "Could not get events on server %s");
  ("ERR00074", "Prefered server %s not found in configured server list");
  ("ERR00075", "Can't fecth Processlist %s");
  ("ERR00076", "Connections reach 80 pourcent threshold: %s");
  ("ERR00077", "All databases state down");
  ("ERR00078", "Could not resolve IP from connection %s@%s: with hostname %s on server %s");
  ("ERR00079", "Disk %s usage high on %s");
  ("ERR00080", "Connection use old TLS keys on %s");
  ("ERR00081", "Connection use no TLS keys on %s");
  ("ERR00082", "Could not get agents from orchestrator %s");
  ("ERR00083", "Different cluster uuid found on %s:%s %s:%s");
  ("ERR00084", "Cluster have no master when slave %s was started");
  ("ERR00085", "No replica found for routing reads");
  ("ERR00086", "Sharding proxy refresh no database monitor yet initialize");
  ("ERR00087", "Skip slave in election %s IO Thread is stopped with valid leader");
  ("ERR00088", "Authentification error in replication IO thread");
  ("ERR00089", "Authentification error to Vault %s");
  ("ERR00090", "Monitoring save config enable but no encryption key for password, see the keygen command");
  ("WARN0022", "Rejoining standalone server %s to master %s");
  ("WARN0023", "Number of failed master ping has been reached");
  ("WARN0045", "Provision task is in queue");
  ("WARN0046", "Provision task is waiting");
  ("WARN0047", "Entreprise provision of MariaDB Sharding Cluster not yet implemented");
  ("WARN0048", "No semisync settings on slave %s");
  ("WARN0049", "No binlog format ROW on slave %s and flashback activated");
  ("WARN0050", "No Heartbeat <= 1s on slave %s");
  ("WARN0051", "No GTID replication on slave %s");
  ("WARN0052", "No InnoDB durability on slave %s");
  ("WARN0053", "No replication checksum on slave %s");
  ("WARN0054", "No log of replication queries in slow query on slave %s");
  ("WARN0055", "ROW or MIXED binlog format and replicate_annotate_row_events is off on slave %s");
  ("WARN0056", "No compression of binlog on slave %s");
  ("WARN0057", "No log-slave-updates on slave %s");
  ("WARN0058", "No GTID strict mode on slave %s");
  ("WARN0059", "No replication crash-safe settings on slave %s");
  ("WARN0060", "No semisync settings on master %s");
  ("WARN0061", "No binlog format ROW on master %s and flashback activated");
  ("WARN0062", "No Heartbeat <= 1s on master %s");
  ("WARN0064", "No InnoDB durability on master %s");
  ("WARN0065", "No replication checksum on master %s");
  ("WARN0066", "No log of replication queries in slow query on master %s");
  ("WARN0067", "RBR is on and Binlog Annotation is off on master %s");
  ("WARN0068", "No compression of binlog on slave %s");
  ("WARN0069", "No log-slave-updates on master %s");
  ("WARN0070", "No GTID strict mode on master %s");
  ("WARN0071", "No replication crash-safe settings on master %s");
  ("WARN0072", "Running optimize table %s on server %s");
  ("WARN0073", "Running physical backup %s on server %s");
  ("WARN0074", "Reseeding physical backup %s on server %s");
  ("WARN0075", "Reseeding logical backup %s on server %s");
  ("WARN0076", "Flashback physical backup %s on server %s");
  ("WARN0077", "Flashback logical backup %s on server %s");
  ("WARN0078", "Haproxy version to old to get statistics");
  ("WARN0079", "Cluster is split brain");
  ("WARN0080", "Cluster lost majority");
  ("WARN0081", "Cluster arbitrator error in reporting %s");
  ("WARN0082", "Cluster arbitrator error in arbitration %s");
  ("WARN0083", "Arbitration winner");
  ("WARN0084", "Variable diff:" +:+ LF +:+ " %s");
  ("WARN0085", "Server %s in capture mode");
  ("WARN0086", "Checksum table waiting replication sync on slave %s");
  ("WARN0087", "Cluster same server_id %s %s");
  ("WARN0088", "High number of slow queries %s ");
  ("WARN0089", "ShardProxy Could not fetch master schemas %s");
  ("WARN0090", "Cluster arbitrator unreachable %s");
  ("WARN0091", "Server as errant transaction %s");
  ("WARN0092", "ProxySQL could not load query rules from runtime (%s)");
  ("WARN0093", "Restic fetch repo issue: %s" +:+ LF +:+ "%s" +:+ LF +:+ "%s");
  ("WARN0094", "Restic purge repo issue: %s" +:+ LF +:+ "%s" +:+ LF +:+ "%s");
  ("WARN0095", "Restic init repo issue: %s" +:+ LF +:+ "%s" +:+ LF +:+ "%s");
  ("WARN0096", "Restart database server via job request %s");
  ("WARN0097", "Stop database server via job request %s");
  ("WARN0098", "ProxySQL could not load global variables from runtime (%s)");
  ("WARN0099", "MariaDB version as replication issue https://jira.mariadb.org/browse/MDEV-20821");
  ("WARN0100", "No space left on device pn %s");
  ("WARN0101", "Cluster does not have backup");
  ("WARN0102", "The config file must be merge because an immutable parameter has been changed. Use the config-merge command to save your changes.");
  ("WARN0103", "Enforce replication mode idempotent but  strict on server %s");
  ("WARN0104", "Enforce replication mode strict but idempotent on server %s") ].

(** [var clusterError = map[string]string{...}] *)
Definition clusterError : gmap string string := list_to_map clusterError_entries.

End Errors.

(** ** The configuration library, as [GetClusterConfig] and [initAlias] use it

  The library is not part of the repository.  An instance is modelled by
  the layers that the code reaches, in the order in which a lookup consults
  them: the values written by [Set], the environment (when [AutomaticEnv]
  was called) and the section read from the configuration files, plus the
  alias table.  Keys are flat: a section is a map from lower-case keys to
  scalar values, which Go compares with [!=] without panicking. *)

Module Viper.

Definition lower_ascii (c : Ascii.ascii) : Ascii.ascii :=
  let n := Ascii.N_of_ascii c in
  if ((65 <=? n) && (n <=? 90))%N then Ascii.ascii_of_N (n + 32) else c.

(** [strings.ToLower], on ASCII. *)
Fixpoint ToLower (s : string) : string :=
  match s with
  | EmptyString => EmptyString
  | String c rest => String (lower_ascii c) (ToLower rest)
  end.

Inductive Value : Type :=
| VBool (b : bool)
| VInt (z : Z)
| VString (s : string).

Global Instance Value_eq_dec : EqDecision Value.
Proof. solve_decision. Defined.

Record Viper : Type := mkViper {
  aliases : gmap string string;
  override : gmap string Value;
  automaticEnvApplied : bool;
  env : gmap string Value;
  config : gmap string Value }.

(** [realKey] follows the alias table until a key that is no alias; the
    table never holds a cycle, so one step per entry is enough. *)
Fixpoint realKey_fuel (fuel : nat) (al : gmap string string) (key : string)
    : string :=
  match fuel with
  | O => key
  | S n => match al !! key with
           | Some newkey => realKey_fuel n al newkey
           | None => key
           end
  end.

Definition realKey_in (al : gmap string string) (key : string) : string :=
  realKey_fuel (S (size al)) al key.

Definition realKey (v : Viper) (key : string) : string :=
  realKey_in (aliases v) key.

(** [find]: [Set] values first, then the environment, then the file. *)
Definition find (v : Viper) (lcaseKey : string) : option Value :=
  let k := realKey v lcaseKey in
  match override v !! k with
  | Some val => Some val
  | None =>
      match (if automaticEnvApplied v then env v !! k else None) with
      | Some val => Some val
      | None => config v !! k
      end
  end.

(** [Get]; [None] is Go's [nil]. *)
Definition Get (v : Viper) (key : string) : option Value :=
  find v (ToLower key).

Definition Set_ (v : Viper) (key : string) (value : Value) : Viper :=
  let k := realKey v (ToLower key) in
  mkViper (aliases v) (<[k := value]> (override v)) (automaticEnvApplied v)
          (env v) (config v).

Definition AutomaticEnv (v : Viper) : Viper :=
  mkViper (aliases v) (override v) true (env v) (config v).

(** [AllKeys]: the keys of every layer and the alias names, in no
    particular order. *)
Definition AllKeys (v : Viper) : list string :=
  elements (dom (aliases v) ∪ dom (override v) ∪ dom (config v)).

(** [AllSettings]: every key of [AllKeys] with the value [Get] finds. *)
Definition AllSettings (v : Viper) : gmap string Value :=
  foldl (fun m k => match Get v k with
                    | Some val => <[k := val]> m
                    | None => m
                    end) ∅ (AllKeys v).

(** [delete(m, alias); m[key] = val] when [alias] is in [m]. *)
Definition move_key (alias key : string) (m : gmap string Value)
    : gmap string Value :=
  match m !! alias with
  | Some val => <[key := val]> (delete alias m)
  | None => m
  end.

(** [RegisterAlias(alias, key)] *)
Definition RegisterAlias (alias key : string) (v : Viper) : Viper :=
  let alias := ToLower alias in
  let key := ToLower key in
  if decide (alias ≠ key ∧ alias ≠ realKey v key) then
    match aliases v !! alias with
    | Some _ => v
    | None =>
        mkViper (<[alias := key]> (aliases v))
                (move_key alias key (override v))
                (automaticEnvApplied v) (env v)
                (move_key alias key (config v))
    end
  else v.

(** The instance that holds the whole configuration ([fistRead]): its
    top-level tables, what [Get] finds for a top-level key, and the
    environment of the process. *)
Record Root : Type := mkRoot {
  sections : gmap string (gmap string Value);
  toplevel : gmap string Value;
  environ : gmap string Value }.

(** [Sub(key)]: a new instance over the table [key], [None] when there is
    no such table.  The new instance has nothing set and no alias, and it
    does not read the environment until [AutomaticEnv] is called on it:
    [GetClusterConfig] calls it on the cluster section and not on the
    saved one.  The table is the one that [fistRead] holds when [Sub] is
    called, and the calls on the instance are followed on the instance. *)
Definition Sub (root : Root) (key : string) : option Viper :=
  match sections root !! ToLower key with
  | Some table => Some (mkViper ∅ ∅ false (environ root) table)
  | None => None
  end.

Definition Root_Get (root : Root) (key : string) : option Value :=
  toplevel root !! ToLower key.

End Viper.

(** ** Package server: the configuration of one cluster *)

Module ClusterConfig.
Import Viper.

(** The [RegisterAlias] calls of [initAlias], in order. *)
Definition initAlias_calls : list (string * string) := [
  ("monitoring-config-rewrite", "monitoring-save-config");
  ("api-user", "api-credentials");
  ("replication-master-connection", "replication-source-name");
  ("logfile", "log-file");
  ("wait-kill", "switchover-wait-kill");
  ("user", "db-servers-credential");
  ("hosts", "db-servers-hosts");
  ("hosts-tls-ca-cert", "db-servers-tls-ca-cert");
  ("hosts-tls-client-key", "db-servers-tls-client-key");
  ("hosts-tls-client-cert", "db-servers-tls-client-cert");
  ("connect-timeout", "db-servers-connect-timeout");
  ("rpluser", "replication-credential");
  ("prefmaster", "db-servers-prefered-master");
  ("ignore-servers", "db-servers-ignored-hosts");
  ("master-connection", "replication-master-connection");
  ("master-connect-retry", "replication-master-connection-retry");
  ("readonly", "failover-readonly-state");
  ("maxscale-host", "maxscale-servers");
  ("mdbshardproxy-hosts", "mdbshardproxy-servers");
  ("multimaster", "replication-multi-master");
  ("multi-tier-slave", "replication-multi-tier-slave");
  ("pre-failover-script", "failover-pre-script");
  ("post-failover-script", "failover-post-script");
  ("rejoin-script", "autorejoin-script");
  ("share-directory", "monitoring-sharedir");
  ("working-directory", "monitoring-datadir");
  ("interactive", "failover-mode");
  ("failcount", "failover-falsepositive-ping-counter");
  ("wait-write-query", "switchover-wait-write-query");
  ("wait-trx", "switchover-wait-trx");
  ("gtidcheck", "switchover-at-equal-gtid");
  ("maxdelay", "failover-max-slave-delay");
  ("maxscale-host", "maxscale-servers");
  ("maxscale-pass", "maxscale-password");
  ("api-credential", "api-credentials") ].

Definition initAlias (v : Viper) : Viper :=
  foldl (fun v call => RegisterAlias call.1 call.2 v) v initAlias_calls.

(** [strconv.ParseBool] *)
Definition ParseBool (s : string) : option bool :=
  if bool_decide (s ∈ ["1"; "t"; "T"; "TRUE"; "true"; "True"]) then Some true
  else if bool_decide (s ∈ ["0"; "f"; "F"; "FALSE"; "false"; "False"]) then Some false
  else None.

(** How [Unmarshal] decodes a value into a [bool] field; [None] is a
    decoding error, which leaves the field as it was. *)
Definition decodeBool (val : Value) : option bool :=
  match val with
  | VBool b => Some b
  | VInt z => Some (negb (z =? 0)%Z)
  | VString s =>
      match ParseBool s with
      | Some b => Some b
      | None => if decide (s = "") then Some false else None
      end
  end.

(** [config.Config] is not in the sources at hand.  It is modelled by the
    field [ConfRewrite], which [GetClusterConfig] reads, and by the settings
    decoded into it, kept under their configuration key.  [ConfRewrite] is
    taken to be filled from [monitoring-save-config], the key under which
    [InitConfig] reads the same switch. *)
Record Config : Type := mkConfig {
  ConfRewrite : bool;
  fields : gmap string Value }.

(** [v.Unmarshal(&conf)]: the settings of [v] are decoded over [conf];
    what [v] does not set stays. *)
Definition Unmarshal (v : Viper) (conf : Config) : Config :=
  let settings := AllSettings v in
  mkConfig (match settings !! "monitoring-save-config" ≫= decodeBool with
            | Some b => b
            | None => ConfRewrite conf
            end)
           (settings ∪ fields conf).

Record ConfVersion : Type := mkConfVersion {
  ConfInit : Config;
  ConfDynamic : Config;
  ConfImmuable : Config }.

Definition Config_zero : Config := mkConfig false ∅.

(** The fields of [ReplicationManager] that [GetClusterConfig] uses. *)
Record RepMan : Type := mkRepMan {
  CommandLineFlag : list string;
  ImmuableFlagMaps : gmap string (gmap string Value);
  DynamicFlagMaps : gmap string (gmap string Value);
  VersionConfs : gmap string ConfVersion }.

(** "Add immuatable flag from command line" *)
Definition add_command_line_flags (fistRead : Root) (flags : list string)
    (clustImmuableMap : gmap string Value) : gmap string Value :=
  foldl (fun m f => match Root_Get fistRead f with
                    | Some v => <[f := v]> m
                    | None => m
                    end) clustImmuableMap flags.

(** "Add immuatable flag from cluster section" *)
Definition add_section_flags (cf2 : Viper)
    (clustImmuableMap : gmap string Value) : gmap string Value :=
  foldl (fun m f => match Get cf2 f with
                    | Some v => <[f := v]> m
                    | None => m
                    end) clustImmuableMap (AllKeys cf2).

(** The first loop over [cf3.AllKeys()]: [cf3.Set(f, v)] for the keys found
    in [clustImmuableMap]. *)
Definition set_immutable (clustImmuableMap : gmap string Value) (cf3 : Viper)
    : Viper :=
  foldl (fun cf f => match clustImmuableMap !! f with
                     | Some v => Set_ cf f v
                     | None => cf
                     end) cf3 (AllKeys cf3).

(** The second loop over [cf3.AllKeys()], which fills [clustDynamicMap]. *)
Definition add_dynamic_flags (clustImmuableMap : gmap string Value)
    (cf3 : Viper) (clustDynamicMap : gmap string Value) : gmap string Value :=
  foldl (fun m f =>
           match Get cf3 f with
           | Some v =>
               match clustImmuableMap !! f with
               | Some imm_v => if decide (imm_v ≠ v) then <[f := v]> m else m
               | None => <[f := v]> m
               end
           | None => m
           end) clustDynamicMap (AllKeys cf3).

(** The immutable map of the cluster: the default one, then the command
    line, then the cluster section. *)
Definition cluster_immutable_map (repman : RepMan) (fistRead : Root)
    (ImmuableMap : gmap string Value) (cluster : string) : gmap string Value :=
  let m := add_command_line_flags fistRead (CommandLineFlag repman) ImmuableMap in
  if decide (cluster = "") then m
  else match Sub fistRead cluster with
       | None => m
       | Some cf2 => add_section_flags (initAlias (AutomaticEnv cf2)) m
       end.

(** [clusterconf] after the cluster section was read. *)
Definition cluster_immutable_conf (fistRead : Root) (cluster : string)
    (conf : Config) : Config :=
  match Sub fistRead cluster with
  | None => conf
  | Some cf2 => Unmarshal (initAlias (AutomaticEnv cf2)) conf
  end.

(** The saved section as it is unmarshalled: immutable values forced, then
    aliases registered. *)
Definition saved_viper (clustImmuableMap : gmap string Value) (cf3 : Viper)
    : Viper :=
  initAlias (set_immutable clustImmuableMap cf3).

(** [GetClusterConfig]: the configuration returned and the maps of
    [repman] after the call.  [clustDynamicMap] is one map object, stored
    under ["default"] before the saved section is read and under [cluster]
    after it, so both entries end up the same. *)
Definition GetClusterConfig (repman : RepMan) (fistRead : Root)
    (ImmuableMap DynamicMap : gmap string Value) (cluster : string)
    (conf : Config) : Config * RepMan :=
  let clustImmuableMap := cluster_immutable_map repman fistRead ImmuableMap cluster in
  if decide (cluster = "") then (conf, repman)
  else
    let clusterconf := cluster_immutable_conf fistRead cluster conf in
    let confImmuable := clusterconf in
    let '(clusterconf, clustDynamicMap, confDynamic) :=
      if ConfRewrite clusterconf then
        match Sub fistRead ("saved-" +:+ cluster) with
        | None => (clusterconf, DynamicMap, clusterconf)
        | Some cf3 =>
            let cf3 := saved_viper clustImmuableMap cf3 in
            let clusterconf := Unmarshal cf3 clusterconf in
            (clusterconf, add_dynamic_flags clustImmuableMap cf3 DynamicMap,
             clusterconf)
        end
      else (clusterconf, DynamicMap, Config_zero) in
    let confs := mkConfVersion clusterconf confDynamic confImmuable in
    (clusterconf,
     mkRepMan (CommandLineFlag repman)
              (<[cluster := clustImmuableMap]> (ImmuableFlagMaps repman))
              (<[cluster := clustDynamicMap]>
                 (<["default" := clustDynamicMap]> (DynamicFlagMaps repman)))
              (<[cluster := confs]> (VersionConfs repman))).

End ClusterConfig.

(** ** Package cluster: monitoring the proxies *)

Module Proxies.
Import Go.

(** Modelled from the spec: the constants [stateProxyRunning],
    [stateSuspect] and [stateFailed] are declared outside the sources at
    hand; they are given the names of the three proxy states of the data
    model, running, suspect and failed. *)
Definition stateProxyRunning : string := "running".
Definition stateSuspect : string := "suspect".
Definition stateFailed : string := "failed".

(** The fields of [Proxy] that [refreshProxies] reads or writes, and the
    three cookies it tests or deletes. *)
Record Proxy : Type := mkProxy {
  State : string;
  PrevState : string;
  FailCount : Z;
  WaitStartCookie : bool;
  WaitStopCookie : bool;
  RestartCookie : bool }.

Definition GetFailCount (p : Proxy) : Z := FailCount p.
Definition SetFailCount (c : Z) (p : Proxy) : Proxy :=
  mkProxy (State p) (PrevState p) c (WaitStartCookie p) (WaitStopCookie p)
          (RestartCookie p).
Definition GetState (p : Proxy) : string := State p.
Definition SetState (v : string) (p : Proxy) : Proxy :=
  mkProxy v (PrevState p) (FailCount p) (WaitStartCookie p) (WaitStopCookie p)
          (RestartCookie p).
Definition GetPrevState (p : Proxy) : string := PrevState p.
Definition SetPrevState (state : string) (p : Proxy) : Proxy :=
  mkProxy (State p) state (FailCount p) (WaitStartCookie p) (WaitStopCookie p)
          (RestartCookie p).
Definition HasWaitStartCookie (p : Proxy) : bool := WaitStartCookie p.
Definition DelWaitStartCookie (p : Proxy) : Proxy :=
  mkProxy (State p) (PrevState p) (FailCount p) false (WaitStopCookie p)
          (RestartCookie p).
Definition DelWaitStopCookie (p : Proxy) : Proxy :=
  mkProxy (State p) (PrevState p) (FailCount p) (WaitStartCookie p) false
          (RestartCookie p).
Definition DelRestartCookie (p : Proxy) : Proxy :=
  mkProxy (State p) (PrevState p) (FailCount p) (WaitStartCookie p)
          (WaitStopCookie p) false.

(** A [DatabaseProxy]: the state of the proxy and the [Refresh] of its
    driver, which talks to the proxy; [tick] numbers the monitor passes.
    [Refresh] returns the proxy as it leaves it and the error, if any. *)
Record DatabaseProxy : Type := mkDatabaseProxy {
  proxy : Proxy;
  Refresh : nat -> Proxy -> Proxy * option string }.

(** The body of the loop of [refreshProxies].  [SendStats] only sends
    metrics out and is left out. *)
Definition refresh_proxy (MaxFail : Z) (tick : nat) (pr : Proxy)
    (refresh : nat -> Proxy -> Proxy * option string) : Proxy :=
  let '(pr, err) := refresh tick pr in
  let pr :=
    match err with
    | None =>
        let pr := SetFailCount 0 pr in
        let pr := SetState stateProxyRunning pr in
        if HasWaitStartCookie pr then DelWaitStartCookie pr else pr
    | Some _ =>
        let fc := int64_add (GetFailCount pr) 1 in
        if decide (MaxFail <= fc) then
          let pr := SetState stateFailed pr in
          let pr := DelWaitStopCookie pr in
          DelRestartCookie pr
        else SetState stateSuspect pr
    end in
  if decide (GetPrevState pr ≠ GetState pr) then SetPrevState (GetState pr) pr
  else pr.

(** One pass of [refreshProxies] over the proxies of [cluster.Proxies],
    for a slice whose slots all hold a proxy.  The pass over the slice as
    [newProxyList] leaves it, nil slots included, is
    [ProxySlice.refreshProxies]. *)
Definition refreshProxies (MaxFail : Z) (tick : nat)
    (Proxies : list DatabaseProxy) : list DatabaseProxy :=
  (fun pr => mkDatabaseProxy (refresh_proxy MaxFail tick (proxy pr) (Refresh pr))
                             (Refresh pr)) <$> Proxies.

(** The monitor loop: [n] passes, numbered from [tick]. *)
Fixpoint monitor (MaxFail : Z) (tick : nat) (n : nat)
    (Proxies : list DatabaseProxy) : list DatabaseProxy :=
  match n with
  | O => Proxies
  | S n' => monitor MaxFail (S tick) n' (refreshProxies MaxFail tick Proxies)
  end.

End Proxies.

(** ** What a peer check meets *)

Module ServerSpec.
Import Go Server.

(** The peer answered and its reply decoded as the heartbeat [h]. *)
Inductive PeerReports (net : Net) (conf : Config) (peer : string)
    (w : list Call) (h : HeartbeatMsg) : Prop :=
| peer_reports req resp monjson :
    http_NewRequest net "GET" (peer_url peer) = Ok req ->
    client_Do net w (mkClient (heartbeat_timeout conf)) req = Ok resp ->
    Body resp = Ok monjson ->
    json_Unmarshal net monjson = Ok h ->
    PeerReports net conf peer w h.

(** The four ways in which the call to a peer fails. *)
Inductive PeerFailure (net : Net) (conf : Config) (peer : string)
    (w : list Call) : Prop :=
| fail_request e :
    http_NewRequest net "GET" (peer_url peer) = Err e ->
    PeerFailure net conf peer w
| fail_transport req e :
    http_NewRequest net "GET" (peer_url peer) = Ok req ->
    client_Do net w (mkClient (heartbeat_timeout conf)) req = Err e ->
    PeerFailure net conf peer w
| fail_body req resp e :
    http_NewRequest net "GET" (peer_url peer) = Ok req ->
    client_Do net w (mkClient (heartbeat_timeout conf)) req = Ok resp ->
    Body resp = Err e ->
    PeerFailure net conf peer w
| fail_unmarshal req resp monjson e :
    http_NewRequest net "GET" (peer_url peer) = Ok req ->
    client_Do net w (mkClient (heartbeat_timeout conf)) req = Ok resp ->
    Body resp = Ok monjson ->
    json_Unmarshal net monjson = Err e ->
    PeerFailure net conf peer w.

(** In the words of the specification: the heartbeat [h] of a peer reports
    a cluster that this controller also runs, with another primary. *)
Definition spec_reports_other_primary (repman : ReplicationManager)
    (h : HeartbeatMsg) : Prop :=
  exists name cl,
    Clusters repman !! name = Some cl /\
    Cluster h = Name cl /\
    Master h <> master_URL cl.

(** The timeout that the specification gives to the peer call, in
    nanoseconds: four tick periods of [MonitoringTicker] seconds. *)
Definition spec_timeout (conf : Config) : Z :=
  4 * (MonitoringTicker conf * Second).

(** The tick periods for which four periods fit a [time.Duration]. *)
Definition ticker_in_range (conf : Config) : Prop :=
  - 2 ^ 63 <= spec_timeout conf < 2 ^ 63.

(** [net/http], [Client.deadline]: a call made at [now] through a client
    whose [Timeout] is positive must end by [now] plus the timeout; a
    [Timeout] that is not positive sets no deadline. *)
Definition deadline (c : Client) (now : Z) : option Z :=
  if decide (0 < Timeout c) then Some (now + Timeout c) else None.

(** The tick periods for which four periods are a positive
    [time.Duration]: from 1 second to 2305843009 seconds. *)
Definition ticker_bounds_call (conf : Config) : Prop :=
  0 < MonitoringTicker conf <= 2305843009.

End ServerSpec.

(** ** The alias table and the saved section, for the statements below *)

Module ClusterConfigSpec.
Import Viper ClusterConfig.

(** Whether [RegisterAlias(alias, key)] registers anything, given the alias
    table: the names are lower-cased already. *)
Definition registers (al : gmap string string) (alias key : string) : bool :=
  bool_decide (alias ≠ key ∧ alias ≠ realKey_in al key)
  && bool_decide (al !! alias = None).

(** The alias table after a sequence of [RegisterAlias] calls. *)
Definition aliases_after (al : gmap string string)
    (calls : list (string * string)) : gmap string string :=
  foldl (fun al call =>
           let alias := ToLower call.1 in
           let key := ToLower call.2 in
           if registers al alias key then <[alias := key]> al else al)
        al calls.

(** The calls of the sequence that register an alias, and so move the
    value found under the alias to the key. *)
Fixpoint moves_after (al : gmap string string)
    (calls : list (string * string)) : list (string * string) :=
  match calls with
  | [] => []
  | call :: rest =>
      let alias := ToLower call.1 in
      let key := ToLower call.2 in
      if registers al alias key
      then (alias, key) :: moves_after (<[alias := key]> al) rest
      else moves_after al rest
  end.

Definition apply_moves (moves : list (string * string))
    (m : gmap string Value) : gmap string Value :=
  foldl (fun m mv => move_key mv.1 mv.2 m) m moves.

(** The aliases and the moves of [initAlias] on a fresh instance. *)
Definition initAlias_aliases : gmap string string :=
  aliases_after ∅ initAlias_calls.
Definition initAlias_moves : list (string * string) :=
  moves_after ∅ initAlias_calls.

(** The four pairs of the specification. *)
Definition spec_alias_pairs : list (string * string) := [
  ("prefmaster", "db-servers-prefered-master");
  ("maxdelay", "failover-max-slave-delay");
  ("interactive", "failover-mode");
  ("gtidcheck", "switchover-at-equal-gtid") ].

(** The library keeps keys in lower case. *)
Definition lower_keys (m : gmap string Value) : Prop :=
  map_Forall (fun k _ => ToLower k = k) m.

(** A fresh instance, as [Sub] returns it: nothing set, no alias. *)
Definition fresh_section (v : Viper) : Prop :=
  aliases v = ∅ /\ override v = ∅ /\ lower_keys (config v).

(** A saved section written with the key names, not with their aliases. *)
Definition canonical_keys (cf3 : Viper) : Prop :=
  forall a, a ∈ initAlias_calls.*1 -> a ∉ AllKeys cf3.

(** The second loop stores [Get cf3 f] under [f] unless the immutable map
    holds the very same value. *)
Definition dynamic_value (imm : gmap string Value) (cf3 : Viper) (f : string)
    : option Value :=
  match Get cf3 f with
  | Some v => if decide (imm !! f = Some v) then None else Some v
  | None => None
  end.

(** Where a value of the unmarshalled saved section comes from: the
    immutable map, for some saved key; or the saved section itself, under
    a key that the immutable map does not hold. *)
Definition from_immutable (imm : gmap string Value) (cf3 : Viper) (x : Value)
    : Prop :=
  exists f, f ∈ AllKeys cf3 /\ imm !! f = Some x.

Definition from_saved (imm : gmap string Value) (cf3 : Viper) (x : Value)
    : Prop :=
  exists f, f ∈ AllKeys cf3 /\ imm !! f = None /\ config cf3 !! f = Some x.

End ClusterConfigSpec.

(** ** The situations of the examples *)

Module Scenarios.
Import Go Server.

Definition conf_peers (hosts : string) : Config :=
  mkConfig 2 false true hosts 1 "secret".

(** A controller that runs cluster [c1] and sees [db1:3306] as its primary. *)
Definition local_clusters (sb : bool) : gmap string ClusterT :=
  {[ "c1" := mkCluster "c1" "db1:3306" sb ]}.

Definition repman_one_peer : ReplicationManager :=
  mkRepMan "uuid-local" ConstMonitorStandby false (conf_peers "peer1:10001")
           (local_clusters false).

Definition repman_two_peers : ReplicationManager :=
  mkRepMan "uuid-local" ConstMonitorStandby false
           (conf_peers "peer1:10001,peer2:10001") (local_clusters false).

Definition repman_no_peer : ReplicationManager :=
  mkRepMan "uuid-local" ConstMonitorStandby false (conf_peers "")
           (local_clusters false).

(** A controller with one peer and a tick period of [ticker] seconds. *)
Definition repman_ticker (ticker : Z) : ReplicationManager :=
  mkRepMan "uuid-local" ConstMonitorStandby false
           (mkConfig ticker false true "peer1:10001" 1 "secret")
           (local_clusters false).

(** A controller whose cluster is already marked split-brain. *)
Definition repman_marked : ReplicationManager :=
  mkRepMan "uuid-local" ConstMonitorStandby false (conf_peers "peer1:10001")
           (local_clusters true).

(** The heartbeat of a peer that runs [c1] with [db2:3306] as primary. *)
Definition heartbeat_other_primary : HeartbeatMsg :=
  mkHeartbeat "uuid-peer" "secret" "c1" "db2:3306" 2 "A" 2 0.

Definition body_other_primary : string := "heartbeat of c1 led by db2:3306".

Definition decode_only (body : string) (h : HeartbeatMsg) (monjson : string)
    : result HeartbeatMsg :=
  if decide (monjson = body) then Ok h else Err "invalid character".

(** Every peer answers with [heartbeat_other_primary]. *)
Definition net_other_primary : Net :=
  mkNet (fun method url => Ok (mkRequest method url))
        (fun _ _ _ => Ok (mkResponse (Ok body_other_primary)))
        (decode_only body_other_primary heartbeat_other_primary).

(** No peer can be reached. *)
Definition net_down : Net :=
  mkNet (fun method url => Ok (mkRequest method url))
        (fun _ _ _ => Err "connection refused")
        (decode_only body_other_primary heartbeat_other_primary).

(** [peer1] cannot be reached, every other peer answers. *)
Definition net_peer1_down : Net :=
  mkNet (fun method url => Ok (mkRequest method url))
        (fun _ _ req =>
           if decide (req_url req = peer_url "peer1:10001")
           then Err "connection refused"
           else Ok (mkResponse (Ok body_other_primary)))
        (decode_only body_other_primary heartbeat_other_primary).

End Scenarios.

Module ConfigScenarios.
Import Viper ClusterConfig.

(** A configuration with cluster [c1] and its saved section: the saved
    section changes [failover-limit], which the cluster section fixes, and
    [failover-mode], which nothing fixes. *)
Definition root_c1 : Root :=
  mkRoot {[ "c1" := {[ "monitoring-save-config" := VBool true;
                       "failover-limit" := VInt 5;
                       "db-servers-hosts" := VString "db1:3306,db2:3306" ]};
            "saved-c1" := {[ "failover-limit" := VInt 9;
                             "failover-mode" := VString "automatic" ]} ]}
         ∅ ∅.

Definition saved_c1 : Viper :=
  mkViper ∅ ∅ false ∅ {[ "failover-limit" := VInt 9;
                         "failover-mode" := VString "automatic" ]}.

Definition repman_empty : RepMan := mkRepMan [] ∅ ∅ ∅.

(** The default section fixes [failover-max-slave-delay] at 30, cluster
    [c1] saves its configuration, and the saved section of [c1] names the
    delay by its alias [maxdelay]. *)
Definition immutable_maxdelay : gmap string Value :=
  {[ "failover-max-slave-delay" := VInt 30 ]}.

Definition root_saved_alias : Root :=
  mkRoot {[ "c1" := {[ "monitoring-save-config" := VBool true ]};
            "saved-c1" := {[ "maxdelay" := VInt 99 ]} ]}
         ∅ ∅.

(** The configuration decoded from that default section. *)
Definition conf_maxdelay : Config :=
  mkConfig false {[ "failover-max-slave-delay" := VInt 30 ]}.

(** A section that names [failover-max-slave-delay] by its alias. *)
Definition section_maxdelay : Viper :=
  mkViper ∅ ∅ false ∅ {[ "maxdelay" := VInt 30 ]}.

End ConfigScenarios.

Module ProxyScenarios.
Import Proxies.

(** The driver of a proxy that cannot be reached: [Refresh] fails and
    leaves the proxy as it is. *)
Definition refuse (tick : nat) (pr : Proxy) : Proxy * option string :=
  (pr, Some "connection refused").

(** A proxy as [newProxyList] creates it, in state suspect with no failure
    counted, behind that driver. *)
Definition proxy_unreachable : DatabaseProxy :=
  mkDatabaseProxy (mkProxy stateSuspect "" 0 false false false) refuse.

(** The driver of a proxy that answers. *)
Definition answer (tick : nat) (pr : Proxy) : Proxy * option string :=
  (pr, None).

End ProxyScenarios.

(** ** Package server: the main loop of [Run] *)

Module ServerLoop.
Import Go Server.

(** One turn of the loop at the end of [Run]: [Heartbeat] runs when
    [repman.Conf.Arbitration] is set. *)
Definition Run_tick (cfgGroup : string) (net : Net)
    (st : ReplicationManager * list Call) : ReplicationManager * list Call :=
  if Arbitration (Conf st.1) then Heartbeat cfgGroup net st.1 st.2 else st.

(** The first [n] turns of the loop. *)
Fixpoint Run_loop (cfgGroup : string) (net : Net) (n : nat)
    (st : ReplicationManager * list Call) : ReplicationManager * list Call :=
  match n with
  | O => st
  | S n' => Run_loop cfgGroup net n' (Run_tick cfgGroup net st)
  end.

(** The request that [HeartbeatPeerSplitBrain] sends to a peer, when it can
    build one. *)
Definition peer_request (net : Net) (conf : Config) (peer : string)
    : option Call :=
  match http_NewRequest net "GET" (peer_url peer) with
  | Ok req => Some (mkClient (heartbeat_timeout conf), req)
  | Err _ => None
  end.

End ServerLoop.

(** ** Package server: discovering the clusters of the configuration *)

Module Discovery.
Import Go Viper.

(** [strings.Contains(s, sep)] for a one-byte [sep]. *)
Fixpoint Contains (s : string) (sep : Ascii.ascii) : bool :=
  match s with
  | EmptyString => false
  | String c rest => if decide (c = sep) then true else Contains rest sep
  end.

(** [strings.HasPrefix] *)
Fixpoint HasPrefix (s prefix : string) : bool :=
  match prefix, s with
  | EmptyString, _ => true
  | String p prefix', String c s' =>
      if decide (c = p) then HasPrefix s' prefix' else false
  | String _ _, EmptyString => false
  end.

Fixpoint drop_bytes (n : nat) (s : string) : string :=
  match n, s with
  | O, _ => s
  | S n', String _ s' => drop_bytes n' s'
  | S _, EmptyString => EmptyString
  end.

(** [strings.TrimPrefix] *)
Definition TrimPrefix (s prefix : string) : string :=
  if HasPrefix s prefix then drop_bytes (String.length prefix) s else s.

(** [strings.Join(elems, sep)] for a one-byte [sep]. *)
Fixpoint Join (elems : list string) (sep : Ascii.ascii) : string :=
  match elems with
  | [] => EmptyString
  | [e] => e
  | e :: rest => e +:+ String sep (Join rest sep)
  end.

(** [strings.Split(k, ".")[0]] *)
Definition first_piece (k : string) : string :=
  match Split k "."%char with
  | piece :: _ => piece
  | [] => EmptyString
  end.

(** The body of the loop of [DiscoverClusters] over the keys: the state is
    the map [clusterDiscovery] and the slice [discoveries]. *)
Definition discover_key (st : gmap string string * list string) (k : string)
    : gmap string string * list string :=
  if Contains k "."%char then
    let mycluster := first_piece k in
    if decide (ToLower mycluster ≠ "default") then
      let mycluster :=
        if HasPrefix mycluster "saved-" then TrimPrefix mycluster "saved-"
        else mycluster in
      match st.1 !! mycluster with
      | Some _ => st
      | None => (<[mycluster := mycluster]> st.1, (st.2 ++ [mycluster])%list)
      end
    else st
  else st.

(** The slice [discoveries] at the end of the loop; [m] is
    [FirstRead.AllKeys()]. *)
Definition discoveries (m : list string) : list string :=
  (foldl discover_key (∅, []) m).2.

Definition DiscoverClusters (m : list string) : string :=
  Join (discoveries m) ","%char.


(** The cluster that a key names, if any: the section before the first
    dot, unless it is the default section, without its [saved-] prefix. *)
Definition cluster_of_key (k : string) : option string :=
  if Contains k "."%char then
    if decide (ToLower (first_piece k) ≠ "default")
    then Some (TrimPrefix (first_piece k) "saved-")
    else None
  else None.

End Discovery.

(** ** Package server: the configurations of all the clusters *)

Module ConfigLoad.
Import Viper ClusterConfig.

(** The loop of [InitConfig] over [repman.ClusterList]:
    [confs[cluster] = repman.GetClusterConfig(...)]. *)
Definition load_cluster (fistRead : Root)
    (ImmuableMap DynamicMap : gmap string Value) (conf : Config)
    (st : gmap string Config * RepMan) (cluster : string)
    : gmap string Config * RepMan :=
  let result :=
    GetClusterConfig st.2 fistRead ImmuableMap DynamicMap cluster conf in
  (<[cluster := result.1]> st.1, result.2).

Definition load_clusters (fistRead : Root)
    (ImmuableMap DynamicMap : gmap string Value) (conf : Config)
    (ClusterList : list string) (st : gmap string Config * RepMan)
    : gmap string Config * RepMan :=
  foldl (load_cluster fistRead ImmuableMap DynamicMap conf) st ClusterList.



End ConfigLoad.

(** ** Package server: from [InitConfig] to the start of the clusters *)

Module ClusterStart.
Import Go Viper ClusterConfig Discovery ConfigLoad.

(** What [InitConfig] leaves for [Run]: [repman.ClusterList], the map
    [confs] and the maps of [repman].  [InitConfig] makes the three maps of
    [repman] anew; [m] is [fistRead.AllKeys()], and [ImmuableMap],
    [DynamicMap] and [conf] are as they stand when the clusters are
    loaded. *)
Definition InitConfig_clusters (cfgGroup : string) (m : list string)
    (fistRead : Root) (ImmuableMap DynamicMap : gmap string Value)
    (conf : Config) (flags : list string) (ClusterList : list string)
    (confs : gmap string Config)
    : list string * (gmap string Config * RepMan) :=
  let repman := mkRepMan flags ∅ ∅ ∅ in
  let strClusters := cfgGroup in
  let strClusters :=
    if decide (strClusters = "") then DiscoverClusters m else strClusters in
  if decide (strClusters ≠ "") then
    let ClusterList := Split strClusters ","%char in
    let repman :=
      mkRepMan (CommandLineFlag repman)
               (<["default" := ImmuableMap]> (ImmuableFlagMaps repman))
               (DynamicFlagMaps repman) (VersionConfs repman) in
    (ClusterList,
     load_clusters fistRead ImmuableMap DynamicMap conf ClusterList
                   (confs, repman))
  else
    ((ClusterList ++ ["Default"])%list, (<["Default" := conf]> confs, repman)).

(** [StartCluster], as far as the configuration goes.  [prepare] stands
    for what the function writes to its copy of the configuration before
    it stores it (fields of [config.Config]).  The store,
    [repman.VersionConfs[clusterName].ConfInit = myClusterConf], goes
    through the pointer kept in the map: without an entry the pointer is
    nil and the program stops, which is [None] here. *)
Definition StartCluster (prepare : RepMan -> string -> Config -> Config)
    (Confs : gmap string Config) (repman : RepMan) (clusterName : string)
    : option RepMan :=
  let myClusterConf :=
    prepare repman clusterName (default Config_zero (Confs !! clusterName)) in
  match VersionConfs repman !! clusterName with
  | None => None
  | Some version =>
      Some (mkRepMan (CommandLineFlag repman) (ImmuableFlagMaps repman)
              (DynamicFlagMaps repman)
              (<[clusterName := mkConfVersion myClusterConf
                                  (ConfDynamic version) (ConfImmuable version)]>
                 (VersionConfs repman)))
  end.

(** The loop of [Run]: [for _, gl := range repman.ClusterList
    { repman.StartCluster(gl) }]. *)
Fixpoint start_clusters (prepare : RepMan -> string -> Config -> Config)
    (Confs : gmap string Config) (ClusterList : list string) (repman : RepMan)
    : option RepMan :=
  match ClusterList with
  | [] => Some repman
  | gl :: rest =>
      match StartCluster prepare Confs repman gl with
      | Some repman => start_clusters prepare Confs rest repman
      | None => None
      end
  end.

(** [InitConfig] and then the loop of [Run]. *)
Definition InitConfig_Run (prepare : RepMan -> string -> Config -> Config)
    (cfgGroup : string) (m : list string) (fistRead : Root)
    (ImmuableMap DynamicMap : gmap string Value) (conf : Config)
    (flags : list string) (ClusterList : list string)
    (confs : gmap string Config) : option RepMan :=
  let '(ClusterList, (Confs, repman)) :=
    InitConfig_clusters cfgGroup m fistRead ImmuableMap DynamicMap conf flags
                        ClusterList confs in
  start_clusters prepare Confs ClusterList repman.

(** [StartCluster] writing nothing to the configuration. *)
Definition prepare_nothing (repman : RepMan) (clusterName : string)
    (conf : Config) : Config := conf.

End ClusterStart.

(** ** Package server: the login handler and its limit on attempts *)

(** The handler is followed one request at a time, on the map
    [repman.UserAuthTry]; instants ([time.Time]) are counted in
    nanoseconds. *)

Module Login.
Import Go Server.

Record authTry : Type := mkAuthTry {
  User : string;
  Try : Z;
  Time : Z }.

Record userCredentials : Type := mkCredentials {
  Username : string;
  Password : string }.

(** What a handler does to its [http.ResponseWriter], in order. *)
Inductive Write : Type :=
| SetHeader (key value : string)
| WriteHeader (code : Z)
| WriteText (text : string)
| WriteJSON (object : JObject).

Definition StatusOK : Z := 200.
Definition StatusForbidden : Z := 403.
Definition StatusTooManyRequests : Z := 429.
Definition StatusInternalServerError : Z := 500.

(** [time.Minute], in nanoseconds. *)
Definition Minute : Z := 60 * Second.

(** What a login request brings and what it reaches outside the handler:
    the decoded body, the [Accept] header, the path, the ACL check of a
    cluster ([cluster.IsValidACL]) and the signature of the token. *)
Record LoginRequest : Type := mkLoginRequest {
  decoded_body : result userCredentials;
  Accept : string;
  Path : string;
  IsValidACL : ClusterT -> string -> string -> string -> string -> bool;
  SignedString : userCredentials -> result string }.

(** The three readings of the clock that a request can make: for
    [time.Now().Before(...)], for the [Time] written by the attempt
    counter, and for the [Time] written after a valid login. *)
Record Clock : Type := mkClock {
  now_check : Z;
  now_attempt : Z;
  now_login : Z }.

(** [strings.Contains(s, substr)] *)
Definition Contains (s substr : string) : bool :=
  match String.index 0 substr s with
  | Some _ => true
  | None => false
  end.

(** [jsonResponse] for a [token]. *)
Definition jsonResponse_token (tokenString : string) : list Write :=
  [ SetHeader "Access-Control-Allow-Origin" "*";
    WriteHeader StatusOK;
    SetHeader "Content-Type" "application/json";
    WriteJSON [("token", JString tokenString)] ].

(** The attempt counter at the head of [loginHandler]: the map after the
    attempt is counted, or [None] when the request is turned away. *)
Definition count_attempt (clock : Clock) (user : userCredentials)
    (UserAuthTry : gmap string authTry) : option (gmap string authTry) :=
  match UserAuthTry !! Username user with
  | Some auth_try =>
      if decide (Try auth_try = 3) then
        if decide (now_check clock < Time auth_try + 3 * Minute) then None
        else Some (<[Username user :=
                       mkAuthTry (User auth_try) 1 (now_attempt clock)]>
                     UserAuthTry)
      else Some (<[Username user :=
                     mkAuthTry (User auth_try) (int64_add (Try auth_try) 1)
                               (Time auth_try)]> UserAuthTry)
  | None =>
      Some (<[Username user :=
                mkAuthTry (Username user) 1 (now_attempt clock)]> UserAuthTry)
  end.

(** The loop over [repman.Clusters]: does some cluster accept the user? *)
Definition some_cluster_accepts (req : LoginRequest) (user : userCredentials)
    (Clusters : gmap string ClusterT) : bool :=
  existsb (fun cl => IsValidACL req cl (Username user) (Password user)
                                (Path req) "oidc")
          (map_to_list Clusters).*2.

Definition loginHandler (clock : Clock) (req : LoginRequest)
    (Clusters : gmap string ClusterT) (UserAuthTry : gmap string authTry)
    : list Write * gmap string authTry :=
  let w := [SetHeader "Access-Control-Allow-Origin" "*"] in
  match decoded_body req with
  | Err _ =>
      ((w ++ [WriteHeader StatusForbidden; WriteText "Error in request"])%list,
       UserAuthTry)
  | Ok user =>
      match count_attempt clock user UserAuthTry with
      | None => ((w ++ [WriteHeader StatusTooManyRequests])%list, UserAuthTry)
      | Some UserAuthTry =>
          if some_cluster_accepts req user Clusters then
            let UserAuthTry :=
              <[Username user := mkAuthTry "" 1 (now_login clock)]>
                UserAuthTry in
            let '(tokenString, w) :=
              match SignedString req user with
              | Ok tokenString => (tokenString, w)
              | Err _ =>
                  ("", (w ++ [WriteHeader StatusInternalServerError;
                              WriteText ("Error while signing the token"
                                         +:+ Errors.LF)])%list)
              end in
            if Contains (Accept req) "text/html"
            then ((w ++ [WriteText tokenString])%list, UserAuthTry)
            else ((w ++ jsonResponse_token tokenString)%list, UserAuthTry)
          else
            ((w ++ [WriteHeader StatusForbidden;
                    WriteText "Invalid credentials"])%list, UserAuthTry)
      end
  end.

(** The handler run on a sequence of requests, each with its clock. *)
Fixpoint logins (Clusters : gmap string ClusterT)
    (reqs : list (Clock * LoginRequest)) (tries : gmap string authTry)
    : list (list Write) * gmap string authTry :=
  match reqs with
  | [] => ([], tries)
  | (clock, req) :: rest =>
      let first := loginHandler clock req Clusters tries in
      let others := logins Clusters rest first.2 in
      (first.1 :: others.1, others.2)
  end.

(** The status that the client sees: the first [WriteHeader], or 200 when
    the body is written first. *)
Fixpoint status (ws : list Write) : Z :=
  match ws with
  | [] => StatusOK
  | WriteHeader code :: _ => code
  | WriteText _ :: _ | WriteJSON _ :: _ => StatusOK
  | SetHeader _ _ :: rest => status rest
  end.

(** The attempts of every user are counted from 1 to 3. *)
Definition counts_in_range (UserAuthTry : gmap string authTry) : Prop :=
  map_Forall (fun _ auth_try => 1 <= Try auth_try <= 3) UserAuthTry.

(** A request that nothing accepts, from [user]. *)
Definition bad_login (user : userCredentials) : LoginRequest :=
  mkLoginRequest (Ok user) "" "/api/login" (fun _ _ _ _ _ => false)
            (fun _ => Ok "token").

(** A request that every cluster accepts. *)
Definition good_login (user : userCredentials) : LoginRequest :=
  mkLoginRequest (Ok user) "" "/api/login" (fun _ _ _ _ _ => true)
            (fun _ => Ok "token").

End Login.

(** ** Package cluster: building the list of proxies *)

Module ProxyList.
Import Go.

(** The switches and host lists of [cluster.Conf] that [newProxyList]
    reads to size and fill [cluster.Proxies]. *)
Record Conf : Type := mkConf {
  MxsHost : string;
  MxsOn : bool;
  HaproxyOn : bool;
  HaproxyHosts : string;
  MdbsProxyHosts : string;
  MdbsProxyOn : bool;
  ProxysqlOn : bool;
  ProxysqlHosts : string;
  MysqlRouterOn : bool;
  MysqlRouterHosts : string;
  SphinxOn : bool;
  SphinxHosts : string;
  ExtProxyOn : bool;
  MyproxyOn : bool }.

(** The types of which [newProxyList] makes its proxies. *)
Inductive Driver : Type :=
| MaxscaleProxy | HaproxyProxy | ExternalProxy | ProxySQLProxy
| MariadbShardProxy | SphinxProxy | MyProxyProxy.

(** A proxy as [newProxyList] makes it: its type, the index and the host
    of the list it comes from (for the two proxies that come from no
    list: none), and its state. *)
Record NewProxy : Type := mkNewProxy {
  driver : Driver;
  placement : option (nat * string);
  State : string }.

(** [cluster.Proxies]: a slice of interfaces, a slot being nil until it is
    assigned. *)
Definition proxyList : Type := list (option NewProxy).

(** [len(strings.Split(hosts, ","))] *)
Definition count_hosts (hosts : string) : nat := length (Split hosts ","%char).

Definition nbproxies (conf : Conf) : nat :=
  let nbproxies := 0%nat in
  let nbproxies :=
    if bool_decide (MxsHost conf ≠ "") && MxsOn conf
    then (nbproxies + count_hosts (MxsHost conf))%nat else nbproxies in
  let nbproxies :=
    if HaproxyOn conf
    then (nbproxies + count_hosts (HaproxyHosts conf))%nat else nbproxies in
  let nbproxies :=
    if bool_decide (MdbsProxyHosts conf ≠ "") && MdbsProxyOn conf
    then (nbproxies + count_hosts (MdbsProxyHosts conf))%nat else nbproxies in
  let nbproxies :=
    if ProxysqlOn conf
    then (nbproxies + count_hosts (ProxysqlHosts conf))%nat else nbproxies in
  let nbproxies :=
    if MysqlRouterOn conf
    then (nbproxies + count_hosts (MysqlRouterHosts conf))%nat
    else nbproxies in
  let nbproxies :=
    if SphinxOn conf
    then (nbproxies + count_hosts (SphinxHosts conf))%nat else nbproxies in
  let nbproxies := if ExtProxyOn conf then S nbproxies else nbproxies in
  let nbproxies := if MyproxyOn conf then S nbproxies else nbproxies in
  nbproxies.

(** The state while the list is filled: [cluster.Proxies] and [ctproxy]. *)
Definition Filling : Type := (list (option NewProxy) * nat)%type.

(** The list while it is filled: the proxies stored so far, then [n] nil
    slots; [ctproxy] is the number stored. *)
Definition filled (stored : list NewProxy) (n : nat) : Filling :=
  ((Some <$> stored) ++ replicate n None, length stored)%list.

(** [cluster.Proxies[ctproxy] = prx; ctproxy++]: an index out of range
    stops the program. *)
Definition store (prx : NewProxy) (st : Filling) : option Filling :=
  if decide (st.2 < length st.1)%nat
  then Some (<[st.2 := Some prx]> st.1, S st.2)
  else None.

(** [for k, proxyHost := range strings.Split(hosts, ",")], with the proxy
    of each turn stored. *)
Fixpoint store_hosts (d : Driver) (k : nat) (hosts : list string)
    (st : Filling) : option Filling :=
  match hosts with
  | [] => Some st
  | proxyHost :: rest =>
      match store (mkNewProxy d (Some (k, proxyHost)) Proxies.stateSuspect) st with
      | Some st => store_hosts d (S k) rest st
      | None => None
      end
  end.

Definition store_list (on : bool) (d : Driver) (hosts : string)
    (st : Filling) : option Filling :=
  if on then store_hosts d 0 (Split hosts ","%char) st else Some st.

Definition store_one (on : bool) (d : Driver) (st : Filling)
    : option Filling :=
  if on then store (mkNewProxy d None Proxies.stateSuspect) st else Some st.

(** [newProxyList]: the list [cluster.Proxies] that it leaves, or [None]
    when a store falls out of the list. *)
Definition newProxyList (conf : Conf) : option proxyList :=
  let st : Filling := (replicate (nbproxies conf) None, 0%nat) in
  st ← store_list (bool_decide (MxsHost conf ≠ "") && MxsOn conf)
                  MaxscaleProxy (MxsHost conf) st;
  st ← store_list (HaproxyOn conf) HaproxyProxy (HaproxyHosts conf) st;
  st ← store_one (ExtProxyOn conf) ExternalProxy st;
  st ← store_list (ProxysqlOn conf) ProxySQLProxy (ProxysqlHosts conf) st;
  st ← store_list (bool_decide (MdbsProxyHosts conf ≠ "") && MdbsProxyOn conf)
                  MariadbShardProxy (MdbsProxyHosts conf) st;
  st ← store_list (bool_decide (SphinxHosts conf ≠ "") && SphinxOn conf)
                  SphinxProxy (SphinxHosts conf) st;
  st ← store_one (MyproxyOn conf) MyProxyProxy st;
  Some st.1.

(** The proxies made, in the order of their slots. *)
Definition made_hosts (on : bool) (d : Driver) (hosts : string)
    : list NewProxy :=
  if on
  then imap (fun k proxyHost =>
               mkNewProxy d (Some (k, proxyHost)) Proxies.stateSuspect)
            (Split hosts ","%char)
  else [].

Definition made_one (on : bool) (d : Driver) : list NewProxy :=
  if on then [mkNewProxy d None Proxies.stateSuspect] else [].

Definition made (conf : Conf) : list NewProxy :=
  (made_hosts (bool_decide (MxsHost conf ≠ "") && MxsOn conf)
              MaxscaleProxy (MxsHost conf)
   ++ made_hosts (HaproxyOn conf) HaproxyProxy (HaproxyHosts conf)
   ++ made_one (ExtProxyOn conf) ExternalProxy
   ++ made_hosts (ProxysqlOn conf) ProxySQLProxy (ProxysqlHosts conf)
   ++ made_hosts (bool_decide (MdbsProxyHosts conf ≠ "") && MdbsProxyOn conf)
                 MariadbShardProxy (MdbsProxyHosts conf)
   ++ made_hosts (bool_decide (SphinxHosts conf ≠ "") && SphinxOn conf)
                 SphinxProxy (SphinxHosts conf)
   ++ made_one (MyproxyOn conf) MyProxyProxy)%list.

(** The slots that are counted and never assigned: those of MySQL Router,
    and the one counted for Sphinx without hosts. *)
Definition unassigned (conf : Conf) : nat :=
  ((if MysqlRouterOn conf then count_hosts (MysqlRouterHosts conf) else 0)
   + (if SphinxOn conf && bool_decide (SphinxHosts conf = "") then 1 else 0))%nat.

(** A configuration with HAProxy on two hosts and MySQL Router on one. *)
Definition conf_router : Conf :=
  mkConf "" false true "ha1,ha2" "" false false "" true "router1" false ""
         false false.

End ProxyList.

(** ** Package cluster: monitoring a slice with nil slots *)

Module ProxySlice.
Import Proxies.

(** [refreshProxies] over [cluster.Proxies] as a slice of interfaces: a
    slot is nil ([None]) or holds a proxy.  The loop calls [pr.Refresh()]
    on every slot in turn; on a nil slot that is a call on a nil interface
    and the program stops, which is [None] here. *)
Fixpoint refreshProxies (MaxFail : Z) (tick : nat)
    (Proxies : list (option DatabaseProxy))
    : option (list (option DatabaseProxy)) :=
  match Proxies with
  | [] => Some []
  | None :: _ => None
  | Some pr :: rest =>
      let pr :=
        mkDatabaseProxy (refresh_proxy MaxFail tick (proxy pr) (Refresh pr))
                        (Refresh pr) in
      match refreshProxies MaxFail tick rest with
      | Some rest => Some (Some pr :: rest)
      | None => None
      end
  end.

(** A slice with its second slot left nil. *)
Definition slice_with_nil : list (option DatabaseProxy) :=
  [Some ProxyScenarios.proxy_unreachable; None].

End ProxySlice.

Module ProxyDrivers.
Import Proxies.

(** Drivers whose [Refresh] leaves the stored fail-count alone. *)
Definition keeps_count (refresh : nat -> Proxy -> Proxy * option string)
    : Prop :=
  forall tick pr, FailCount (refresh tick pr).1 = FailCount pr.

End ProxyDrivers.

Module ConfigScenariosMore.
Import Viper ClusterConfig.

(** Cluster [c1] without [monitoring-save-config]: its saved section is
    there, and changes [failover-limit]. *)
Definition root_unsaved : Root :=
  mkRoot {[ "c1" := {[ "failover-limit" := VInt 5 ]};
            "saved-c1" := {[ "failover-limit" := VInt 9 ]} ]}
         ∅ ∅.

End ConfigScenariosMore.

Module AliasScenarios.
Import Viper.

(** A section that gives a value under [master-connection] only. *)
Definition section_master_connection : Viper :=
  mkViper ∅ ∅ false ∅ {[ "master-connection" := VString "replica1" ]}.

End AliasScenarios.

(** * Properties *)

Import Go.

(** Closed decidable goals are settled by evaluation. *)
Ltac by_compute := apply (bool_decide_unpack _); vm_compute; exact I.

(** Reduce the projections of an instance, and nothing below them. *)
Ltac layers :=
cbn [Viper.aliases Viper.override Viper.config Viper.env
     Viper.automaticEnvApplied fst snd].

(** ** Heartbeat between controllers *)

Section HeartbeatFacts.
Import Server ServerSpec.

Lemma int64_wrap_id (z : Z) : - 2 ^ 63 <= z < 2 ^ 63 -> int64_wrap z = z.
Proof.
  intros Hz. unfold int64_wrap.
  rewrite Z.mod_small; lia.
Qed.

Lemma heartbeat_timeout_in_range (conf : Config) :
  ticker_in_range conf -> heartbeat_timeout conf = spec_timeout conf.
Proof.
  unfold ticker_in_range, spec_timeout, heartbeat_timeout, int64_mul, Second.
  intros Hr.
  rewrite (int64_wrap_id (MonitoringTicker conf * 1000000000)) by lia.
  rewrite int64_wrap_id by lia. lia.
Qed.

Lemma Split_not_nil (s : string) (sep : Ascii.ascii) : Split s sep <> [].
Proof.
  destruct s as [|c s]; simpl; [done|].
  destruct (decide (c = sep)); [done|].
  destruct (Split s sep); done.
Qed.

Lemma Split_last (s : string) (sep : Ascii.ascii) :
  exists l p, Split s sep = (l ++ [p])%list.
Proof.
  destruct (Split s sep) as [|x l] eqn:E using rev_ind.
  - by apply Split_not_nil in E.
  - by exists l, x.
Qed.

(** The outcome of a check is decided by the four calls alone. *)
Lemma peer_check_false net repman peer bck w :
  (HeartbeatPeerSplitBrain net repman peer bck w).1 = false <->
  exists h, PeerReports net (Conf repman) peer w h.
Proof.
  unfold HeartbeatPeerSplitBrain. split.
  - destruct (http_NewRequest _ _ _) as [req|] eqn:E1; [|done].
    destruct (client_Do _ _ _ _) as [resp|] eqn:E2; [|done].
    destruct (Body resp) as [monjson|] eqn:E3; [|done].
    destruct (json_Unmarshal _ _) as [h|] eqn:E4; [|done].
    intros _. exists h. by econstructor.
  - intros [h [req resp monjson E1 E2 E3 E4]].
    by rewrite E1, E2, E3, E4.
Qed.

Lemma peer_check_true net repman peer bck w :
  (HeartbeatPeerSplitBrain net repman peer bck w).1 = true <->
  PeerFailure net (Conf repman) peer w.
Proof.
  unfold HeartbeatPeerSplitBrain. split.
  - destruct (http_NewRequest _ _ _) as [req|e1] eqn:E1;
      [|intros _; by eapply fail_request].
    destruct (client_Do _ _ _ _) as [resp|e2] eqn:E2;
      [|intros _; by eapply fail_transport].
    destruct (Body resp) as [monjson|e3] eqn:E3;
      [|intros _; by eapply fail_body].
    destruct (json_Unmarshal _ _) as [h|e4] eqn:E4;
      [done|intros _; by eapply fail_unmarshal].
  - intros [e E1|req e E1 E2|req resp e E1 E2 E3|req resp monjson e E1 E2 E3 E4].
    + by rewrite E1.
    + by rewrite E1, E2.
    + by rewrite E1, E2, E3.
    + by rewrite E1, E2, E3, E4.
Qed.

(** A check sends at most one request, through a client with the
    heartbeat timeout. *)
Lemma peer_check_trace net repman peer bck w :
  exists new,
    (HeartbeatPeerSplitBrain net repman peer bck w).2 = (w ++ new)%list /\
    Forall (fun call : Call =>
              Timeout call.1 = heartbeat_timeout (Conf repman)) new.
Proof.
  unfold HeartbeatPeerSplitBrain.
  destruct (http_NewRequest _ _ _) as [req|].
  - exists [(mkClient (heartbeat_timeout (Conf repman)), req)]. split.
    + destruct (client_Do _ _ _ _) as [resp|]; [|done].
      destruct (Body resp) as [monjson|]; [|done].
      by destruct (json_Unmarshal _ _).
    + by repeat constructor.
  - exists []. split; [by rewrite app_nil_r|constructor].
Qed.

Lemma heartbeat_peers_cons net bck p l st :
  heartbeat_peers net bck (p :: l) st =
  heartbeat_peers net bck l (heartbeat_peer net bck st p).
Proof. done. Qed.

(** The peer loop writes [SplitBrain] and nothing else. *)
Lemma heartbeat_peers_frame net bck l st :
  Conf (heartbeat_peers net bck l st).1 = Conf st.1 /\
  Clusters (heartbeat_peers net bck l st).1 = Clusters st.1 /\
  repman_Status (heartbeat_peers net bck l st).1 = repman_Status st.1 /\
  repman_UUID (heartbeat_peers net bck l st).1 = repman_UUID st.1.
Proof.
  revert st. induction l as [|p l IH]; intros st; [done|].
  rewrite heartbeat_peers_cons.
  destruct (IH (heartbeat_peer net bck st p)) as (-> & -> & -> & ->).
  unfold heartbeat_peer.
  by destruct (HeartbeatPeerSplitBrain net st.1 p bck st.2).
Qed.

Lemma heartbeat_peers_snoc net bck l p st :
  heartbeat_peers net bck (l ++ [p]) st =
  heartbeat_peer net bck (heartbeat_peers net bck l st) p.
Proof. unfold heartbeat_peers. by rewrite foldl_app. Qed.

Lemma heartbeat_peer_flag net bck st p :
  SplitBrain (heartbeat_peer net bck st p).1 =
  (HeartbeatPeerSplitBrain net st.1 p bck st.2).1.
Proof.
  unfold heartbeat_peer.
  by destruct (HeartbeatPeerSplitBrain net st.1 p bck st.2).
Qed.

Lemma heartbeat_peers_trace net bck l st :
  exists new,
    (heartbeat_peers net bck l st).2 = (st.2 ++ new)%list /\
    Forall (fun call : Call =>
              Timeout call.1 = heartbeat_timeout (Conf st.1)) new.
Proof.
  revert st. induction l as [|p l IH]; intros st.
  - exists []. split; [by rewrite app_nil_r|constructor].
  - rewrite heartbeat_peers_cons.
    destruct (IH (heartbeat_peer net bck st p)) as (new2 & E2 & F2).
    destruct (peer_check_trace net st.1 p bck st.2) as (new1 & E1 & F1).
    assert (Hst : (heartbeat_peer net bck st p).2 = (st.2 ++ new1)%list /\
                  Conf (heartbeat_peer net bck st p).1 = Conf st.1).
    { unfold heartbeat_peer.
      destruct (HeartbeatPeerSplitBrain net st.1 p bck st.2); simpl in *.
      by rewrite E1. }
    destruct Hst as [Hw Hc].
    exists (new1 ++ new2)%list. split.
    + rewrite E2, Hw. by rewrite app_assoc.
    + apply Forall_app. split; [done|]. by rewrite Hc in F2.
Qed.

(** [Heartbeat] in its three cases. *)
Lemma Heartbeat_arbitrator net repman w :
  Heartbeat "arbitrator" net repman w = (repman, w).
Proof. done. Qed.

Lemma Heartbeat_no_peer cfgGroup net repman w :
  cfgGroup <> "arbitrator" ->
  ArbitrationPeerHosts (Conf repman) = "" ->
  Heartbeat cfgGroup net repman w =
  (set_Conf (set_Arbitration false (Conf repman)) repman, w).
Proof.
  intros Hg Hh. unfold Heartbeat.
  destruct (decide (cfgGroup = "arbitrator")); [done|].
  by destruct (decide (ArbitrationPeerHosts (Conf repman) = "")).
Qed.

Lemma Heartbeat_peers cfgGroup net repman w :
  cfgGroup <> "arbitrator" ->
  ArbitrationPeerHosts (Conf repman) <> "" ->
  Heartbeat cfgGroup net repman w =
  let st := heartbeat_peers net (SplitBrain repman)
              (Split (ArbitrationPeerHosts (Conf repman)) ","%char)
              (repman, w) in
  (propagate_SplitBrain st.1, st.2).
Proof.
  intros Hg Hh. unfold Heartbeat.
  destruct (decide (cfgGroup = "arbitrator")); [done|].
  by destruct (decide (ArbitrationPeerHosts (Conf repman) = "")).
Qed.

Lemma Heartbeat_Status cfgGroup net repman w :
  repman_Status (Heartbeat cfgGroup net repman w).1 = repman_Status repman.
Proof.
  unfold Heartbeat.
  destruct (decide (cfgGroup = "arbitrator")); [done|].
  destruct (decide (ArbitrationPeerHosts (Conf repman) = "")); [done|].
  simpl.
  by destruct (heartbeat_peers_frame net (SplitBrain repman)
    (Split (ArbitrationPeerHosts (Conf repman)) ","%char) (repman, w))
    as (_ & _ & -> & _).
Qed.

Lemma serving_Status repman :
  serving repman ->
  repman_Status repman = ConstMonitorActif \/
  repman_Status repman = ConstMonitorStandby.
Proof.
  induction 1 as [uuid r0|r r' _ IH Hstep].
  - simpl. destruct (Arbitration (Conf r0)); auto.
  - destruct Hstep as [name cl r|cfgGroup net r w _]; [done|].
    by rewrite Heartbeat_Status.
Qed.

End HeartbeatFacts.

Section HeartbeatClaims.
Import Server ServerSpec Scenarios.

(** C1, as the specification has it, fails: a peer that is reached and
    reports cluster [c1] with primary [db2:3306], while this controller
    sees [db1:3306], leaves the check at [false], and [Heartbeat] leaves
    [SplitBrain] at [false]. *)
Lemma other_primary_not_flagged :
  PeerReports net_other_primary (Conf repman_one_peer) "peer1:10001" []
              heartbeat_other_primary /\
  spec_reports_other_primary repman_one_peer heartbeat_other_primary /\
  (HeartbeatPeerSplitBrain net_other_primary repman_one_peer "peer1:10001"
                           false []).1 = false /\
  SplitBrain (Heartbeat "" net_other_primary repman_one_peer []).1 = false.
Proof.
  split; [|split; [|split]].
  - by eapply peer_reports.
  - exists "c1", (mkCluster "c1" "db1:3306" false). by vm_compute.
  - by vm_compute.
  - by vm_compute.
Qed.

(** C1, amended: the check of a peer gives [true] exactly when the call to
    the peer fails (request, transport, body or decoding), and [false]
    exactly when the peer is reached and its reply decodes as a heartbeat,
    whatever cluster and primary that heartbeat reports. *)
Theorem peer_check_decided_by_call net repman peer bck w :
  ((HeartbeatPeerSplitBrain net repman peer bck w).1 = true <->
   PeerFailure net (Conf repman) peer w) /\
  ((HeartbeatPeerSplitBrain net repman peer bck w).1 = false <->
   exists h, PeerReports net (Conf repman) peer w h).
Proof. split; [apply peer_check_true|apply peer_check_false]. Qed.

(** C2, as stated, fails in its last part: with two peers, the call to
    the first fails and its check gives [true], but the second peer answers
    and the tick ends with [SplitBrain] and every cluster's flag at
    [false]. *)
Lemma failed_peer_overwritten :
  PeerFailure net_peer1_down (Conf repman_two_peers) "peer1:10001" [] /\
  (HeartbeatPeerSplitBrain net_peer1_down repman_two_peers "peer1:10001"
                           false []).1 = true /\
  SplitBrain (Heartbeat "" net_peer1_down repman_two_peers []).1 = false /\
  Clusters (Heartbeat "" net_peer1_down repman_two_peers []).1 !! "c1"
    = Some (mkCluster "c1" "db1:3306" false).
Proof.
  split; [|split; [|split]].
  - by eapply fail_transport.
  - by vm_compute.
  - by vm_compute.
  - by vm_compute.
Qed.

(** C2, amended: in each of the four failure modes of the call
    [HeartbeatPeerSplitBrain] returns [true]; and when the failing peer is
    the last of the peer list (and the group is not the arbitrator), the
    tick ends with [SplitBrain] and the flag of every cluster at [true]. *)
Theorem peer_failure_fail_safe :
  (forall net repman peer bck w,
      PeerFailure net (Conf repman) peer w ->
      (HeartbeatPeerSplitBrain net repman peer bck w).1 = true) /\
  (forall cfgGroup net repman w l peer,
      cfgGroup <> "arbitrator" ->
      ArbitrationPeerHosts (Conf repman) <> "" ->
      Split (ArbitrationPeerHosts (Conf repman)) ","%char = (l ++ [peer])%list ->
      PeerFailure net (Conf repman) peer
                  (heartbeat_peers net (SplitBrain repman) l (repman, w)).2 ->
      SplitBrain (Heartbeat cfgGroup net repman w).1 = true /\
      forall name cl,
        Clusters (Heartbeat cfgGroup net repman w).1 !! name = Some cl ->
        IsSplitBrain cl = true).
Proof.
  split.
  - intros net repman peer bck w Hf. by apply peer_check_true.
  - intros cfgGroup net repman w l peer Hg Hh Hs Hf.
    rewrite Heartbeat_peers by done. simpl.
    rewrite Hs, heartbeat_peers_snoc.
    set (st := heartbeat_peers net (SplitBrain repman) l (repman, w)) in *.
    assert (Hc : Conf st.1 = Conf repman)
      by apply (heartbeat_peers_frame net (SplitBrain repman) l (repman, w)).
    assert (Hsb : SplitBrain (heartbeat_peer net (SplitBrain repman) st peer).1
                  = true).
    { rewrite heartbeat_peer_flag. apply peer_check_true. by rewrite Hc. }
    split; [done|].
    intros name cl. rewrite Hsb, lookup_fmap.
    destruct (Clusters _ !! name); [|done].
    simpl. by intros [= <-].
Qed.

Lemma peer_failure_fail_safe_witness :
  (HeartbeatPeerSplitBrain net_down repman_one_peer "peer1:10001" false []).1
    = true /\
  SplitBrain (Heartbeat "" net_down repman_one_peer []).1 = true.
Proof.
  split.
  - apply (proj1 peer_failure_fail_safe). by eapply fail_transport.
  - apply (proj2 peer_failure_fail_safe "" net_down repman_one_peer []
                 [] "peer1:10001"); [done|done|done|].
    by eapply fail_transport.
Defined.

(** C6, as stated, fails where the tick period is not positive or too
    large.  With a tick period of 0 the client of the peer check has a
    timeout of 0, which sets no deadline: nothing bounds the call.  With a
    tick period of 2305843010 seconds the 64-bit product wraps: the
    timeout is negative, it is not four tick periods, and again no
    deadline is set. *)
Lemma heartbeat_timeout_not_bounding :
  (exists call,
     (HeartbeatPeerSplitBrain net_down (repman_ticker 0) "peer1:10001" false
        []).2 = [call] /\
     Timeout call.1 = 0 /\
     forall now, deadline call.1 now = None) /\
  (exists call,
     (HeartbeatPeerSplitBrain net_down (repman_ticker 2305843010)
        "peer1:10001" false []).2 = [call] /\
     Timeout call.1 = -9223372033709551616 /\
     Timeout call.1 <> spec_timeout (Conf (repman_ticker 2305843010)) /\
     forall now, deadline call.1 now = None).
Proof.
  split.
  - eexists. split; [vm_compute; reflexivity|]. split; [reflexivity|].
    intros now. reflexivity.
  - eexists. split; [vm_compute; reflexivity|]. split; [reflexivity|].
    split; [vm_compute; discriminate|]. intros now. reflexivity.
Qed.

(** C6: when [MonitoringTicker] is from 1 second to 2305843009 seconds,
    every request of a peer check, and so every request of a whole
    [Heartbeat] run, goes through a client whose timeout is exactly four
    times [MonitoringTicker] seconds, and this timeout bounds the call: a
    call made at [now] has its deadline four tick periods after [now]. *)
Theorem heartbeat_client_timeout net repman :
  ticker_bounds_call (Conf repman) ->
  (forall peer bck w, exists new,
      (HeartbeatPeerSplitBrain net repman peer bck w).2 = (w ++ new)%list /\
      Forall (fun call : Call =>
                Timeout call.1 = spec_timeout (Conf repman) /\
                forall now,
                  deadline call.1 now
                    = Some (now + spec_timeout (Conf repman)))
             new) /\
  (forall cfgGroup w, exists new,
      (Heartbeat cfgGroup net repman w).2 = (w ++ new)%list /\
      Forall (fun call : Call =>
                Timeout call.1 = spec_timeout (Conf repman) /\
                forall now,
                  deadline call.1 now
                    = Some (now + spec_timeout (Conf repman)))
             new).
Proof.
  intros Hb.
  assert (Hr : ticker_in_range (Conf repman)).
  { unfold ticker_bounds_call, ticker_in_range, spec_timeout, Second in *.
    lia. }
  assert (Hp : 0 < spec_timeout (Conf repman)).
  { unfold ticker_bounds_call, spec_timeout, Second in *. lia. }
  assert (Hd : forall new : list Call,
             Forall (fun call : Call =>
                       Timeout call.1 = heartbeat_timeout (Conf repman)) new ->
             Forall (fun call : Call =>
                       Timeout call.1 = spec_timeout (Conf repman) /\
                       forall now,
                         deadline call.1 now
                           = Some (now + spec_timeout (Conf repman))) new).
  { intros new Hf. eapply Forall_impl; [exact Hf|]. intros call Ht.
    rewrite (heartbeat_timeout_in_range _ Hr) in Ht.
    split; [done|]. intros now. unfold deadline. rewrite Ht.
    by rewrite decide_True. }
  split.
  - intros peer bck w.
    destruct (peer_check_trace net repman peer bck w) as (new & E & Hf).
    exists new. split; [done|]. by apply Hd.
  - intros cfgGroup w. unfold Heartbeat.
    destruct (decide (cfgGroup = "arbitrator")).
    { exists []. split; [by rewrite app_nil_r|constructor]. }
    destruct (decide (ArbitrationPeerHosts (Conf repman) = "")).
    { exists []. split; [by rewrite app_nil_r|constructor]. }
    destruct (heartbeat_peers_trace net (SplitBrain repman)
                (Split (ArbitrationPeerHosts (Conf repman)) ",")
                (repman, w)) as (new & E & Hf).
    exists new. split; [done|]. by apply Hd.
Qed.

Lemma heartbeat_client_timeout_witness :
  (Heartbeat "" net_other_primary repman_two_peers []).2 =
    [ (mkClient 8000000000,
       mkRequest "GET" "http://peer1:10001/api/heartbeat");
      (mkClient 8000000000,
       mkRequest "GET" "http://peer2:10001/api/heartbeat") ] /\
  exists new,
    (Heartbeat "" net_other_primary repman_two_peers []).2 = ([] ++ new)%list /\
    Forall (fun call : Call =>
              Timeout call.1 = 8000000000 /\
              forall now, deadline call.1 now = Some (now + 8000000000)) new.
Proof.
  split; [by vm_compute|].
  apply (proj2 (heartbeat_client_timeout net_other_primary repman_two_peers
                  ltac:(by vm_compute)) "" []).
Defined.

(** C8: whenever the API serves, the reply of the heartbeat endpoint is a
    JSON object with exactly the members [uuid], [secret], [cluster],
    [master], [id], [status], [hosts] and [failed], and its [status] is
    the string ["A"] or the string ["S"]. *)
Theorem heartbeat_endpoint_reply repman :
  serving repman ->
  member_names (reply_body (handlerMuxMonitorHeartbeat repman)) =
    ["uuid"; "secret"; "cluster"; "master"; "id"; "status"; "hosts"; "failed"] /\
  (member "status" (reply_body (handlerMuxMonitorHeartbeat repman))
     = Some (JString "A") \/
   member "status" (reply_body (handlerMuxMonitorHeartbeat repman))
     = Some (JString "S")).
Proof.
  intros Hs. split; [done|].
  destruct (serving_Status repman Hs) as [E|E]; [left|right];
    simpl; by rewrite E.
Qed.

Lemma heartbeat_endpoint_reply_witness :
  reply_body (handlerMuxMonitorHeartbeat
                (Heartbeat "" net_down (Run_init "uuid-1" repman_one_peer) []).1)
    = [ ("uuid", JString "uuid-1"); ("secret", JString "secret");
        ("cluster", JString ""); ("master", JString "");
        ("id", JNumber 1); ("status", JString "S");
        ("hosts", JNumber 0); ("failed", JNumber 0) ] /\
  member_names
    (reply_body (handlerMuxMonitorHeartbeat
      (Heartbeat "" net_down (Run_init "uuid-1" repman_one_peer) []).1)) =
    ["uuid"; "secret"; "cluster"; "master"; "id"; "status"; "hosts"; "failed"].
Proof.
  split; [by vm_compute|].
  apply heartbeat_endpoint_reply.
  eapply serving_step; [apply serving_init|].
  by apply step_Heartbeat.
Defined.

(** C9, as stated, fails when the configuration group is the arbitrator:
    [Heartbeat] returns at once, so with a peer configured whose check
    gives [true] the supervisor flag stays [false], and a cluster flag
    that was [true] stays different from the supervisor flag. *)
Lemma arbitrator_group_skips_peers :
  ArbitrationPeerHosts (Conf repman_marked) = "peer1:10001" /\
  (HeartbeatPeerSplitBrain net_down repman_marked "peer1:10001" false []).1
    = true /\
  SplitBrain (Heartbeat "arbitrator" net_down repman_marked []).1 = false /\
  IsSplitBrain <$> Clusters (Heartbeat "arbitrator" net_down repman_marked []).1
                     !! "c1" = Some true.
Proof. repeat split; by vm_compute. Qed.

(** C9, amended: when the configuration group is not the arbitrator and
    peers are configured, the peer list has a last peer, [SplitBrain] ends
    as the result of the check of that last peer (run after the checks of
    the peers before it), and every cluster is the cluster it was with
    [IsSplitBrain] set to that final flag. *)
Theorem last_peer_decides cfgGroup net repman w :
  cfgGroup <> "arbitrator" ->
  ArbitrationPeerHosts (Conf repman) <> "" ->
  exists l peer,
    Split (ArbitrationPeerHosts (Conf repman)) ","%char = (l ++ [peer])%list /\
    let before := heartbeat_peers net (SplitBrain repman) l (repman, w) in
    let after := (Heartbeat cfgGroup net repman w).1 in
    SplitBrain after =
      (HeartbeatPeerSplitBrain net before.1 peer (SplitBrain repman) before.2).1 /\
    (forall name,
        Clusters after !! name =
        set_IsSplitBrain (SplitBrain after) <$> Clusters repman !! name) /\
    (forall name cl,
        Clusters after !! name = Some cl -> IsSplitBrain cl = SplitBrain after).
Proof.
  intros Hg Hh.
  destruct (Split_last (ArbitrationPeerHosts (Conf repman)) ","%char)
    as (l & peer & Hs).
  exists l, peer. split; [done|]. simpl.
  rewrite Heartbeat_peers by done. simpl.
  rewrite Hs, heartbeat_peers_snoc.
  set (st := heartbeat_peers net (SplitBrain repman) l (repman, w)).
  assert (Hcl : Clusters (heartbeat_peer net (SplitBrain repman) st peer).1
                = Clusters repman).
  { unfold heartbeat_peer.
    destruct (HeartbeatPeerSplitBrain net st.1 peer (SplitBrain repman) st.2).
    simpl.
    apply (heartbeat_peers_frame net (SplitBrain repman) l (repman, w)). }
  split; [apply heartbeat_peer_flag|]. split.
  - intros name. by rewrite lookup_fmap, Hcl.
  - intros name cl. rewrite lookup_fmap.
    destruct (Clusters _ !! name); [|done].
    simpl. by intros [= <-].
Qed.

Lemma last_peer_decides_witness :
  SplitBrain (Heartbeat "" net_peer1_down repman_two_peers []).1 = false /\
  exists l peer,
    Split (ArbitrationPeerHosts (Conf repman_two_peers)) ","%char
      = (l ++ [peer])%list /\
    let before := heartbeat_peers net_peer1_down (SplitBrain repman_two_peers)
                                  l (repman_two_peers, []) in
    let after := (Heartbeat "" net_peer1_down repman_two_peers []).1 in
    SplitBrain after =
      (HeartbeatPeerSplitBrain net_peer1_down before.1 peer
                               (SplitBrain repman_two_peers) before.2).1 /\
    (forall name,
        Clusters after !! name =
        set_IsSplitBrain (SplitBrain after)
          <$> Clusters repman_two_peers !! name) /\
    (forall name cl,
        Clusters after !! name = Some cl -> IsSplitBrain cl = SplitBrain after).
Proof.
  split; [by vm_compute|].
  by apply (last_peer_decides "" net_peer1_down repman_two_peers []).
Defined.

(** C10, as stated, fails when the configuration group is the arbitrator:
    with no peer configured and arbitration on, [Heartbeat] returns before
    it reaches the peer hosts and the arbitration flag stays [true]. *)
Lemma arbitrator_group_keeps_arbitration :
  ArbitrationPeerHosts (Conf repman_no_peer) = "" /\
  Arbitration (Conf repman_no_peer) = true /\
  Arbitration (Conf (Heartbeat "arbitrator" net_down repman_no_peer []).1)
    = true.
Proof. repeat split; by vm_compute. Qed.

(** C10, amended: with no peer configured, [Heartbeat] leaves
    [SplitBrain] and every cluster as they were and sends no request; and
    when the configuration group is not the arbitrator it sets the
    arbitration flag to [false]. *)
Theorem no_peer_disables_arbitration cfgGroup net repman w :
  ArbitrationPeerHosts (Conf repman) = "" ->
  SplitBrain (Heartbeat cfgGroup net repman w).1 = SplitBrain repman /\
  Clusters (Heartbeat cfgGroup net repman w).1 = Clusters repman /\
  (Heartbeat cfgGroup net repman w).2 = w /\
  (cfgGroup <> "arbitrator" ->
   Arbitration (Conf (Heartbeat cfgGroup net repman w).1) = false).
Proof.
  intros Hh. destruct (decide (cfgGroup = "arbitrator")) as [->|Hg].
  - by rewrite Heartbeat_arbitrator.
  - by rewrite Heartbeat_no_peer.
Qed.

Lemma no_peer_disables_arbitration_witness :
  SplitBrain (Heartbeat "" net_down repman_no_peer []).1 = false /\
  Clusters (Heartbeat "" net_down repman_no_peer []).1
    = Clusters repman_no_peer /\
  (Heartbeat "" net_down repman_no_peer []).2 = [] /\
  ("" <> "arbitrator" ->
   Arbitration (Conf (Heartbeat "" net_down repman_no_peer []).1) = false).
Proof. by apply (no_peer_disables_arbitration "" net_down repman_no_peer []). Defined.

End HeartbeatClaims.

(** ** Configuration: aliases and the saved section *)

Section ConfigFacts.
Import Viper ClusterConfig ClusterConfigSpec.

(** A loop that stores [g f] under [f] for every [f] of a list. *)
Lemma foldl_store_lookup {V : Type} (g : string -> option V)
    (l : list string) (m : gmap string V) (k : string) :
  foldl (fun m f => match g f with
                    | Some v => <[f := v]> m
                    | None => m
                    end) m l !! k =
  if decide (k ∈ l)
  then match g k with Some v => Some v | None => m !! k end
  else m !! k.
Proof.
  revert m. induction l as [|a l IH]; intros m; simpl.
  - destruct (decide (k ∈ [])) as [H|H]; [by apply elem_of_nil in H|done].
  - rewrite IH. clear IH.
    destruct (decide (k ∈ l)) as [Hin|Hin];
      destruct (decide (k ∈ a :: l)) as [Hin'|Hin'].
    + destruct (g k) eqn:Ek; [done|].
      destruct (g a) eqn:Ea; [|done].
      rewrite lookup_insert_ne; [done|]. intros ->. congruence.
    + exfalso. apply Hin'. by right.
    + apply elem_of_cons in Hin' as [->|?]; [|done].
      destruct (g a); [by rewrite lookup_insert_eq|done].
    + destruct (g a); [|done].
      rewrite lookup_insert_ne; [done|]. intros ->. apply Hin'. left.
Qed.

Lemma foldl_ext_in {A B : Type} (F G : A -> B -> A) (l : list B) (a : A) :
  (forall x b, b ∈ l -> F x b = G x b) -> foldl F a l = foldl G a l.
Proof.
  revert a. induction l as [|b l IH]; intros a HFG; simpl; [done|].
  rewrite HFG by left. apply IH. intros x b' Hb. apply HFG. by right.
Qed.

Lemma elem_of_AllKeys (v : Viper) (k : string) :
  k ∈ AllKeys v <->
  is_Some (aliases v !! k) \/ is_Some (override v !! k) \/
  is_Some (config v !! k).
Proof.
  unfold AllKeys. rewrite elem_of_elements, !elem_of_union, !elem_of_dom.
  tauto.
Qed.

Lemma realKey_in_not_alias (al : gmap string string) (k : string) :
  al !! k = None -> realKey_in al k = k.
Proof. intros H. unfold realKey_in. simpl. by rewrite H. Qed.

Lemma AllSettings_lookup (v : Viper) (k : string) :
  AllSettings v !! k = if decide (k ∈ AllKeys v) then Get v k else None.
Proof.
  unfold AllSettings. rewrite foldl_store_lookup.
  destruct (decide (k ∈ AllKeys v)); [|done].
  by destruct (Get v k).
Qed.

Lemma Unmarshal_fields (v : Viper) (conf : Config) (k : string) :
  fields (Unmarshal v conf) !! k =
  match AllSettings v !! k with
  | Some x => Some x
  | None => fields conf !! k
  end.
Proof.
  simpl. destruct (AllSettings v !! k) eqn:E.
  - by apply lookup_union_Some_l.
  - by apply lookup_union_r.
Qed.

(** *** [RegisterAlias] and [initAlias] *)

Lemma RegisterAlias_unfold (alias key : string) (v : Viper) :
  RegisterAlias alias key v =
  if registers (aliases v) (ToLower alias) (ToLower key)
  then mkViper (<[ToLower alias := ToLower key]> (aliases v))
               (move_key (ToLower alias) (ToLower key) (override v))
               (automaticEnvApplied v) (env v)
               (move_key (ToLower alias) (ToLower key) (config v))
  else v.
Proof.
  unfold RegisterAlias, registers, realKey.
  destruct (decide (_ ∧ _)) as [H|H].
  - rewrite (bool_decide_eq_true_2 _ H). simpl.
    destruct (aliases v !! ToLower alias) eqn:E.
    + by rewrite bool_decide_eq_false_2.
    + by rewrite bool_decide_eq_true_2.
  - by rewrite (bool_decide_eq_false_2 _ H).
Qed.

Lemma register_calls (calls : list (string * string)) (v : Viper) :
  foldl (fun v call => RegisterAlias call.1 call.2 v) v calls =
  mkViper (aliases_after (aliases v) calls)
          (apply_moves (moves_after (aliases v) calls) (override v))
          (automaticEnvApplied v) (env v)
          (apply_moves (moves_after (aliases v) calls) (config v)).
Proof.
  revert v. induction calls as [|[alias key] calls IH]; intros v; simpl.
  - by destruct v.
  - rewrite IH, RegisterAlias_unfold. unfold aliases_after. simpl.
    by destruct (registers (aliases v) (ToLower alias) (ToLower key)).
Qed.

Lemma initAlias_fresh (v : Viper) :
  aliases v = ∅ ->
  initAlias v =
  mkViper initAlias_aliases (apply_moves initAlias_moves (override v))
          (automaticEnvApplied v) (env v)
          (apply_moves initAlias_moves (config v)).
Proof.
  intros Ha. unfold initAlias, initAlias_aliases, initAlias_moves.
  rewrite register_calls, Ha. reflexivity.
Qed.

Lemma move_key_other (alias key k : string) (m : gmap string Value) :
  k <> alias -> k <> key -> move_key alias key m !! k = m !! k.
Proof.
  intros H1 H2. unfold move_key. destruct (m !! alias); [|done].
  by rewrite lookup_insert_ne, lookup_delete_ne.
Qed.

Lemma move_key_moved (alias key : string) (m : gmap string Value) :
  alias <> key ->
  move_key alias key m !! key =
    match m !! alias with Some x => Some x | None => m !! key end /\
  move_key alias key m !! alias = None.
Proof.
  intros Hne. unfold move_key. destruct (m !! alias) eqn:E.
  - by rewrite lookup_insert_eq, lookup_insert_ne, lookup_delete_eq.
  - done.
Qed.

(** Moves that do not name [k] leave what is stored under [k]. *)
Lemma apply_moves_other (moves : list (string * string)) (k : string)
    (m : gmap string Value) :
  Forall (fun mv => k <> mv.1 /\ k <> mv.2) moves ->
  apply_moves moves m !! k = m !! k.
Proof.
  revert m. induction moves as [|[a b] moves IH]; intros m Hf; [done|].
  apply Forall_cons in Hf as [[H1 H2] Hf]. unfold apply_moves in *. simpl.
  rewrite IH by done. by apply move_key_other.
Qed.

(** A move named by no other move of the sequence. *)
Lemma apply_moves_one (before after : list (string * string))
    (alias key : string) (m : gmap string Value) :
  alias <> key ->
  Forall (fun mv => alias <> mv.1 /\ alias <> mv.2) (before ++ after) ->
  Forall (fun mv => key <> mv.1 /\ key <> mv.2) (before ++ after) ->
  apply_moves (before ++ (alias, key) :: after) m !! key =
    match m !! alias with Some x => Some x | None => m !! key end /\
  apply_moves (before ++ (alias, key) :: after) m !! alias = None.
Proof.
  intros Hne [Ha1 Ha2]%Forall_app [Hk1 Hk2]%Forall_app.
  unfold apply_moves. rewrite foldl_app. simpl.
  fold (apply_moves before m).
  fold (apply_moves after (move_key alias key (apply_moves before m))).
  rewrite !apply_moves_other by done.
  destruct (move_key_moved alias key (apply_moves before m) Hne) as [-> ->].
  by rewrite !apply_moves_other by done.
Qed.

End ConfigFacts.

Section AliasFacts.
Import Viper ClusterConfig ClusterConfigSpec.

(** Where each pair of the specification sits among the moves. *)
Lemma spec_pair_move (alias key : string) :
  (alias, key) ∈ spec_alias_pairs ->
  ToLower alias = alias /\ ToLower key = key /\ alias <> key /\
  realKey_in initAlias_aliases alias = key /\
  realKey_in initAlias_aliases key = key /\
  initAlias_aliases !! alias = Some key /\
  exists before after,
    initAlias_moves = (before ++ (alias, key) :: after)%list /\
    Forall (fun mv : string * string => alias <> mv.1 /\ alias <> mv.2)
           (before ++ after) /\
    Forall (fun mv : string * string => key <> mv.1 /\ key <> mv.2)
           (before ++ after).
Proof.
  unfold spec_alias_pairs. rewrite !elem_of_cons, elem_of_nil.
  intros [E|[E|[E|[E|[]]]]]; injection E as -> ->;
    (do 6 (split; [by vm_compute|])).
  - exists (take 12 initAlias_moves), (drop 13 initAlias_moves).
    split; [by vm_compute|]. split; by_compute.
  - exists (take 31 initAlias_moves), (drop 32 initAlias_moves).
    split; [by vm_compute|]. split; by_compute.
  - exists (take 26 initAlias_moves), (drop 27 initAlias_moves).
    split; [by vm_compute|]. split; by_compute.
  - exists (take 30 initAlias_moves), (drop 31 initAlias_moves).
    split; [by vm_compute|]. split; by_compute.
Qed.

End AliasFacts.

Section SavedSectionFacts.
Import Viper ClusterConfig ClusterConfigSpec.

Lemma Sub_fresh (root : Root) (key : string) (v : Viper) :
  Sub root key = Some v ->
  aliases v = ∅ /\ override v = ∅ /\
  sections root !! ToLower key = Some (config v).
Proof.
  unfold Sub. destruct (sections root !! ToLower key); [|done].
  by intros [= <-].
Qed.

Lemma Sub_no_env (root : Root) (key : string) (v : Viper) :
  Sub root key = Some v -> automaticEnvApplied v = false.
Proof.
  unfold Sub. destruct (sections root !! ToLower key); [|done].
  by intros [= <-].
Qed.

Lemma fresh_key_lower (v : Viper) (k : string) :
  fresh_section v -> k ∈ AllKeys v -> ToLower k = k /\ is_Some (config v !! k).
Proof.
  intros (Ha & Ho & Hl) Hk. apply elem_of_AllKeys in Hk.
  rewrite Ha, Ho, !lookup_empty in Hk.
  destruct Hk as [[? [=]]|[[? [=]]|[x Hx]]].
  split; [|by exists x]. by apply (Hl k x).
Qed.

(** The first loop, on an instance without aliases and with lower-case
    keys: it fills the layer of the [Set] values. *)
Lemma set_immutable_loop (imm : gmap string Value) (l : list string)
    (cf : Viper) :
  aliases cf = ∅ -> Forall (fun k => ToLower k = k) l ->
  foldl (fun cf f => match imm !! f with
                     | Some v => Set_ cf f v
                     | None => cf
                     end) cf l =
  mkViper ∅ (foldl (fun o f => match imm !! f with
                               | Some v => <[f := v]> o
                               | None => o
                               end) (override cf) l)
          (automaticEnvApplied cf) (env cf) (config cf).
Proof.
  revert cf. induction l as [|a l IH]; intros cf Ha Hl; simpl.
  - destruct cf; simpl in *. by subst.
  - apply Forall_cons in Hl as [Hla Hl].
    destruct (imm !! a) as [v|]; [|by apply IH].
    rewrite IH by done. simpl. unfold realKey.
    by rewrite Ha, realKey_in_not_alias, Hla by apply lookup_empty.
Qed.

Lemma set_immutable_fresh (imm : gmap string Value) (cf3 : Viper) :
  fresh_section cf3 ->
  set_immutable imm cf3 =
  mkViper ∅ (foldl (fun o f => match imm !! f with
                               | Some v => <[f := v]> o
                               | None => o
                               end) ∅ (AllKeys cf3))
          (automaticEnvApplied cf3) (env cf3) (config cf3).
Proof.
  intros Hf. unfold set_immutable.
  rewrite set_immutable_loop.
  - by rewrite (proj1 (proj2 Hf)).
  - apply Hf.
  - apply Forall_forall. intros k Hk. by apply (fresh_key_lower cf3 k Hf).
Qed.

Lemma set_immutable_override (imm : gmap string Value) (cf3 : Viper)
    (k : string) :
  fresh_section cf3 ->
  override (set_immutable imm cf3) !! k =
  if decide (k ∈ AllKeys cf3) then imm !! k else None.
Proof.
  intros Hf. rewrite set_immutable_fresh by done. simpl.
  rewrite foldl_store_lookup, lookup_empty.
  destruct (decide (k ∈ AllKeys cf3)); [|done]. by destruct (imm !! k).
Qed.

(** What [Get] finds after the first loop. *)
Lemma set_immutable_Get (imm : gmap string Value) (cf3 : Viper) (f : string) :
  fresh_section cf3 -> f ∈ AllKeys cf3 ->
  Get (set_immutable imm cf3) f =
  match imm !! f with Some v => Some v | None => Get cf3 f end.
Proof.
  intros Hf Hk.
  destruct (fresh_key_lower cf3 f Hf Hk) as [Hl _].
  pose proof (set_immutable_override imm cf3 f Hf) as Ho.
  rewrite decide_True in Ho by done.
  unfold Get, find, realKey. rewrite Hl.
  replace (aliases (set_immutable imm cf3)) with (∅ : gmap string string)
    by by rewrite set_immutable_fresh.
  rewrite (proj1 Hf). rewrite realKey_in_not_alias by apply lookup_empty.
  rewrite Ho. destruct (imm !! f) as [v|]; [done|].
  rewrite (proj1 (proj2 Hf)), lookup_empty.
  by rewrite set_immutable_fresh.
Qed.

Lemma move_key_absent (alias key : string) (m : gmap string Value) :
  m !! alias = None -> move_key alias key m = m.
Proof. intros H. unfold move_key. by rewrite H. Qed.

Lemma apply_moves_absent (moves : list (string * string))
    (m : gmap string Value) :
  Forall (fun mv : string * string => m !! mv.1 = None) moves ->
  apply_moves moves m = m.
Proof.
  induction moves as [|[a b] moves IH]; intros Hf; [done|].
  apply Forall_cons in Hf as [Ha Hf]. unfold apply_moves in *. simpl in *.
  rewrite move_key_absent by done. by apply IH.
Qed.

Lemma initAlias_moves_aliases :
  Forall (fun mv : string * string => mv.1 ∈ initAlias_calls.*1)
         initAlias_moves.
Proof. by_compute. Qed.

Lemma initAlias_aliases_dom (k : string) :
  k ∉ initAlias_calls.*1 -> initAlias_aliases !! k = None.
Proof.
  intros Hk. apply eq_None_not_Some. intros Hs%elem_of_dom%elem_of_elements.
  apply Hk.
  assert (Hall : Forall (fun x => x ∈ initAlias_calls.*1)
                        (elements (dom initAlias_aliases))) by by_compute.
  by apply (proj1 (Forall_forall _ _) Hall).
Qed.

(** With canonical keys, [initAlias] moves nothing in the saved section. *)
Lemma saved_viper_canonical (imm : gmap string Value) (cf3 : Viper) :
  fresh_section cf3 -> canonical_keys cf3 ->
  saved_viper imm cf3 =
  mkViper initAlias_aliases (override (set_immutable imm cf3))
          (automaticEnvApplied cf3) (env cf3) (config cf3).
Proof.
  intros Hf Hc. unfold saved_viper.
  rewrite initAlias_fresh by by rewrite set_immutable_fresh.
  rewrite !apply_moves_absent.
  - by rewrite set_immutable_fresh.
  - eapply Forall_impl; [apply initAlias_moves_aliases|].
    intros [a b] Ha. layers. rewrite set_immutable_fresh by done. layers.
    apply eq_None_not_Some. intros Hs. apply (Hc a Ha).
    apply elem_of_AllKeys. by right; right.
  - eapply Forall_impl; [apply initAlias_moves_aliases|].
    intros [a b] Ha. layers.
    rewrite set_immutable_override, decide_False by (done || by apply Hc).
    done.
Qed.

Lemma saved_viper_canonical_Get (imm : gmap string Value) (cf3 : Viper)
    (f : string) :
  fresh_section cf3 -> canonical_keys cf3 -> f ∈ AllKeys cf3 ->
  f ∈ AllKeys (saved_viper imm cf3) /\
  Get (saved_viper imm cf3) f =
    match imm !! f with Some v => Some v | None => Get cf3 f end.
Proof.
  intros Hf Hc Hk.
  destruct (fresh_key_lower cf3 f Hf Hk) as [Hl Hs].
  assert (Hna : initAlias_aliases !! f = None).
  { apply initAlias_aliases_dom. intros Ha. by apply (Hc f Ha). }
  rewrite saved_viper_canonical by done. split.
  - apply elem_of_AllKeys. by right; right.
  - rewrite <- set_immutable_Get by done.
    unfold Get, find, realKey. layers. rewrite Hl.
    rewrite realKey_in_not_alias by done.
    replace (aliases (set_immutable imm cf3)) with (∅ : gmap string string)
      by by rewrite set_immutable_fresh.
    rewrite realKey_in_not_alias by apply lookup_empty.
    by rewrite set_immutable_fresh.
Qed.

Lemma add_dynamic_flags_lookup (imm : gmap string Value) (cf3 : Viper)
    (dyn : gmap string Value) (f : string) :
  add_dynamic_flags imm cf3 dyn !! f =
  if decide (f ∈ AllKeys cf3)
  then match dynamic_value imm cf3 f with
       | Some v => Some v
       | None => dyn !! f
       end
  else dyn !! f.
Proof.
  unfold add_dynamic_flags. rewrite <- foldl_store_lookup.
  f_equal. apply foldl_ext_in. intros m k _. unfold dynamic_value.
  destruct (Get cf3 k) as [v|]; [|done].
  destruct (imm !! k) as [imm_v|]; [|by rewrite decide_False].
  destruct (decide (imm_v ≠ v)) as [Hne|Heq].
  - rewrite decide_False; [done|]. by intros [= ->].
  - apply dec_stable in Heq as ->. by rewrite decide_True.
Qed.

Lemma GetClusterConfig_saved repman fistRead ImmuableMap DynamicMap cluster
    conf cf3 :
  cluster <> "" ->
  ConfRewrite (cluster_immutable_conf fistRead cluster conf) = true ->
  Sub fistRead ("saved-" +:+ cluster) = Some cf3 ->
  let imm := cluster_immutable_map repman fistRead ImmuableMap cluster in
  let result :=
    GetClusterConfig repman fistRead ImmuableMap DynamicMap cluster conf in
  result.1 = Unmarshal (saved_viper imm cf3)
                       (cluster_immutable_conf fistRead cluster conf) /\
  ImmuableFlagMaps result.2 !! cluster = Some imm /\
  DynamicFlagMaps result.2 !! cluster =
    Some (add_dynamic_flags imm (saved_viper imm cf3) DynamicMap).
Proof.
  intros Hc Hr Hs. simpl. unfold GetClusterConfig.
  destruct (decide (cluster = "")); [done|].
  rewrite Hr, Hs. simpl. by rewrite !lookup_insert_eq.
Qed.

(** A move keeps the origin of the values: what the [Set] layer holds, and
    what the file layer holds where the [Set] layer holds nothing. *)
Lemma move_key_origin (PO PC : Value -> Prop) (alias key : string)
    (o c : gmap string Value) :
  alias <> key ->
  (forall k z, o !! k = Some z -> PO z) ->
  (forall k x, o !! k = None -> c !! k = Some x -> PC x) ->
  (forall k z, move_key alias key o !! k = Some z -> PO z) /\
  (forall k x, move_key alias key o !! k = None ->
               move_key alias key c !! k = Some x -> PC x).
Proof.
  intros Hne Ho Hc. split.
  - intros k z. unfold move_key. destruct (o !! alias) as [y|] eqn:Ea.
    + destruct (decide (k = key)) as [->|Hk].
      * rewrite lookup_insert_eq. intros [= <-]. by eapply Ho.
      * rewrite lookup_insert_ne by done.
        intros [_ H]%lookup_delete_Some. by eapply Ho.
    + apply Ho.
  - intros k x.
    destruct (decide (k = alias)) as [->|Hka].
    { intros _. unfold move_key. destruct (c !! alias) as [y|] eqn:Ea.
      - rewrite lookup_insert_ne by (by intros ->).
        by rewrite lookup_delete_eq.
      - intros Hx. congruence. }
    destruct (decide (k = key)) as [->|Hkk].
    { destruct (move_key_moved alias key o Hne) as [-> _].
      destruct (move_key_moved alias key c Hne) as [-> _].
      destruct (o !! alias) eqn:Eo; [done|]. intros Hok.
      destruct (c !! alias) as [y|] eqn:Ec.
      - intros [= <-]. by apply (Hc alias).
      - intros Hx. by apply (Hc key). }
    rewrite !move_key_other by done. apply Hc.
Qed.

Lemma apply_moves_origin (PO PC : Value -> Prop)
    (moves : list (string * string)) (o c : gmap string Value) :
  Forall (fun mv : string * string => mv.1 <> mv.2) moves ->
  (forall k z, o !! k = Some z -> PO z) ->
  (forall k x, o !! k = None -> c !! k = Some x -> PC x) ->
  (forall k z, apply_moves moves o !! k = Some z -> PO z) /\
  (forall k x, apply_moves moves o !! k = None ->
               apply_moves moves c !! k = Some x -> PC x).
Proof.
  revert o c. induction moves as [|[a b] moves IH]; intros o c Hf Ho Hc;
    [done|].
  apply Forall_cons in Hf as [Hab Hf].
  destruct (move_key_origin PO PC a b o c Hab Ho Hc) as [Ho' Hc'].
  by apply (IH (move_key a b o) (move_key a b c)).
Qed.

Lemma initAlias_moves_proper :
  Forall (fun mv : string * string => mv.1 <> mv.2) initAlias_moves.
Proof. by_compute. Qed.

(** Whatever the saved section gives once it is ready to be unmarshalled
    is an immutable value, a value of the environment, or the saved value
    of a key that is not immutable. *)
Lemma saved_viper_Get_origin (imm : gmap string Value) (cf3 : Viper)
    (k : string) (x : Value) :
  fresh_section cf3 ->
  Get (saved_viper imm cf3) k = Some x ->
  from_immutable imm cf3 x \/
  (automaticEnvApplied cf3 = true /\ exists r, env cf3 !! r = Some x) \/
  from_saved imm cf3 x.
Proof.
  intros Hf. unfold saved_viper.
  rewrite initAlias_fresh by by rewrite set_immutable_fresh.
  destruct (apply_moves_origin (from_immutable imm cf3) (from_saved imm cf3)
              initAlias_moves (override (set_immutable imm cf3))
              (config (set_immutable imm cf3)) initAlias_moves_proper)
    as [Ho Hc].
  { intros f z. rewrite set_immutable_override by done.
    destruct (decide (f ∈ AllKeys cf3)); [|done]. intros Hz. by exists f. }
  { intros f y. rewrite set_immutable_override by done.
    rewrite set_immutable_fresh by done. layers. intros Hn Hy.
    assert (Hin : f ∈ AllKeys cf3) by (apply elem_of_AllKeys; by right; right).
    rewrite decide_True in Hn by done. by exists f. }
  unfold Get, find. layers.
  set (r := realKey _ _).
  destruct (apply_moves initAlias_moves (override (set_immutable imm cf3)) !! r)
    as [z|] eqn:Eo.
  { intros [= <-]. left. by eapply Ho. }
  rewrite set_immutable_fresh by done. layers.
  rewrite set_immutable_fresh in Eo, Hc by done. revert Eo Hc. layers.
  intros Eo Hc.
  destruct (automaticEnvApplied cf3) eqn:Eauto.
  - destruct (env cf3 !! r) as [e|] eqn:Ee.
    + intros [= <-]. right; left. split; [done|]. by exists r.
    + intros Hx. right; right. by eapply Hc.
  - intros Hx. right; right. by eapply Hc.
Qed.

End SavedSectionFacts.

Section ConfigClaims.
Import Viper ClusterConfig ClusterConfigSpec ConfigScenarios.

(** A saved value that the saved section holds under an alias, and not
    under the key, is the value of the key in the configuration returned,
    when the immutable map has no entry under the alias: the loop that
    forces the immutable values runs on the names of the saved section
    before [initAlias] moves them, so the value of the immutable map under
    the key is not looked at. *)
Lemma saved_alias_wins repman fistRead ImmuableMap DynamicMap cluster conf
    cf3 alias key x :
  (alias, key) ∈ spec_alias_pairs ->
  cluster <> "" ->
  ConfRewrite (cluster_immutable_conf fistRead cluster conf) = true ->
  Sub fistRead ("saved-" +:+ cluster) = Some cf3 ->
  lower_keys (config cf3) ->
  config cf3 !! alias = Some x ->
  config cf3 !! key = None ->
  cluster_immutable_map repman fistRead ImmuableMap cluster !! alias = None ->
  fields (GetClusterConfig repman fistRead ImmuableMap DynamicMap cluster
            conf).1 !! key = Some x.
Proof.
  intros Hp Hc Hr Hs Hl Hx Hk Hi.
  set (imm := cluster_immutable_map repman fistRead ImmuableMap cluster) in *.
  destruct (Sub_fresh _ _ _ Hs) as (Ha & Ho & _).
  pose proof (Sub_no_env _ _ _ Hs) as He.
  assert (Hf : fresh_section cf3) by done.
  destruct (GetClusterConfig_saved repman fistRead ImmuableMap DynamicMap
              cluster conf cf3 Hc Hr Hs) as (E1 & _ & _).
  fold imm in E1. rewrite E1. clear E1.
  destruct (spec_pair_move alias key Hp)
    as (Hla & Hlk & Hne & Hra & Hrk & _ & before & after & Hm & Hfa & Hfk).
  assert (Haliases : aliases (set_immutable imm cf3) = ∅)
    by (by rewrite set_immutable_fresh).
  assert (Hcfg : config (saved_viper imm cf3) !! key = Some x).
  { unfold saved_viper. rewrite initAlias_fresh by done. layers.
    rewrite Hm.
    destruct (apply_moves_one before after alias key
                (config (set_immutable imm cf3)) Hne Hfa Hfk) as [-> _].
    rewrite set_immutable_fresh by done. layers. by rewrite Hx. }
  assert (Hov : override (saved_viper imm cf3) !! key = None).
  { unfold saved_viper. rewrite initAlias_fresh by done. layers.
    rewrite Hm.
    destruct (apply_moves_one before after alias key
                (override (set_immutable imm cf3)) Hne Hfa Hfk) as [-> _].
    rewrite !set_immutable_override by done.
    rewrite (decide_True (P := alias ∈ AllKeys cf3))
      by (apply elem_of_AllKeys; right; right; by eexists).
    rewrite Hi.
    rewrite (decide_False (P := key ∈ AllKeys cf3)); [done|].
    intros Hin. apply elem_of_AllKeys in Hin.
    rewrite Ha, Ho, Hk, !lookup_empty in Hin.
    by destruct Hin as [[? [=]]|[[? [=]]|[? [=]]]]. }
  assert (Hget : Get (saved_viper imm cf3) key = Some x).
  { unfold Get, find. rewrite Hlk.
    assert (Hreal : realKey (saved_viper imm cf3) key = key).
    { unfold realKey, saved_viper. by rewrite initAlias_fresh. }
    rewrite Hreal, Hov.
    assert (Henv : automaticEnvApplied (saved_viper imm cf3) = false).
    { unfold saved_viper. rewrite initAlias_fresh by done. layers.
      rewrite set_immutable_fresh by done. layers. exact He. }
    by rewrite Henv. }
  rewrite Unmarshal_fields, AllSettings_lookup.
  rewrite decide_True
    by (apply elem_of_AllKeys; right; right; by rewrite Hcfg).
  by rewrite Hget.
Qed.

(** C5, the code at the failing input: the default section fixes
    [failover-max-slave-delay] at 30, so the immutable map of cluster [c1]
    holds 30 under that key; the saved section of [c1] holds 99 under the
    alias [maxdelay].  The configuration returned has 99: the saved value
    overrides an immutable key. *)
Theorem saved_alias_overrides_immutable :
  let result :=
    GetClusterConfig repman_empty root_saved_alias immutable_maxdelay ∅ "c1"
                     conf_maxdelay in
  fields conf_maxdelay !! "failover-max-slave-delay" = Some (VInt 30) /\
  ImmuableFlagMaps result.2 !! "c1" ≫= (.!! "failover-max-slave-delay")
    = Some (VInt 30) /\
  fields result.1 !! "failover-max-slave-delay" = Some (VInt 99).
Proof.
  cbn zeta. split; [reflexivity|]. split; [vm_compute; reflexivity|].
  apply (saved_alias_wins repman_empty root_saved_alias immutable_maxdelay ∅
           "c1" conf_maxdelay
           (mkViper ∅ ∅ false ∅ {[ "maxdelay" := VInt 99 ]})
           "maxdelay" "failover-max-slave-delay" (VInt 99)).
  - by_compute.
  - done.
  - vm_compute. reflexivity.
  - vm_compute. reflexivity.
  - by_compute.
  - vm_compute. reflexivity.
  - vm_compute. reflexivity.
  - vm_compute. reflexivity.
Qed.
(** The rest of C5 holds.  When [GetClusterConfig] reads the saved
    section [cf3] of a cluster, with [imm] the immutable map that it stores
    for the cluster:
    - for a saved key found in [imm], the instance holds the immutable
      value in place of the saved one before it is unmarshalled, and a
      saved key not in [imm] keeps what the saved section gives;
    - so, in a saved section written with the key names, the configuration
      returned has the immutable value for an immutable key and the saved
      value for a key that is not immutable;
    - in any saved section, a value that the instance gives to the
      configuration returned is an immutable value, or the saved value of
      a key that is not immutable;
    - a key is written to the dynamic map of the cluster only with a value
      that [imm] does not hold for that key (the key is absent from [imm]
      or the values differ), and every key of the instance with such a
      value is written. *)
Theorem saved_section_respects_immutable repman fistRead ImmuableMap
    DynamicMap cluster conf cf3 :
  cluster <> "" ->
  ConfRewrite (cluster_immutable_conf fistRead cluster conf) = true ->
  Sub fistRead ("saved-" +:+ cluster) = Some cf3 ->
  lower_keys (config cf3) ->
  let imm := cluster_immutable_map repman fistRead ImmuableMap cluster in
  let result :=
    GetClusterConfig repman fistRead ImmuableMap DynamicMap cluster conf in
  ImmuableFlagMaps result.2 !! cluster = Some imm /\
  (forall f v, f ∈ AllKeys cf3 -> imm !! f = Some v ->
               Get (set_immutable imm cf3) f = Some v) /\
  (forall f, f ∈ AllKeys cf3 -> imm !! f = None ->
             Get (set_immutable imm cf3) f = Get cf3 f) /\
  (canonical_keys cf3 ->
   (forall f v, f ∈ AllKeys cf3 -> imm !! f = Some v ->
                fields result.1 !! f = Some v) /\
   (forall f x, f ∈ AllKeys cf3 -> imm !! f = None -> Get cf3 f = Some x ->
                fields result.1 !! f = Some x)) /\
  (forall k x, Get (saved_viper imm cf3) k = Some x ->
     (k ∈ AllKeys (saved_viper imm cf3) -> fields result.1 !! k = Some x) /\
     (from_immutable imm cf3 x \/ from_saved imm cf3 x)) /\
  exists dyn,
    DynamicFlagMaps result.2 !! cluster = Some dyn /\
    (forall f, dyn !! f <> DynamicMap !! f ->
       exists v, dyn !! f = Some v /\
                 Get (saved_viper imm cf3) f = Some v /\
                 (imm !! f = None \/
                  exists imm_v, imm !! f = Some imm_v /\ imm_v <> v)) /\
    (forall f v, f ∈ AllKeys (saved_viper imm cf3) ->
                 Get (saved_viper imm cf3) f = Some v ->
                 imm !! f <> Some v -> dyn !! f = Some v).
Proof.
  intros Hc Hr Hs Hl imm result.
  destruct (Sub_fresh _ _ _ Hs) as (Ha & Ho & _).
  assert (Hf : fresh_section cf3) by done.
  destruct (GetClusterConfig_saved repman fistRead ImmuableMap DynamicMap
              cluster conf cf3 Hc Hr Hs) as (E1 & E2 & E3).
  fold imm result in E1, E2, E3.
  split; [done|]. split; [|split; [|split; [|split]]].
  - intros f v Hk Hi. by rewrite set_immutable_Get, Hi.
  - intros f Hk Hi. by rewrite set_immutable_Get, Hi.
  - intros Hcan. split.
    + intros f v Hk Hi.
      destruct (saved_viper_canonical_Get imm cf3 f Hf Hcan Hk) as [Hin Hg].
      rewrite E1, Unmarshal_fields, AllSettings_lookup.
      by rewrite decide_True, Hg, Hi.
    + intros f x Hk Hi Hx.
      destruct (saved_viper_canonical_Get imm cf3 f Hf Hcan Hk) as [Hin Hg].
      rewrite E1, Unmarshal_fields, AllSettings_lookup.
      by rewrite decide_True, Hg, Hi, Hx.
  - intros k x Hg. split.
    + intros Hin. rewrite E1, Unmarshal_fields, AllSettings_lookup.
      by rewrite decide_True, Hg.
    + destruct (saved_viper_Get_origin imm cf3 k x) as [?|[[He _]|?]];
        [done|done|by left| |by right].
      by rewrite (Sub_no_env _ _ _ Hs) in He.
  - eexists. split; [exact E3|]. split.
    + intros f. rewrite add_dynamic_flags_lookup.
      destruct (decide (f ∈ AllKeys (saved_viper imm cf3))); [|done].
      unfold dynamic_value.
      destruct (Get (saved_viper imm cf3) f) as [v|]; [|done].
      destruct (decide (imm !! f = Some v)) as [|Hne]; [done|].
      intros _. exists v. split; [done|]. split; [done|].
      destruct (imm !! f) as [imm_v|]; [|by left].
      right. exists imm_v. split; [done|]. intros ->. by apply Hne.
    + intros f v Hin Hg Hne. rewrite add_dynamic_flags_lookup.
      rewrite decide_True by done. unfold dynamic_value.
      by rewrite Hg, decide_False.
Qed.

Lemma saved_section_respects_immutable_witness :
  let result := GetClusterConfig repman_empty root_c1 ∅ ∅ "c1" Config_zero in
  fields result.1 !! "failover-limit" = Some (VInt 5) /\
  fields result.1 !! "failover-mode" = Some (VString "automatic") /\
  DynamicFlagMaps result.2 !! "c1" =
    Some {[ "failover-mode" := VString "automatic";
            "interactive" := VString "automatic" ]}.
Proof.
  assert (Hcan : canonical_keys saved_c1).
  { intros a Ha. revert a Ha. apply Forall_forall. by_compute. }
  destruct (saved_section_respects_immutable repman_empty root_c1 ∅ ∅ "c1"
              Config_zero saved_c1)
    as (_ & _ & _ & Heff & _);
    [done|vm_compute; reflexivity|vm_compute; reflexivity|by_compute|].
  destruct (Heff Hcan) as [Himm Hsaved].
  split; [|split].
  - apply Himm; [by_compute|vm_compute; reflexivity].
  - apply Hsaved; [by_compute|vm_compute; reflexivity|vm_compute; reflexivity].
  - vm_compute; reflexivity.
Defined.



End ConfigClaims.

(** ** Monitoring the proxies *)

Section ProxyClaims.
Import Proxies ProxyScenarios.

(** A refresh that succeeds clears the count and sets the state running. *)
Lemma refresh_proxy_ok MaxFail tick pr refresh pr' :
  refresh tick pr = (pr', None) ->
  FailCount (refresh_proxy MaxFail tick pr refresh) = 0 /\
  State (refresh_proxy MaxFail tick pr refresh) = stateProxyRunning.
Proof.
  intros E. unfold refresh_proxy. rewrite E.
  destruct (HasWaitStartCookie _); by destruct (decide _).
Qed.

(** A refresh that fails compares the count plus one with [MaxFail], and
    stores no count: the count stays what the driver left. *)
Lemma refresh_proxy_error MaxFail tick pr refresh pr' e :
  refresh tick pr = (pr', Some e) ->
  FailCount (refresh_proxy MaxFail tick pr refresh) = FailCount pr' /\
  State (refresh_proxy MaxFail tick pr refresh) =
    if decide (MaxFail <= int64_add (FailCount pr') 1)
    then stateFailed else stateSuspect.
Proof.
  intros E. unfold refresh_proxy. rewrite E. unfold GetFailCount.
  destruct (decide (MaxFail <= _)); by destruct (decide (_ ≠ _)).
Qed.

Lemma refreshProxies_unreachable tick prev :
  refreshProxies 5 tick
    [mkDatabaseProxy (mkProxy stateSuspect prev 0 false false false) refuse] =
  [mkDatabaseProxy (mkProxy stateSuspect stateSuspect 0 false false false)
                   refuse].
Proof.
  unfold refreshProxies, refresh_proxy. simpl.
  unfold GetPrevState, GetState, SetPrevState. simpl.
  destruct (decide (prev ≠ stateSuspect)) as [Hne|Heq]; [done|].
  apply dec_stable in Heq. by subst.
Qed.

Lemma monitor_unreachable n tick prev :
  monitor 5 tick (S n)
    [mkDatabaseProxy (mkProxy stateSuspect prev 0 false false false) refuse] =
  [mkDatabaseProxy (mkProxy stateSuspect stateSuspect 0 false false false)
                   refuse].
Proof.
  revert tick prev. induction n as [|n IH]; intros tick prev.
  - apply refreshProxies_unreachable.
  - change (monitor 5 tick (S (S n)) ?l)
      with (monitor 5 (S tick) (S n) (refreshProxies 5 tick l)).
    by rewrite refreshProxies_unreachable, IH.
Qed.

(** C3, the code at the failing input: with [MaxFail] = 5, a proxy whose
    [Refresh] fails on every pass is, after any number of passes, five or
    more included, still in state suspect with a stored fail-count of 0;
    the count that the error branch computes is never stored, so the
    threshold is never met. *)
Theorem unreachable_proxy_never_failed (n : nat) :
  proxy <$> monitor 5 0 (S n) [proxy_unreachable] =
  [mkProxy stateSuspect stateSuspect 0 false false false].
Proof. unfold proxy_unreachable. by rewrite monitor_unreachable. Qed.

(** The other half of C3 holds: one successful refresh clears the count
    and sets the state running, whatever they were. *)
Lemma successful_refresh_resets MaxFail tick pr :
  FailCount (refresh_proxy MaxFail tick pr answer) = 0 /\
  State (refresh_proxy MaxFail tick pr answer) = stateProxyRunning.
Proof. by apply (refresh_proxy_ok MaxFail tick pr answer pr). Qed.

End ProxyClaims.

(** ** The event-code table *)

Section ErrorClaims.
Import Errors.

(** The map literal names each code once. *)
Lemma clusterError_keys_NoDup : NoDup clusterError_entries.*1.
Proof. apply (bool_decide_unpack _). vm_compute. exact I. Qed.

(** C4, as stated, fails for one message: the text of [ERR00032] is not
    "No candidates found". *)
Lemma ERR00032_text_differs :
  clusterError !! "ERR00032" <> Some "No candidates found".
Proof. vm_compute. discriminate. Qed.

(** C4, amended: the table maps [ERR00012], [ERR00027] and [ERR00029] to
    the texts of the specification, maps [ERR00032] to "No candidates found
    in slaves list", which starts with the text of the specification, and
    holds [WARN0079], the split-brain warning. *)
Theorem clusterError_codes :
  clusterError !! "ERR00012" = Some "Could not find a master in topology" /\
  clusterError !! "ERR00027" = Some "Number of cluster failovers exceeded" /\
  clusterError !! "ERR00029" = Some "Time between failovers too short" /\
  clusterError !! "ERR00032" = Some "No candidates found in slaves list" /\
  clusterError !! "ERR00032"
    = Some ("No candidates found" +:+ " in slaves list") /\
  clusterError !! "WARN0079" = Some "Cluster is split brain".
Proof. repeat split; vm_compute; reflexivity. Qed.

End ErrorClaims.

(** ** Heartbeat: what is sent, what is kept, and the main loop *)

Section HeartbeatMore.
Import Server ServerSpec ServerLoop Scenarios.

Lemma peer_check_request net repman peer bck w :
  (HeartbeatPeerSplitBrain net repman peer bck w).2 =
  (w ++ option_list (peer_request net (Conf repman) peer))%list.
Proof.
  unfold HeartbeatPeerSplitBrain, peer_request.
  destruct (http_NewRequest _ _ _) as [req|]; simpl; [|by rewrite app_nil_r].
  destruct (client_Do _ _ _ _) as [resp|]; [|done].
  destruct (Body resp) as [monjson|]; [|done].
  by destruct (json_Unmarshal _ _).
Qed.

Lemma heartbeat_peers_requests net bck l st :
  (heartbeat_peers net bck l st).2 =
  (st.2 ++ omap (peer_request net (Conf st.1)) l)%list.
Proof.
  revert st. induction l as [|p l IH]; intros st.
  - simpl. by rewrite app_nil_r.
  - rewrite heartbeat_peers_cons, IH.
    assert (H : (heartbeat_peer net bck st p).2 =
                (st.2 ++ option_list (peer_request net (Conf st.1) p))%list /\
                Conf (heartbeat_peer net bck st p).1 = Conf st.1).
    { unfold heartbeat_peer.
      pose proof (peer_check_request net st.1 p bck st.2) as E.
      by destruct (HeartbeatPeerSplitBrain net st.1 p bck st.2). }
    destruct H as [-> ->]. rewrite <- app_assoc. f_equal.
    simpl. by destruct (peer_request net (Conf st.1) p).
Qed.

(** X1: with peers configured (and a group other than the arbitrator), one
    run of [Heartbeat] sends exactly one request for each peer of the list
    whose request can be built, in the order of the list, each through a
    client with the heartbeat timeout: a peer that fails does not stop the
    loop. *)
Theorem Heartbeat_requests cfgGroup net repman w :
  cfgGroup <> "arbitrator" ->
  ArbitrationPeerHosts (Conf repman) <> "" ->
  (Heartbeat cfgGroup net repman w).2 =
  (w ++ omap (peer_request net (Conf repman))
             (Split (ArbitrationPeerHosts (Conf repman)) ","%char))%list.
Proof.
  intros Hg Hh. rewrite Heartbeat_peers by done. simpl.
  apply (heartbeat_peers_requests net (SplitBrain repman) _ (repman, w)).
Qed.

Lemma Heartbeat_requests_witness :
  (Heartbeat "" net_down repman_two_peers []).2 =
  [ (mkClient 8000000000, mkRequest "GET" "http://peer1:10001/api/heartbeat");
    (mkClient 8000000000, mkRequest "GET" "http://peer2:10001/api/heartbeat") ].
Proof.
  rewrite (Heartbeat_requests "" net_down repman_two_peers []) by done.
  vm_compute. reflexivity.
Defined.

Lemma peer_check_ignores_flag net repman peer bck b bck' w :
  HeartbeatPeerSplitBrain net (set_SplitBrain b repman) peer bck' w =
  HeartbeatPeerSplitBrain net repman peer bck w.
Proof. done. Qed.

Lemma heartbeat_peer_ignores_flag net bck bck' b r w p :
  heartbeat_peer net bck' (set_SplitBrain b r, w) p =
  heartbeat_peer net bck (r, w) p.
Proof.
  unfold heartbeat_peer. simpl. rewrite (peer_check_ignores_flag _ _ _ bck).
  by destruct (HeartbeatPeerSplitBrain net r p bck w).
Qed.

Lemma heartbeat_peers_ignores_backup net bck bck' l st :
  heartbeat_peers net bck' l st = heartbeat_peers net bck l st.
Proof.
  revert st. induction l as [|p l IH]; intros st; [done|].
  by rewrite !heartbeat_peers_cons, IH.
Qed.

(** X2: the flag does not latch.  With peers configured and a
    configuration group other than the arbitrator, the state and the
    requests after [Heartbeat] are the same whatever [SplitBrain] was
    before the run: a controller in split-brain leaves it as soon as its
    last peer answers. *)
Theorem Heartbeat_no_latch cfgGroup net repman b w :
  cfgGroup <> "arbitrator" ->
  ArbitrationPeerHosts (Conf repman) <> "" ->
  Heartbeat cfgGroup net (set_SplitBrain b repman) w =
  Heartbeat cfgGroup net repman w.
Proof.
  intros Hg Hh. rewrite !Heartbeat_peers by done. cbn zeta.
  change (Conf (set_SplitBrain b repman)) with (Conf repman).
  destruct (Split (ArbitrationPeerHosts (Conf repman)) ","%char)
    as [|p l] eqn:Es; [by apply Split_not_nil in Es|].
  rewrite !heartbeat_peers_cons.
  rewrite (heartbeat_peer_ignores_flag net (SplitBrain repman)).
  by rewrite (heartbeat_peers_ignores_backup net (SplitBrain repman)).
Qed.

Lemma Heartbeat_no_latch_witness :
  Heartbeat "" net_other_primary (set_SplitBrain true repman_one_peer) [] =
  Heartbeat "" net_other_primary repman_one_peer [] /\
  SplitBrain (Heartbeat "" net_other_primary
                        (set_SplitBrain true repman_one_peer) []).1 = false.
Proof.
  split; [by apply Heartbeat_no_latch|]. vm_compute. reflexivity.
Defined.

(** X3: [Heartbeat] keeps the identity and the status of the controller,
    the names and the primaries of the clusters, and the configuration
    apart from the arbitration flag; with peers configured it keeps the
    whole configuration. *)
Theorem Heartbeat_frame cfgGroup net repman w :
  repman_UUID (Heartbeat cfgGroup net repman w).1 = repman_UUID repman /\
  repman_Status (Heartbeat cfgGroup net repman w).1 = repman_Status repman /\
  set_Arbitration true (Conf (Heartbeat cfgGroup net repman w).1)
    = set_Arbitration true (Conf repman) /\
  (ArbitrationPeerHosts (Conf repman) <> "" ->
   Conf (Heartbeat cfgGroup net repman w).1 = Conf repman) /\
  (forall name,
      Name <$> Clusters (Heartbeat cfgGroup net repman w).1 !! name
        = Name <$> Clusters repman !! name /\
      master_URL <$> Clusters (Heartbeat cfgGroup net repman w).1 !! name
        = master_URL <$> Clusters repman !! name).
Proof.
  unfold Heartbeat.
  destruct (decide (cfgGroup = "arbitrator")); [done|].
  destruct (decide (ArbitrationPeerHosts (Conf repman) = "")); [done|].
  cbn zeta.
  destruct (heartbeat_peers_frame net (SplitBrain repman)
              (Split (ArbitrationPeerHosts (Conf repman)) ","%char)
              (repman, w)) as (Hc & Hcl & Hs & Hu).
  simpl in *. rewrite Hc, Hcl, Hs, Hu.
  repeat split; try done; rewrite lookup_fmap;
    by destruct (Clusters repman !! name).
Qed.

Lemma Heartbeat_frame_witness :
  Conf (Heartbeat "" net_down repman_one_peer []).1 = Conf repman_one_peer.
Proof.
  destruct (Heartbeat_frame "" net_down repman_one_peer [])
    as (_ & _ & _ & H & _).
  apply H. vm_compute. discriminate.
Defined.

Lemma Run_loop_fixed cfgGroup net n st :
  Run_tick cfgGroup net st = st -> Run_loop cfgGroup net n st = st.
Proof. intros H. induction n as [|n IH]; [done|]. simpl. by rewrite H. Qed.

(** X4: a controller without peers never checks anything.  When no peer
    host is configured, or the group is the arbitrator, no turn of the main
    loop of [Run] sends a request, and [SplitBrain] and the clusters stay
    as they were; without peers (and another group) arbitration is off
    after the first turn. *)
Theorem Run_loop_without_peers cfgGroup net repman w n :
  ArbitrationPeerHosts (Conf repman) = "" \/ cfgGroup = "arbitrator" ->
  (Run_loop cfgGroup net n (repman, w)).2 = w /\
  SplitBrain (Run_loop cfgGroup net n (repman, w)).1 = SplitBrain repman /\
  Clusters (Run_loop cfgGroup net n (repman, w)).1 = Clusters repman /\
  (cfgGroup <> "arbitrator" -> (0 < n)%nat ->
   Arbitration (Conf (Run_loop cfgGroup net n (repman, w)).1) = false).
Proof.
  intros H.
  destruct (decide (cfgGroup = "arbitrator")) as [->|Hg].
  { rewrite Run_loop_fixed; [done|].
    unfold Run_tick. by destruct (Arbitration _). }
  destruct H as [Hh|]; [|done].
  destruct (Arbitration (Conf repman)) eqn:Ea.
  - destruct n as [|n]; [repeat split; try done; lia|].
    assert (Ht : Run_tick cfgGroup net (repman, w) =
                 (set_Conf (set_Arbitration false (Conf repman)) repman, w)).
    { unfold Run_tick. simpl. rewrite Ea. by apply Heartbeat_no_peer. }
    simpl. rewrite Ht. rewrite Run_loop_fixed by done. done.
  - rewrite Run_loop_fixed; [done|]. unfold Run_tick. simpl. by rewrite Ea.
Qed.

Lemma Run_loop_without_peers_witness :
  (Run_loop "" net_down 5 (repman_no_peer, [])).2 = [] /\
  Arbitration (Conf (Run_loop "" net_down 5 (repman_no_peer, [])).1) = false.
Proof.
  destruct (Run_loop_without_peers "" net_down repman_no_peer [] 5)
    as (H1 & _ & _ & H4); [by left|].
  split; [done|]. apply H4; [done|lia].
Defined.

End HeartbeatMore.

(** ** Discovering the clusters *)

Section DiscoveryFacts.
Import Viper Discovery.

Lemma discover_key_cases st k :
  discover_key st k =
  match cluster_of_key k with
  | Some c => match st.1 !! c with
              | Some _ => st
              | None => (<[c := c]> st.1, (st.2 ++ [c])%list)
              end
  | None => st
  end.
Proof.
  unfold discover_key, cluster_of_key, TrimPrefix.
  destruct (Contains k "."%char); [|done].
  destruct (decide (ToLower (first_piece k) ≠ "default")); [|done].
  by destruct (HasPrefix (first_piece k) "saved-").
Qed.

(** The loop keeps the map and the slice in step: the keys of the map are
    the names of the slice, and no name is twice in the slice. *)
Lemma discover_loop_inv (m : list string) st :
  (forall c, is_Some (st.1 !! c) <-> c ∈ st.2) -> NoDup st.2 ->
  let st' := foldl discover_key st m in
  (forall c, is_Some (st'.1 !! c) <-> c ∈ st'.2) /\ NoDup st'.2 /\
  (forall c, c ∈ st'.2 <-> c ∈ st.2 \/ exists k, k ∈ m /\ cluster_of_key k = Some c).
Proof.
  revert st. induction m as [|k m IH]; intros st Hm Hn; simpl.
  - split; [done|]. split; [done|]. intros c. split; [by left|].
    intros [?|(k & Hk & _)]; [done|]. by apply elem_of_nil in Hk.
  - assert (Hstep : (forall c, is_Some ((discover_key st k).1 !! c)
                               <-> c ∈ (discover_key st k).2) /\
                    NoDup (discover_key st k).2 /\
                    (forall c, c ∈ (discover_key st k).2 <->
                               c ∈ st.2 \/ cluster_of_key k = Some c)).
    { rewrite discover_key_cases.
      destruct (cluster_of_key k) as [c0|];
        [|split; [done|]; split; [done|]; intros c; split;
          [by left|by intros [?|?]]].
      destruct (st.1 !! c0) eqn:E0.
      - split; [done|]. split; [done|]. intros c. split; [by left|].
        intros [?|[= <-]]; [done|]. apply Hm. by rewrite E0.
      - simpl. split; [|split].
        + intros c. rewrite elem_of_app, list_elem_of_singleton.
          destruct (decide (c0 = c)) as [->|Hne].
          * rewrite lookup_insert_eq. split; [by right|by eexists].
          * rewrite lookup_insert_ne by done. rewrite Hm.
            split; [by left|]. by intros [?|?].
        + apply NoDup_app. split; [done|]. split; [|apply NoDup_singleton].
          intros c Hc ->%list_elem_of_singleton.
          apply Hm in Hc. rewrite E0 in Hc. by destruct Hc.
        + intros c. rewrite elem_of_app, list_elem_of_singleton.
          split; (intros [?|?]; [by left|right]); congruence. }
    destruct Hstep as (H1 & H2 & H3).
    destruct (IH (discover_key st k) H1 H2) as (I1 & I2 & I3).
    split; [done|]. split; [done|].
    intros c. rewrite I3, H3. split.
    + intros [[?|Hc]|(k' & Hk' & Hc)]; [by left| |].
      * right. exists k. split; [left|done].
      * right. exists k'. split; [by right|done].
    + intros [?|(k' & [->|Hk']%elem_of_cons & Hc)].
      * by left; left.
      * by left; right.
      * right. by exists k'.
Qed.

(** X5: [DiscoverClusters] lists a name exactly when some key of the
    configuration lies in a section other than the default one whose name,
    without a [saved-] prefix, is that name; and it lists no name twice, so
    a cluster and its saved section count once. *)
Theorem discoveries_spec (m : list string) :
  NoDup (discoveries m) /\
  (forall c, c ∈ discoveries m <->
             exists k, k ∈ m /\ cluster_of_key k = Some c).
Proof.
  destruct (discover_loop_inv m (∅, [])) as (_ & Hn & Hin).
  - intros c. simpl. rewrite lookup_empty. split; [by intros [? ?]|].
    by intros ?%elem_of_nil.
  - constructor.
  - split; [done|]. intros c. rewrite (Hin c). simpl. split.
    + intros [?%elem_of_nil|?]; done.
    + by right.
Qed.






End DiscoveryFacts.

(** ** The configuration of a cluster: layers and frame *)

Section ConfigLoadFacts.
Import Viper ClusterConfig ClusterConfigSpec ConfigLoad ConfigScenarios
  ConfigScenariosMore.


Lemma GetClusterConfig_named repman fistRead ImmuableMap DynamicMap cluster
    conf :
  cluster <> "" ->
  exists dyn confs,
    GetClusterConfig repman fistRead ImmuableMap DynamicMap cluster conf =
    ((ConfInit confs),
     mkRepMan (CommandLineFlag repman)
       (<[cluster := cluster_immutable_map repman fistRead ImmuableMap cluster]>
          (ImmuableFlagMaps repman))
       (<[cluster := dyn]> (<["default" := dyn]> (DynamicFlagMaps repman)))
       (<[cluster := confs]> (VersionConfs repman))) /\
    ConfImmuable confs = cluster_immutable_conf fistRead cluster conf /\
    (ConfRewrite (cluster_immutable_conf fistRead cluster conf) = true ->
     ConfDynamic confs = ConfInit confs) /\
    (ConfRewrite (cluster_immutable_conf fistRead cluster conf) = false \/
     Sub fistRead ("saved-" +:+ cluster) = None ->
     dyn = DynamicMap /\
     ConfInit confs = cluster_immutable_conf fistRead cluster conf).
Proof.
  intros Hc. unfold GetClusterConfig.
  destruct (decide (cluster = "")); [done|].
  destruct (ConfRewrite (cluster_immutable_conf fistRead cluster conf)) eqn:Er.
  - destruct (Sub fistRead ("saved-" +:+ cluster)) as [cf3|] eqn:Es.
    + eexists _, (mkConfVersion _ _ _). split; [reflexivity|]. simpl. split; [done|].
      split; [done|]. by intros [?|?].
    + eexists _, (mkConfVersion _ _ _). split; [reflexivity|]. simpl. split; [done|].
      split; [done|]. done.
  - eexists _, (mkConfVersion _ _ _). split; [reflexivity|]. simpl. split; [done|].
    split; [done|]. done.
Qed.

(** X8: [GetClusterConfig] for a named cluster writes the entries of that
    cluster, and the entry ["default"] of the dynamic maps, which is left
    equal to the dynamic map of the cluster; the entries of every other
    name, and the command-line flags, stay as they were.  With an empty
    name it returns [conf] and writes nothing. *)
Theorem GetClusterConfig_frame repman fistRead ImmuableMap DynamicMap cluster
    conf :
  let result :=
    GetClusterConfig repman fistRead ImmuableMap DynamicMap cluster conf in
  (cluster = "" -> result = (conf, repman)) /\
  (cluster <> "" ->
   CommandLineFlag result.2 = CommandLineFlag repman /\
   DynamicFlagMaps result.2 !! "default" = DynamicFlagMaps result.2 !! cluster /\
   is_Some (DynamicFlagMaps result.2 !! cluster) /\
   (forall other, other <> cluster ->
      ImmuableFlagMaps result.2 !! other = ImmuableFlagMaps repman !! other /\
      VersionConfs result.2 !! other = VersionConfs repman !! other /\
      (other <> "default" ->
       DynamicFlagMaps result.2 !! other = DynamicFlagMaps repman !! other))).
Proof.
  cbn zeta. split.
  - intros ->. unfold GetClusterConfig. by rewrite decide_True.
  - intros Hc.
    destruct (GetClusterConfig_named repman fistRead ImmuableMap DynamicMap
                cluster conf Hc) as (dyn & confs & -> & _).
    simpl. split; [done|]. rewrite lookup_insert_eq.
    split; [|split; [by eexists|]].
    + destruct (decide (cluster = "default")) as [->|Hd].
      * by rewrite lookup_insert_eq.
      * by rewrite lookup_insert_ne, lookup_insert_eq.
    + intros other Ho. rewrite !lookup_insert_ne by done.
      split; [done|]. split; [done|]. intros Hd.
      by rewrite lookup_insert_ne.
Qed.

(** X9: the saved section counts only under [monitoring-save-config].  For
    a named cluster whose configuration, after its own section, has
    [ConfRewrite] unset, or that has no saved section, the configuration
    returned is the one after the cluster section, and the dynamic map
    stored for the cluster is the default dynamic map, whatever a saved
    section holds. *)
Theorem saved_section_ignored repman fistRead ImmuableMap DynamicMap cluster
    conf :
  cluster <> "" ->
  ConfRewrite (cluster_immutable_conf fistRead cluster conf) = false \/
  Sub fistRead ("saved-" +:+ cluster) = None ->
  let result :=
    GetClusterConfig repman fistRead ImmuableMap DynamicMap cluster conf in
  result.1 = cluster_immutable_conf fistRead cluster conf /\
  DynamicFlagMaps result.2 !! cluster = Some DynamicMap /\
  (ConfInit <$> VersionConfs result.2 !! cluster) = Some result.1 /\
  (ConfImmuable <$> VersionConfs result.2 !! cluster) = Some result.1.
Proof.
  intros Hc Hs. cbn zeta.
  destruct (GetClusterConfig_named repman fistRead ImmuableMap DynamicMap
              cluster conf Hc) as (dyn & confs & -> & Hi & _ & Hd).
  destruct (Hd Hs) as [-> Hinit]. simpl. rewrite !lookup_insert_eq. simpl.
  by rewrite Hi, Hinit.
Qed.

Lemma saved_section_ignored_witness :
  let result := GetClusterConfig repman_empty root_unsaved ∅ ∅ "c1" Config_zero in
  fields result.1 !! "failover-limit" = Some (VInt 5) /\
  DynamicFlagMaps result.2 !! "c1" = Some ∅.
Proof.
  destruct (saved_section_ignored repman_empty root_unsaved ∅ ∅ "c1"
              Config_zero) as (H1 & H2 & _);
    [done|left; vm_compute; reflexivity|].
  split; [|exact H2]. vm_compute. reflexivity.
Defined.

Lemma GetClusterConfig_frame_witness :
  ImmuableFlagMaps
    (GetClusterConfig repman_empty root_c1 ∅ ∅ "c1" Config_zero).2 !! "c2"
  = None.
Proof.
  destruct (GetClusterConfig_frame repman_empty root_c1 ∅ ∅ "c1" Config_zero)
    as [_ H].
  destruct H as (_ & _ & _ & H); [vm_compute; discriminate|].
  destruct (H "c2") as (-> & _); [vm_compute; discriminate|].
  apply lookup_empty.
Defined.

End ConfigLoadFacts.

(** ** The alias table as a whole *)

Section AliasTableFacts.
Import Viper ClusterConfig ClusterConfigSpec ConfigScenarios AliasScenarios.

Lemma initAlias_aliases_resolved (k : string) :
  initAlias_aliases !! realKey_in initAlias_aliases k = None.
Proof.
  destruct (initAlias_aliases !! k) as [t|] eqn:E.
  - assert (Hall : Forall (fun a => initAlias_aliases
                                      !! realKey_in initAlias_aliases a = None)
                          (elements (dom initAlias_aliases))) by by_compute.
    apply (proj1 (Forall_forall _ _) Hall).
    apply elem_of_elements, elem_of_dom. by exists t.
  - by rewrite realKey_in_not_alias.
Qed.

(** X11: registering the aliases twice changes nothing more: on a
    configuration source that comes without aliases, [initAlias] after
    [initAlias] is [initAlias]; and after it every name resolves to a key
    that is not itself an alias. *)
Theorem initAlias_idempotent (v : Viper) :
  aliases v = ∅ ->
  initAlias (initAlias v) = initAlias v /\
  forall k, aliases (initAlias v) !! realKey (initAlias v) k = None.
Proof.
  intros Ha. split.
  - rewrite (initAlias_fresh v Ha). unfold initAlias at 1.
    rewrite register_calls. layers.
    assert (E1 : aliases_after initAlias_aliases initAlias_calls
                 = initAlias_aliases) by by_compute.
    assert (E2 : moves_after initAlias_aliases initAlias_calls = [])
      by (vm_compute; reflexivity).
    rewrite E1, E2. unfold apply_moves. cbn [foldl]. reflexivity.
  - intros k. unfold realKey. rewrite (initAlias_fresh v Ha). layers.
    apply initAlias_aliases_resolved.
Qed.

Lemma initAlias_idempotent_witness :
  initAlias (initAlias section_maxdelay) = initAlias section_maxdelay.
Proof. by apply (initAlias_idempotent section_maxdelay). Defined.

Lemma master_connection_moves :
  exists M1 M2 M3,
    initAlias_moves =
      (M1 ++ ("replication-master-connection", "replication-source-name")
          :: M2 ++ ("master-connection", "replication-master-connection")
          :: M3)%list /\
    Forall (fun k => Forall (fun mv : string * string =>
                               k <> mv.1 /\ k <> mv.2) (M1 ++ M2 ++ M3))
           ["master-connection"; "replication-master-connection";
            "replication-source-name"].
Proof.
  exists (take 2 initAlias_moves),
         (take 11 (drop 3 initAlias_moves)),
         (drop 15 initAlias_moves).
  split; [vm_compute; reflexivity|by_compute].
Qed.

(** X12: the alias [master-connection] loses its value.  [initAlias]
    registers [replication-master-connection] as an alias of
    [replication-source-name] before it registers [master-connection] as
    an alias of [replication-master-connection]: the value that a source
    gives under [master-connection] ends under
    [replication-master-connection], to which no name resolves, and what
    [Get] finds under [master-connection] is what it finds under
    [replication-source-name], which does not depend on that value. *)
Theorem master_connection_lost (v : Viper) :
  aliases v = ∅ ->
  config (initAlias v) !! "replication-master-connection"
    = config v !! "master-connection" /\
  (forall k, realKey (initAlias v) k <> "replication-master-connection") /\
  Get (initAlias v) "master-connection"
    = Get (initAlias v) "replication-source-name" /\
  config (initAlias v) !! "replication-source-name" =
    match config v !! "replication-master-connection" with
    | Some x => Some x
    | None => config v !! "replication-source-name"
    end.
Proof.
  intros Ha.
  destruct master_connection_moves as (M1 & M2 & M3 & Hm & Hf).
  apply Forall_cons in Hf as [Hmc Hf]. apply Forall_cons in Hf as [Hrmc Hf].
  apply Forall_cons in Hf as [Hrsn _].
  apply Forall_app in Hmc as [Hmc1 [Hmc2 Hmc3]%Forall_app].
  apply Forall_app in Hrmc as [Hrmc1 [Hrmc2 Hrmc3]%Forall_app].
  apply Forall_app in Hrsn as [Hrsn1 [Hrsn2 Hrsn3]%Forall_app].
  assert (Hcfg : forall c : gmap string Value,
            apply_moves initAlias_moves c !! "replication-master-connection"
              = c !! "master-connection" /\
            apply_moves initAlias_moves c !! "replication-source-name" =
              match c !! "replication-master-connection" with
              | Some x => Some x
              | None => c !! "replication-source-name"
              end).
  { intros c. rewrite Hm. unfold apply_moves.
    rewrite foldl_app. simpl. rewrite foldl_app. simpl.
    fold (apply_moves M1 c).
    set (c2 := move_key "replication-master-connection"
                        "replication-source-name" (apply_moves M1 c)).
    fold (apply_moves M2 c2).
    set (c4 := move_key "master-connection" "replication-master-connection"
                        (apply_moves M2 c2)).
    fold (apply_moves M3 c4).
    rewrite !(apply_moves_other M3) by done. unfold c4.
    destruct (move_key_moved "master-connection"
                "replication-master-connection" (apply_moves M2 c2))
      as [-> _]; [done|].
    rewrite move_key_other by done.
    rewrite !(apply_moves_other M2) by done. unfold c2.
    destruct (move_key_moved "replication-master-connection"
                "replication-source-name" (apply_moves M1 c))
      as [-> ->]; [done|].
    rewrite move_key_other by done.
    rewrite !(apply_moves_other M1) by done.
    split; [|done]. by destruct (c !! "master-connection"). }
  rewrite (initAlias_fresh v Ha). layers.
  split; [apply Hcfg|]. split; [|split; [|apply Hcfg]].
  - intros k. unfold realKey. layers. intros E.
    pose proof (initAlias_aliases_resolved k) as Hn. rewrite E in Hn.
    revert Hn. vm_compute. discriminate.
  - unfold Get, find, realKey. layers.
    assert (E1 : realKey_in initAlias_aliases (ToLower "master-connection")
                 = "replication-source-name") by (vm_compute; reflexivity).
    assert (E2 : realKey_in initAlias_aliases
                   (ToLower "replication-source-name")
                 = "replication-source-name") by (vm_compute; reflexivity).
    rewrite E1, E2. unfold apply_moves. cbn [foldl]. reflexivity.
Qed.

Lemma master_connection_lost_witness :
  Get (initAlias section_master_connection) "master-connection" = None.
Proof.
  destruct (master_connection_lost section_master_connection eq_refl)
    as (_ & _ & -> & _).
  vm_compute. reflexivity.
Defined.

End AliasTableFacts.

(** ** Monitoring the proxies: every pass and every driver *)

Section ProxyMore.
Import Proxies ProxyScenarios ProxyDrivers.

Lemma refresh_proxy_states MaxFail tick pr refresh :
  PrevState (refresh_proxy MaxFail tick pr refresh)
    = State (refresh_proxy MaxFail tick pr refresh) /\
  (State (refresh_proxy MaxFail tick pr refresh) = stateProxyRunning \/
   State (refresh_proxy MaxFail tick pr refresh) = stateSuspect \/
   State (refresh_proxy MaxFail tick pr refresh) = stateFailed).
Proof.
  unfold refresh_proxy. destruct (refresh tick pr) as [pr' [e|]].
  - destruct (decide (MaxFail <= _)).
    + destruct (decide (_ ≠ _)) as [|Heq]; simpl; [by auto|].
      apply dec_stable in Heq. split; [done|]. by right; right.
    + destruct (decide (_ ≠ _)) as [|Heq]; simpl; [by auto|].
      apply dec_stable in Heq. split; [done|]. by right; left.
  - destruct (HasWaitStartCookie _);
      (destruct (decide (_ ≠ _)) as [|Heq]; simpl; [by auto|]);
      apply dec_stable in Heq; (split; [done|]); by left.
Qed.

Lemma refreshProxies_assigned MaxFail tick (l : list DatabaseProxy) :
  ProxySlice.refreshProxies MaxFail tick (Some <$> l) =
  Some (Some <$> refreshProxies MaxFail tick l).
Proof.
  induction l as [|pr l IH]; [done|].
  cbn [fmap list_fmap ProxySlice.refreshProxies]. cbn [fmap] in IH.
  by rewrite IH.
Qed.

Lemma refreshProxies_nil_slot MaxFail tick
    (Proxies : list (option DatabaseProxy)) :
  ProxySlice.refreshProxies MaxFail tick Proxies = None <-> None ∈ Proxies.
Proof.
  induction Proxies as [|[pr|] l IH]; simpl.
  - split; [done|]. by intros ?%elem_of_nil.
  - destruct (ProxySlice.refreshProxies MaxFail tick l) as [rest|].
    + split; [done|]. intros [?|Hin]%elem_of_cons; [done|].
      by apply IH in Hin.
    + split; [|done]. intros _. right. by apply IH.
  - split; [|done]. intros _. by left.
Qed.

(** X13: a pass of [refreshProxies] over [cluster.Proxies] stops on a nil
    interface exactly when the slice has a nil slot.  A pass that gets
    through leaves a slice of the same length and without nil slot, with
    the same driver in every slot, and every proxy in one of the three
    states running, suspect and failed, its previous state equal to its
    state; on a slice without nil slot it is the pass over the proxies. *)
Theorem refreshProxies_states MaxFail tick
    (Proxies : list (option DatabaseProxy)) :
  (ProxySlice.refreshProxies MaxFail tick Proxies = None <->
   None ∈ Proxies) /\
  (forall l, Proxies = Some <$> l ->
     ProxySlice.refreshProxies MaxFail tick Proxies =
       Some (Some <$> refreshProxies MaxFail tick l)) /\
  (forall after,
     ProxySlice.refreshProxies MaxFail tick Proxies = Some after ->
     length after = length Proxies /\
     (None ∉ after) /\
     forall i pr, after !! i = Some (Some pr) ->
       (exists old, Proxies !! i = Some (Some old) /\
                    Refresh pr = Refresh old) /\
       PrevState (proxy pr) = State (proxy pr) /\
       (State (proxy pr) = stateProxyRunning \/
        State (proxy pr) = stateSuspect \/
        State (proxy pr) = stateFailed)).
Proof.
  split; [apply refreshProxies_nil_slot|].
  split; [intros l ->; apply refreshProxies_assigned|].
  intros after Ha.
  assert (Hl : exists l, Proxies = Some <$> l).
  { assert (Hn : None ∉ Proxies).
    { intros Hin. apply (proj2 (refreshProxies_nil_slot MaxFail tick Proxies))
        in Hin. congruence. }
    clear Ha. induction Proxies as [|[pr|] rest IH].
    - by exists [].
    - destruct IH as [l ->]; [intros Hin; apply Hn; by right|].
      by exists (pr :: l).
    - exfalso. apply Hn. by left. }
  destruct Hl as [l ->]. rewrite refreshProxies_assigned in Ha.
  injection Ha as <-. unfold refreshProxies.
  rewrite !length_fmap. split; [done|]. split.
  - intros Hin. apply list_elem_of_fmap in Hin as (? & [=] & _).
  - intros i pr. rewrite !list_lookup_fmap.
    destruct (l !! i) as [old|] eqn:E; [|done]. simpl. intros [= <-].
    split; [by exists old|]. simpl. apply refresh_proxy_states.
Qed.

Lemma refreshProxies_states_witness :
  ProxySlice.refreshProxies 5 0 ProxySlice.slice_with_nil = None /\
  ProxySlice.refreshProxies 5 0 [Some proxy_unreachable] =
    Some [Some (mkDatabaseProxy
                  (mkProxy stateSuspect stateSuspect 0 false false false)
                  refuse)].
Proof.
  split.
  - apply (proj1 (refreshProxies_states 5 0 ProxySlice.slice_with_nil)).
    right. by left.
  - rewrite (proj1 (proj2 (refreshProxies_states 5 0
                             [Some proxy_unreachable]))
               [proxy_unreachable] eq_refl).
    reflexivity.
Defined.

Lemma refresh_proxy_count_zero MaxFail tick pr refresh :
  keeps_count refresh -> FailCount pr = 0 ->
  FailCount (refresh_proxy MaxFail tick pr refresh) = 0 /\
  (1 < MaxFail -> State (refresh_proxy MaxFail tick pr refresh) <> stateFailed).
Proof.
  intros Hk H0. pose proof (Hk tick pr) as Hc. rewrite H0 in Hc.
  destruct (refresh tick pr) as [pr' [e|]] eqn:E; simpl in Hc.
  - destruct (refresh_proxy_error MaxFail tick pr refresh pr' e E) as [-> ->].
    split; [done|]. intros Hm. rewrite Hc.
    assert (E1 : int64_add 0 1 = 1) by (vm_compute; reflexivity).
    rewrite E1. by rewrite decide_False by lia.
  - destruct (refresh_proxy_ok MaxFail tick pr refresh pr' E) as [-> ->].
    by split.
Qed.

(** X14: monitoring never counts.  With drivers that leave the stored
    fail-count alone, proxies that start with a count of 0 keep a count of 0
    through any number of passes of [refreshProxies], whatever the
    refreshes return; so with [MaxFail] above 1 no pass ever sets a proxy
    failed. *)
Theorem monitor_never_counts MaxFail tick n Proxies :
  Forall (fun pr => keeps_count (Refresh pr) /\ FailCount (proxy pr) = 0)
         Proxies ->
  Forall (fun pr => keeps_count (Refresh pr) /\ FailCount (proxy pr) = 0)
         (monitor MaxFail tick n Proxies) /\
  (1 < MaxFail -> (0 < n)%nat ->
   Forall (fun pr => State (proxy pr) <> stateFailed)
          (monitor MaxFail tick n Proxies)).
Proof.
  revert tick Proxies. induction n as [|n IH]; intros tick Proxies Hf.
  { split; [done|]. lia. }
  assert (Hstep : Forall (fun pr => (keeps_count (Refresh pr) /\
                                     FailCount (proxy pr) = 0) /\
                                    (1 < MaxFail ->
                                     State (proxy pr) <> stateFailed))
                         (refreshProxies MaxFail tick Proxies)).
  { unfold refreshProxies. apply Forall_fmap.
    eapply Forall_impl; [exact Hf|]. intros pr [Hk H0]. simpl.
    destruct (refresh_proxy_count_zero MaxFail tick (proxy pr) (Refresh pr)
                Hk H0) as [Hc Hs].
    by repeat split. }
  simpl. destruct (IH (S tick) (refreshProxies MaxFail tick Proxies)) as [I1 I2].
  { eapply Forall_impl; [exact Hstep|]. by intros pr [? _]. }
  split; [done|]. intros Hm _.
  destruct n as [|n]; [|apply I2; [done|lia]].
  simpl. eapply Forall_impl; [exact Hstep|]. intros pr [_ Hs]. by apply Hs.
Qed.

Lemma monitor_never_counts_witness :
  Forall (fun pr => State (proxy pr) <> stateFailed)
         (monitor 5 0 100 [proxy_unreachable; proxy_unreachable]).
Proof.
  apply (monitor_never_counts 5 0 100 [proxy_unreachable; proxy_unreachable]);
    [|done|lia].
  by repeat constructor.
Defined.

End ProxyMore.

(** ** The login handler *)

Section LoginFacts.
Import Server Login Scenarios.

Lemma loginHandler_counted clock req Clusters tries user :
  decoded_body req = Ok user ->
  (count_attempt clock user tries = None /\
   loginHandler clock req Clusters tries =
     ([SetHeader "Access-Control-Allow-Origin" "*";
       WriteHeader StatusTooManyRequests], tries)) \/
  (exists tries',
     count_attempt clock user tries = Some tries' /\
     (loginHandler clock req Clusters tries).2 =
       if some_cluster_accepts req user Clusters
       then <[Username user := mkAuthTry "" 1 (now_login clock)]> tries'
       else tries').
Proof.
  intros Hd. unfold loginHandler. rewrite Hd.
  destruct (count_attempt clock user tries) as [tries'|]; [|by left].
  right. exists tries'. split; [done|].
  destruct (some_cluster_accepts req user Clusters); [|done].
  destruct (SignedString req user); by destruct (Contains _ _).
Qed.

Lemma count_attempt_lookup clock user tries tries' u :
  count_attempt clock user tries = Some tries' ->
  u <> Username user -> tries' !! u = tries !! u.
Proof.
  unfold count_attempt. intros H Hu.
  destruct (tries !! Username user) as [a|].
  - destruct (decide (Try a = 3)).
    + destruct (decide (_ < _)); [done|].
      injection H as <-. by rewrite lookup_insert_ne.
    + injection H as <-. by rewrite lookup_insert_ne.
  - injection H as <-. by rewrite lookup_insert_ne.
Qed.

(** X15: the login handler touches the attempts of one user only.  A
    request whose body does not decode is answered 403 and changes no
    count; any other request leaves the entry of every user but its own as
    it was. *)
Theorem loginHandler_frame clock req Clusters tries :
  (forall e, decoded_body req = Err e ->
     loginHandler clock req Clusters tries =
       ([SetHeader "Access-Control-Allow-Origin" "*";
         WriteHeader StatusForbidden; WriteText "Error in request"], tries)) /\
  (forall user u, decoded_body req = Ok user -> u <> Username user ->
     (loginHandler clock req Clusters tries).2 !! u = tries !! u).
Proof.
  split.
  - intros e He. unfold loginHandler. by rewrite He.
  - intros user u Hd Hu.
    destruct (loginHandler_counted clock req Clusters tries user Hd)
      as [[_ ->]|(tries' & Hc & ->)]; [done|].
    destruct (some_cluster_accepts req user Clusters).
    + rewrite lookup_insert_ne by done. by eapply count_attempt_lookup.
    + by eapply count_attempt_lookup.
Qed.

Lemma loginHandler_refused clock req Clusters tries user auth_try :
  decoded_body req = Ok user ->
  tries !! Username user = Some auth_try ->
  Try auth_try = 3 ->
  now_check clock < Time auth_try + 3 * Minute ->
  loginHandler clock req Clusters tries =
    ([SetHeader "Access-Control-Allow-Origin" "*";
      WriteHeader StatusTooManyRequests], tries).
Proof.
  intros Hd Hl Ht Hn. unfold loginHandler, count_attempt.
  rewrite Hd, Hl. rewrite decide_True by done. by rewrite decide_True.
Qed.

(** X16: a user with three attempts counted is turned away for three
    minutes from the time recorded with the count: the answer is 429, the
    credentials are not looked at (right or wrong, the answer is the same)
    and nothing is written to the counts. *)
Theorem loginHandler_locked clock req Clusters tries user auth_try :
  decoded_body req = Ok user ->
  tries !! Username user = Some auth_try ->
  Try auth_try = 3 ->
  now_check clock < Time auth_try + 3 * Minute ->
  loginHandler clock req Clusters tries =
    ([SetHeader "Access-Control-Allow-Origin" "*";
      WriteHeader StatusTooManyRequests], tries) /\
  status (loginHandler clock req Clusters tries).1 = 429.
Proof.
  intros Hd Hl Ht Hn.
  by rewrite (loginHandler_refused clock req Clusters tries user auth_try).
Qed.

Lemma count_attempt_range clock user tries tries' :
  counts_in_range tries ->
  count_attempt clock user tries = Some tries' ->
  counts_in_range tries'.
Proof.
  unfold count_attempt, counts_in_range. intros Hr H.
  destruct (tries !! Username user) as [a|] eqn:E.
  - pose proof (Hr _ _ E) as Ha. simpl in Ha.
    destruct (decide (Try a = 3)).
    + destruct (decide (_ < _)); [done|]. injection H as <-.
      apply map_Forall_insert_2; [simpl; lia|done].
    + injection H as <-. apply map_Forall_insert_2; [|done]. simpl.
      unfold int64_add. rewrite int64_wrap_id; lia.
  - injection H as <-. apply map_Forall_insert_2; [simpl; lia|done].
Qed.

(** X17: the count of every user stays between 1 and 3: the handler keeps
    this through any request, so the counter never passes the threshold at
    which it turns requests away. *)
Theorem loginHandler_counts_in_range clock req Clusters tries :
  counts_in_range tries ->
  counts_in_range (loginHandler clock req Clusters tries).2.
Proof.
  intros Hr. destruct (decoded_body req) as [user|e] eqn:Hd.
  - destruct (loginHandler_counted clock req Clusters tries user Hd)
      as [[_ ->]|(tries' & Hc & ->)]; [done|].
    pose proof (count_attempt_range clock user tries tries' Hr Hc) as Hr'.
    destruct (some_cluster_accepts req user Clusters); [|done].
    apply map_Forall_insert_2; [simpl; lia|done].
  - unfold loginHandler. by rewrite Hd.
Qed.

(** A login that a cluster accepts sets the count of the user back to 1,
    stamps it with the time of the login, and leaves the user name of the
    entry empty. *)
Lemma loginHandler_accepted clock req Clusters tries user tries' :
  decoded_body req = Ok user ->
  count_attempt clock user tries = Some tries' ->
  some_cluster_accepts req user Clusters = true ->
  (loginHandler clock req Clusters tries).2 !! Username user
    = Some (mkAuthTry "" 1 (now_login clock)).
Proof.
  intros Hd Hc Ha.
  destruct (loginHandler_counted clock req Clusters tries user Hd)
    as [[Hn _]|(t & Ht & ->)]; [congruence|].
  by rewrite Ha, lookup_insert_eq.
Qed.

Lemma loginHandler_status clock req Clusters tries :
  status (loginHandler clock req Clusters tries).1 =
  match decoded_body req with
  | Err _ => 403
  | Ok user =>
      match count_attempt clock user tries with
      | None => 429
      | Some _ =>
          if some_cluster_accepts req user Clusters then
            match SignedString req user with
            | Ok _ => 200
            | Err _ => 500
            end
          else 403
      end
  end.
Proof.
  unfold loginHandler. destruct (decoded_body req) as [user|]; [|done].
  destruct (count_attempt clock user tries); [|done].
  destruct (some_cluster_accepts req user Clusters); [|done].
  destruct (SignedString req user); by destruct (Contains _ _).
Qed.

(** X18: the lock is timed from the entry, not from the last attempt.
    Once three minutes have passed since the time recorded with the count
    (the first attempt of the series, or the last valid login), a user
    with three attempts counted is let through to the check of the
    credentials: the answer is not 429, and the entry restarts at one
    attempt: stamped anew when the credentials fail, reset by the login
    when they hold. *)
Theorem loginHandler_lock_expires clock req Clusters tries user auth_try :
  decoded_body req = Ok user ->
  tries !! Username user = Some auth_try ->
  Try auth_try = 3 ->
  Time auth_try + 3 * Minute <= now_check clock ->
  (loginHandler clock req Clusters tries).2 !! Username user =
    Some (if some_cluster_accepts req user Clusters
          then mkAuthTry "" 1 (now_login clock)
          else mkAuthTry (User auth_try) 1 (now_attempt clock)) /\
  status (loginHandler clock req Clusters tries).1 <> 429.
Proof.
  intros Hd Hl Ht Hn.
  assert (Hc : count_attempt clock user tries =
               Some (<[Username user :=
                         mkAuthTry (User auth_try) 1 (now_attempt clock)]>
                       tries)).
  { unfold count_attempt. rewrite Hl. rewrite decide_True by done.
    rewrite decide_False by lia. done. }
  split.
  - destruct (loginHandler_counted clock req Clusters tries user Hd)
      as [[Hno _]|(t & Ht' & ->)]; [congruence|].
    rewrite Hc in Ht'. injection Ht' as <-.
    destruct (some_cluster_accepts req user Clusters);
      by rewrite lookup_insert_eq.
  - rewrite loginHandler_status, Hd, Hc.
    destruct (some_cluster_accepts req user Clusters); [|done].
    by destruct (SignedString req user).
Qed.

Lemma loginHandler_lock_expires_witness :
  status (loginHandler (mkClock (3 * Minute) (3 * Minute) (3 * Minute))
            (good_login (mkCredentials "admin" "repman"))
            (local_clusters false)
            {[ "admin" := mkAuthTry "admin" 3 0 ]}).1 <> 429.
Proof.
  by destruct (loginHandler_lock_expires
                 (mkClock (3 * Minute) (3 * Minute) (3 * Minute))
                 (good_login (mkCredentials "admin" "repman"))
                 (local_clusters false) {[ "admin" := mkAuthTry "admin" 3 0 ]}
                 (mkCredentials "admin" "repman") (mkAuthTry "admin" 3 0)
                 eq_refl (lookup_singleton_eq _ _) eq_refl
                 ltac:(vm_compute; discriminate)) as [_ H].
Defined.

Lemma bad_login_rejected user Clusters :
  some_cluster_accepts (bad_login user) user Clusters = false.
Proof.
  unfold some_cluster_accepts. simpl. by induction ((map_to_list Clusters).*2).
Qed.

Lemma count_attempt_new clock user tries :
  tries !! Username user = None ->
  count_attempt clock user tries =
    Some (<[Username user :=
              mkAuthTry (Username user) 1 (now_attempt clock)]> tries).
Proof. intros H. unfold count_attempt. by rewrite H. Qed.

Lemma logins_cons Clusters clock req rest tries :
  logins Clusters ((clock, req) :: rest) tries =
  ((loginHandler clock req Clusters tries).1
     :: (logins Clusters rest (loginHandler clock req Clusters tries).2).1,
   (logins Clusters rest (loginHandler clock req Clusters tries).2).2).
Proof. reflexivity. Qed.

Lemma two_more_failures Clusters tries user auth_try c1 c2 c3 req3 :
  tries !! Username user = Some auth_try ->
  Try auth_try = 1 ->
  decoded_body req3 = Ok user ->
  now_check c3 < Time auth_try + 3 * Minute ->
  let run := logins Clusters
               [(c1, bad_login user); (c2, bad_login user); (c3, req3)]
               tries in
  status <$> run.1 = [403; 403; 429] /\
  run.2 !! Username user
    = Some (mkAuthTry (User auth_try) 3 (Time auth_try)).
Proof.
  intros Hl Ht Hd Hc. cbn zeta.
  pose proof (bad_login_rejected user Clusters) as Hbad.
  set (e2 := mkAuthTry (User auth_try) 2 (Time auth_try)).
  set (e3 := mkAuthTry (User auth_try) 3 (Time auth_try)).
  set (t2 := <[Username user := e2]> tries).
  set (t3 := <[Username user := e3]> t2).
  assert (H2 : loginHandler c1 (bad_login user) Clusters tries =
               ([SetHeader "Access-Control-Allow-Origin" "*";
                 WriteHeader StatusForbidden; WriteText "Invalid credentials"],
                t2)).
  { unfold loginHandler, count_attempt. simpl. rewrite Hl.
    rewrite decide_False by lia. rewrite Ht. by rewrite Hbad. }
  assert (H3 : loginHandler c2 (bad_login user) Clusters t2 =
               ([SetHeader "Access-Control-Allow-Origin" "*";
                 WriteHeader StatusForbidden; WriteText "Invalid credentials"],
                t3)).
  { unfold loginHandler, count_attempt. simpl. unfold t2 at 1.
    rewrite lookup_insert_eq. simpl. by rewrite Hbad. }
  pose proof (loginHandler_refused c3 req3 Clusters t3 user e3 Hd
                (lookup_insert_eq _ _ _) eq_refl Hc) as H4.
  rewrite !logins_cons, H2. cbn [fst snd]. rewrite H3. cbn [fst snd].
  rewrite H4. cbn [fst snd logins]. split; [done|].
  apply lookup_insert_eq.
Qed.

(** X19: three wrong passwords lock the account, the right one included.
    For a user without an entry, after three requests that no cluster
    accepts, a fourth request made less than three minutes after the first
    attempt was stamped is answered 429 even when its credentials are
    valid, and the entry of the user stays at three attempts. *)
Theorem three_strikes Clusters tries user c1 c2 c3 c4 req4 :
  tries !! Username user = None ->
  decoded_body req4 = Ok user ->
  now_check c4 < now_attempt c1 + 3 * Minute ->
  let run := logins Clusters
               [(c1, bad_login user); (c2, bad_login user);
                (c3, bad_login user); (c4, req4)] tries in
  status <$> run.1 = [403; 403; 403; 429] /\
  run.2 !! Username user
    = Some (mkAuthTry (Username user) 3 (now_attempt c1)).
Proof.
  intros Hn Hd Hc. cbn zeta.
  set (e1 := mkAuthTry (Username user) 1 (now_attempt c1)).
  assert (H1 : loginHandler c1 (bad_login user) Clusters tries =
               ([SetHeader "Access-Control-Allow-Origin" "*";
                 WriteHeader StatusForbidden; WriteText "Invalid credentials"],
                <[Username user := e1]> tries)).
  { unfold loginHandler, count_attempt. simpl.
    by rewrite Hn, bad_login_rejected. }
  destruct (two_more_failures Clusters (<[Username user := e1]> tries) user e1
              c2 c3 c4 req4) as [R1 R2];
    [apply lookup_insert_eq|done|done|done|].
  rewrite logins_cons, H1. cbn [fst snd]. rewrite fmap_cons, R1, R2.
  done.
Qed.

Lemma three_strikes_witness :
  let user := mkCredentials "admin" "repman" in
  let c := mkClock 0 0 0 in
  status <$> (logins (local_clusters false)
                [(c, bad_login user); (c, bad_login user);
                 (c, bad_login user); (c, good_login user)] ∅).1
  = [403; 403; 403; 429].
Proof.
  cbn zeta.
  by destruct (three_strikes (local_clusters false) ∅
                 (mkCredentials "admin" "repman") (mkClock 0 0 0)
                 (mkClock 0 0 0) (mkClock 0 0 0) (mkClock 0 0 0)
                 (good_login (mkCredentials "admin" "repman"))
                 (lookup_empty _) eq_refl eq_refl) as [H _].
Defined.

(** X20: a valid login counts as the first attempt of the next series.
    After a login that a cluster accepts, two requests of the same user
    that no cluster accepts are enough to have the next request, made less
    than three minutes after the login, answered 429. *)
Theorem two_strikes_after_login Clusters tries user c0 req0 c1 c2 c3 req3
    tries' :
  decoded_body req0 = Ok user ->
  count_attempt c0 user tries = Some tries' ->
  some_cluster_accepts req0 user Clusters = true ->
  decoded_body req3 = Ok user ->
  now_check c3 < now_login c0 + 3 * Minute ->
  let run := logins Clusters
               [(c0, req0); (c1, bad_login user); (c2, bad_login user);
                (c3, req3)] tries in
  status <$> tail run.1 = [403; 403; 429] /\
  run.2 !! Username user = Some (mkAuthTry "" 3 (now_login c0)).
Proof.
  intros Hd0 Hc0 Ha Hd3 Hn. cbn zeta.
  pose proof (loginHandler_accepted c0 req0 Clusters tries user tries'
                Hd0 Hc0 Ha) as He.
  destruct (two_more_failures Clusters
              (loginHandler c0 req0 Clusters tries).2 user
              (mkAuthTry "" 1 (now_login c0)) c1 c2 c3 req3)
    as [R1 R2]; [done|done|done|done|].
  rewrite logins_cons. cbn [fst snd tail]. by rewrite R1, R2.
Qed.

Lemma two_strikes_after_login_witness :
  let user := mkCredentials "admin" "repman" in
  let c := mkClock 0 0 0 in
  status <$> tail (logins (local_clusters false)
                     [(c, good_login user); (c, bad_login user);
                      (c, bad_login user); (c, good_login user)] ∅).1
  = [403; 403; 429].
Proof.
  cbn zeta.
  by destruct (two_strikes_after_login (local_clusters false) ∅
                 (mkCredentials "admin" "repman") (mkClock 0 0 0)
                 (good_login (mkCredentials "admin" "repman"))
                 (mkClock 0 0 0) (mkClock 0 0 0) (mkClock 0 0 0)
                 (good_login (mkCredentials "admin" "repman")) _
                 eq_refl
                 (count_attempt_new (mkClock 0 0 0)
                    (mkCredentials "admin" "repman") ∅ (lookup_empty _))
                 ltac:(vm_compute; reflexivity) eq_refl eq_refl) as [H _].
Defined.

Lemma loginHandler_frame_witness :
  (loginHandler (mkClock 0 0 0) (bad_login (mkCredentials "admin" "x"))
     (local_clusters false) {[ "dba" := mkAuthTry "dba" 2 0 ]}).2 !! "dba"
  = Some (mkAuthTry "dba" 2 0).
Proof.
  destruct (loginHandler_frame (mkClock 0 0 0)
              (bad_login (mkCredentials "admin" "x")) (local_clusters false)
              {[ "dba" := mkAuthTry "dba" 2 0 ]}) as [_ H].
  rewrite (H (mkCredentials "admin" "x") "dba" eq_refl
             ltac:(vm_compute; discriminate)).
  apply lookup_singleton_eq.
Defined.

Lemma loginHandler_locked_witness :
  status (loginHandler (mkClock Minute Minute Minute)
            (good_login (mkCredentials "admin" "repman"))
            (local_clusters false)
            {[ "admin" := mkAuthTry "admin" 3 0 ]}).1 = 429.
Proof.
  by destruct (loginHandler_locked (mkClock Minute Minute Minute)
                 (good_login (mkCredentials "admin" "repman"))
                 (local_clusters false) {[ "admin" := mkAuthTry "admin" 3 0 ]}
                 (mkCredentials "admin" "repman") (mkAuthTry "admin" 3 0)
                 eq_refl (lookup_singleton_eq _ _) eq_refl eq_refl) as [_ H].
Defined.

Lemma loginHandler_counts_in_range_witness :
  counts_in_range
    (loginHandler (mkClock 0 0 0) (bad_login (mkCredentials "admin" "x"))
       (local_clusters false) ∅).2.
Proof.
  apply (loginHandler_counts_in_range (mkClock 0 0 0)
           (bad_login (mkCredentials "admin" "x")) (local_clusters false) ∅).
  apply map_Forall_empty.
Defined.

End LoginFacts.

(** ** From the configuration to the start of the clusters *)

Section ClusterStartFacts.
Import Viper ClusterConfig Discovery ConfigLoad ClusterStart ConfigScenarios.

Lemma StartCluster_versions prepare Confs repman gl repman' c :
  StartCluster prepare Confs repman gl = Some repman' ->
  is_Some (VersionConfs repman' !! c) <-> is_Some (VersionConfs repman !! c).
Proof.
  unfold StartCluster. destruct (VersionConfs repman !! gl) eqn:E; [|done].
  intros [= <-]. simpl. destruct (decide (gl = c)) as [->|Hc].
  - rewrite lookup_insert_eq, E. split; by eauto.
  - by rewrite lookup_insert_ne.
Qed.

Lemma start_clusters_versions prepare Confs l repman :
  is_Some (start_clusters prepare Confs l repman) <->
  forall c, c ∈ l -> is_Some (VersionConfs repman !! c).
Proof.
  revert repman. induction l as [|gl l IH]; intros repman; simpl.
  - split; [|by eauto]. intros _ c Hc. by apply elem_of_nil in Hc.
  - destruct (StartCluster prepare Confs repman gl) as [r|] eqn:E.
    + rewrite IH. split.
      * intros H c [->|Hc]%elem_of_cons.
        -- unfold StartCluster in E.
           destruct (VersionConfs repman !! gl); [by eauto|done].
        -- apply (StartCluster_versions _ _ _ _ _ c E). by apply H.
      * intros H c Hc. apply (StartCluster_versions _ _ _ _ _ c E).
        apply H. by right.
    + split; [by intros [? ?]|]. intros H. exfalso.
      unfold StartCluster in E. destruct (H gl) as [v Hv]; [by left|].
      by rewrite Hv in E.
Qed.

Lemma load_clusters_unnamed fistRead ImmuableMap DynamicMap conf l st :
  VersionConfs (load_clusters fistRead ImmuableMap DynamicMap conf l st).2
    !! "" = VersionConfs st.2 !! "".
Proof.
  revert st. induction l as [|a l IH]; intros st; [done|].
  unfold load_clusters in *. simpl. rewrite IH. unfold load_cluster. simpl.
  unfold GetClusterConfig. destruct (decide (a = "")); [done|].
  destruct (ConfRewrite _);
    [destruct (Sub fistRead ("saved-" +:+ a))|];
    simpl; by rewrite lookup_insert_ne.
Qed.

Lemma load_clusters_versions fistRead ImmuableMap DynamicMap conf l st c :
  c ∈ l -> c <> "" ->
  is_Some (VersionConfs
             (load_clusters fistRead ImmuableMap DynamicMap conf l st).2 !! c).
Proof.
  intros Hin Hc. revert st Hin.
  induction l as [|a l IH] using rev_ind; intros st Hin.
  { by apply elem_of_nil in Hin. }
  unfold load_clusters in *. rewrite foldl_app. simpl.
  set (mid := foldl (load_cluster fistRead ImmuableMap DynamicMap conf) st l)
    in *.
  unfold load_cluster. simpl.
  destruct (decide (a = c)) as [->|Hac].
  - destruct (GetClusterConfig_named mid.2 fistRead ImmuableMap DynamicMap
                c conf Hc) as (dyn & confs & -> & _).
    simpl. rewrite lookup_insert_eq. by eexists.
  - apply elem_of_app in Hin as [Hin|Hin%list_elem_of_singleton]; [|done].
    pose proof (IH st Hin) as I. fold mid in I.
    destruct (decide (a = "")) as [->|Ha].
    + unfold GetClusterConfig. by rewrite decide_True.
    + destruct (GetClusterConfig_named mid.2 fistRead ImmuableMap DynamicMap
                  a conf Ha) as (dyn & confs & -> & _).
      simpl. by rewrite lookup_insert_ne.
Qed.

(** X21: which configurations let [Run] start its clusters.  After
    [InitConfig], the loop of [Run] over the cluster list gets through
    exactly when some cluster is named, by the configuration group or by
    discovery, and no name of the list is empty.  With nothing named, the
    list ends in ["Default"], for which [InitConfig] stored a configuration
    but no record of versions; with an empty name between commas,
    [GetClusterConfig] stored nothing for it: [StartCluster] then stores
    through a nil pointer. *)
Theorem InitConfig_Run_starts prepare cfgGroup m fistRead ImmuableMap
    DynamicMap conf flags ClusterList confs :
  let strClusters := if decide (cfgGroup = "") then DiscoverClusters m
                     else cfgGroup in
  is_Some (InitConfig_Run prepare cfgGroup m fistRead ImmuableMap DynamicMap
             conf flags ClusterList confs) <->
  strClusters <> "" /\ "" ∉ Go.Split strClusters ","%char.
Proof.
  cbn zeta. unfold InitConfig_Run, InitConfig_clusters.
  set (s := if decide (cfgGroup = "") then DiscoverClusters m else cfgGroup).
  destruct (decide (s ≠ "")) as [Hs|Hs].
  - set (st := (confs, _)).
    destruct (load_clusters fistRead ImmuableMap DynamicMap conf
                (Go.Split s ",") st) as [Confs repman] eqn:El.
    rewrite start_clusters_versions. split.
    + intros H. split; [done|]. intros Hin. destruct (H "" Hin) as [v Hv].
      pose proof (load_clusters_unnamed fistRead ImmuableMap DynamicMap conf
                    (Go.Split s ",") st) as Hu.
      rewrite El in Hu. simpl in Hu. by rewrite Hv in Hu.
    + intros [_ Hn] c Hc.
      assert (c <> "") as Hne by (by intros ->).
      pose proof (load_clusters_versions fistRead ImmuableMap DynamicMap conf
                    (Go.Split s ",") st c Hc Hne) as H.
      by rewrite El in H.
  - apply dec_stable in Hs. split; [|by intros [? _]].
    rewrite start_clusters_versions. intros H. exfalso.
    destruct (H "Default") as [v Hv]; [apply elem_of_app; right; by left|].
    done.
Qed.

Lemma InitConfig_Run_starts_witness :
  InitConfig_Run prepare_nothing "" ["default.failover-limit"; "log-level"]
    root_c1 ∅ ∅ Config_zero [] [] ∅ = None /\
  InitConfig_Run prepare_nothing "c1,,c2" [] root_c1 ∅ ∅ Config_zero [] [] ∅
    = None /\
  is_Some (InitConfig_Run prepare_nothing "c1,c2" [] root_c1 ∅ ∅ Config_zero
             [] [] ∅).
Proof.
  split; [|split].
  - apply eq_None_not_Some. intros H.
    apply (InitConfig_Run_starts prepare_nothing ""
             ["default.failover-limit"; "log-level"]) in H as [H _].
    by apply H.
  - apply eq_None_not_Some. intros H.
    apply (InitConfig_Run_starts prepare_nothing "c1,,c2" []) in H as [_ H].
    apply H. by_compute.
  - apply (InitConfig_Run_starts prepare_nothing "c1,c2" []).
    split; [done|]. by_compute.
Defined.

End ClusterStartFacts.

(** ** The list of proxies *)

Section ProxyListFacts.
Import ProxyList.
Local Open Scope nat_scope.

Lemma store_filled prx stored n :
  store prx (filled stored (S n)) = Some (filled (stored ++ [prx]) n).
Proof.
  unfold store, filled. cbn [fst snd].
  rewrite decide_True
    by (rewrite length_app, length_fmap, length_replicate; lia).
  f_equal. f_equal.
  - rewrite insert_app_r_alt by (rewrite length_fmap; lia).
    rewrite length_fmap, Nat.sub_diag. simpl.
    by rewrite fmap_app, <- app_assoc.
  - rewrite length_app. simpl. lia.
Qed.

Lemma store_hosts_filled d k hosts stored n :
  store_hosts d k hosts (filled stored (length hosts + n)) =
  Some (filled (stored ++ imap (fun i proxyHost =>
                  mkNewProxy d (Some ((k + i)%nat, proxyHost))
                             Proxies.stateSuspect) hosts) n).
Proof.
  revert k stored. induction hosts as [|h hosts IH]; intros k stored.
  - simpl. by rewrite app_nil_r.
  - cbn [store_hosts length Nat.add]. rewrite store_filled, IH. f_equal.
    rewrite <- app_assoc. simpl. rewrite Nat.add_0_r. do 3 f_equal.
    apply imap_ext. intros i x _. simpl. do 3 f_equal. lia.
Qed.

Lemma store_list_filled on d hosts stored n :
  store_list on d hosts
    (filled stored ((if on then count_hosts hosts else 0) + n)) =
  Some (filled (stored ++ made_hosts on d hosts) n).
Proof.
  unfold store_list, made_hosts, count_hosts. destruct on.
  - by rewrite store_hosts_filled.
  - simpl. by rewrite app_nil_r.
Qed.

Lemma store_one_filled on d stored n :
  store_one on d (filled stored ((if on then 1 else 0) + n)) =
  Some (filled (stored ++ made_one on d) n).
Proof.
  unfold store_one, made_one. destruct on.
  - apply store_filled.
  - simpl. by rewrite app_nil_r.
Qed.

Lemma nbproxies_split conf :
  nbproxies conf =
  ((if bool_decide (MxsHost conf ≠ "") && MxsOn conf
    then count_hosts (MxsHost conf) else 0)
   + ((if HaproxyOn conf then count_hosts (HaproxyHosts conf) else 0)
   + ((if ExtProxyOn conf then 1 else 0)
   + ((if ProxysqlOn conf then count_hosts (ProxysqlHosts conf) else 0)
   + ((if bool_decide (MdbsProxyHosts conf ≠ "") && MdbsProxyOn conf
       then count_hosts (MdbsProxyHosts conf) else 0)
   + ((if bool_decide (SphinxHosts conf ≠ "") && SphinxOn conf
       then count_hosts (SphinxHosts conf) else 0)
   + ((if MyproxyOn conf then 1 else 0) + unassigned conf)))))))%nat.
Proof.
  unfold nbproxies, unassigned.
  set (mxs := bool_decide (MxsHost conf ≠ "") && MxsOn conf).
  set (mdbs := bool_decide (MdbsProxyHosts conf ≠ "") && MdbsProxyOn conf).
  destruct (decide (SphinxHosts conf = "")) as [E|E].
  - rewrite E. change (count_hosts "") with 1.
    change (bool_decide ("" ≠ "")) with false.
    change (bool_decide ("" = "")) with true.
    destruct mxs, (HaproxyOn conf), (ExtProxyOn conf), (ProxysqlOn conf),
      mdbs, (MysqlRouterOn conf), (MyproxyOn conf), (SphinxOn conf);
      cbn [andb]; lia.
  - rewrite (bool_decide_eq_true_2 _ E), (bool_decide_eq_false_2 _ E).
    destruct mxs, (HaproxyOn conf), (ExtProxyOn conf), (ProxysqlOn conf),
      mdbs, (MysqlRouterOn conf), (MyproxyOn conf), (SphinxOn conf);
      cbn [andb]; lia.
Qed.

Lemma newProxyList_filled conf :
  newProxyList conf =
    Some ((Some <$> made conf) ++ replicate (unassigned conf) None)%list.
Proof.
  unfold newProxyList. rewrite (nbproxies_split conf).
  change (replicate ?n None, 0%nat) with (filled [] n).
  rewrite store_list_filled. cbn [mbind option_bind].
  rewrite store_list_filled. cbn [mbind option_bind].
  rewrite store_one_filled. cbn [mbind option_bind].
  rewrite store_list_filled. cbn [mbind option_bind].
  rewrite store_list_filled. cbn [mbind option_bind].
  rewrite store_list_filled. cbn [mbind option_bind].
  rewrite store_one_filled. cbn [mbind option_bind].
  unfold filled, made. cbn [fst app]. by rewrite <- !app_assoc.
Qed.

(** X22: [newProxyList] never stores out of the list it made, and the list
    is laid out as: the proxies made, each suspect, in the order MaxScale,
    HAProxy, external, ProxySQL, shard proxy, Sphinx, internal proxy, with
    the hosts of each list in their order; then the slots that were
    counted and not assigned.  Its length is the number counted. *)
Theorem newProxyList_layout conf :
  newProxyList conf =
    Some ((Some <$> made conf) ++ replicate (unassigned conf) None)%list /\
  (forall l, newProxyList conf = Some l -> length l = nbproxies conf) /\
  Forall (fun prx => State prx = Proxies.stateSuspect) (made conf).
Proof.
  pose proof (newProxyList_filled conf) as H.
  split; [exact H|]. split.
  - intros l. rewrite H. intros [= <-].
    rewrite length_app, length_fmap, length_replicate.
    rewrite (nbproxies_split conf). unfold made.
    rewrite !length_app. unfold made_hosts, made_one, count_hosts.
    repeat match goal with
           | |- context [if ?b then _ else _] => destruct b
           end; rewrite ?length_imap; simpl; lia.
  - unfold made, made_hosts, made_one. rewrite !Forall_app.
    repeat split;
      repeat match goal with
             | |- context [if ?b then _ else _] => destruct b
             end;
      try (apply Forall_nil_2);
      try (apply Forall_singleton; reflexivity);
      apply Forall_forall; intros x [i [y [-> _]]]%elem_of_lookup_imap;
      reflexivity.
Qed.

Lemma newProxyList_layout_witness :
  newProxyList conf_router =
  Some [Some (mkNewProxy HaproxyProxy (Some (0%nat, "ha1")) "suspect");
        Some (mkNewProxy HaproxyProxy (Some (1%nat, "ha2")) "suspect");
        None].
Proof.
  destruct (newProxyList_layout conf_router) as (H & _ & _).
  rewrite H. vm_compute. reflexivity.
Defined.

(** X23: the list that [newProxyList] leaves has a nil slot exactly when
    MySQL Router is on, or Sphinx is on without hosts: both are counted
    when the list is sized, and no proxy is made for them. *)
Theorem newProxyList_nil_slots conf :
  exists l, newProxyList conf = Some l /\
    (None ∈ l <->
     MysqlRouterOn conf = true \/
     (SphinxOn conf = true /\ SphinxHosts conf = "")).
Proof.
  pose proof (newProxyList_filled conf) as H.
  eexists. split; [exact H|].
  rewrite elem_of_app, list_elem_of_fmap, elem_of_replicate.
  unfold unassigned, count_hosts. split.
  - intros [(? & ? & _)|[_ Hn]]; [done|].
    destruct (MysqlRouterOn conf); [by left|]. right.
    destruct (SphinxOn conf); [|done].
    destruct (decide (SphinxHosts conf = "")); [done|].
    by rewrite bool_decide_eq_false_2 in Hn.
  - intros Hc. right. split; [done|].
    destruct Hc as [->|[-> ->]].
    + pose proof (Split_not_nil (MysqlRouterHosts conf) ",") as Hs.
      destruct (Go.Split (MysqlRouterHosts conf) ","); [done|]. simpl. lia.
    + rewrite bool_decide_eq_true_2 by done. simpl. lia.
Qed.

Lemma newProxyList_nil_slots_witness :
  exists l, newProxyList conf_router = Some l /\ None ∈ l.
Proof.
  destruct (newProxyList_nil_slots conf_router) as (l & H & Hi).
  exists l. split; [exact H|]. apply Hi. by left.
Defined.

End ProxyListFacts.
